(** * License keys, activation accounting and webhook issuance

    A shallow embedding of the license code of the AI resume generator:

    - the signer and verifier [generateLicenseKey] / [verifyLicenseKey]
      (the license utility module and its copy [licenseUtils] in the
      enhanced server, plus the older three-argument generator);
    - the quota-tracking routes of [routes/license.routes.js]
      ([/verify], [/deactivate]) over the schema of
      [models/license.model.js];
    - the enhanced server's [/api/license/verify], its admin
      activate/deactivate routes and its Gumroad webhook;
    - the two verification routes once more with the readings of the
      clock of one call told apart ([Readings]);
    - the admin router's activate/deactivate routes;
    - the Gumroad webhook and the Stripe checkout helper of the webhook
      router, its AppSumo webhook and its Stripe route;
    - the enhanced server's route that creates a license for the admin,
      and the masking of the database address it logs;
    - the account routes [/register] and [/login];
    - the watermarks of [utils/watermarking.js].

    Conventions.  A JavaScript string is the sequence of its UTF-8 bytes
    (a [string] of Rocq), so [Buffer.from(s)] and [buf.toString()] are
    the identity on the texts the signer produces.  Library calls whose
    result the code only passes around (HMAC, JSON text, dates) are the
    fields of the class [NodeRuntime]; [Node] below is an executable
    instance of it.  Clock readings, random bytes and the outcome of the
    mail transport are explicit arguments of the handlers.  Request
    fields the specification calls required are strings; optional ones
    are [option string], [None] standing for [undefined]. *)

From Stdlib Require Import ZArith NArith List String Ascii Bool Lia DecimalString.
Import ListNotations.
Local Open Scope string_scope.
Local Open Scope Z_scope.
Set Warnings "-register-all".

(** ** JavaScript values that JSON can carry *)

Module JS.

Inductive json : Type :=
| JNull
| JBool (b : bool)
| JNum (n : Z)
| JStr (s : string)
| JArr (items : list json)
| JObj (fields : list (string * json)).

(** An object is its list of own properties in enumeration order. *)
Definition object := list (string * json).

(** [o[k]] for an own property; [None] is [undefined]. *)
Fixpoint lookup (k : string) (o : object) : option json :=
  match o with
  | [] => None
  | (k', v) :: rest => if String.eqb k k' then Some v else lookup k rest
  end.

(** [o[k] = v]: an existing key keeps its place, a new one goes last. *)
Fixpoint assign (k : string) (v : json) (o : object) : object :=
  match o with
  | [] => [(k, v)]
  | (k', v') :: rest =>
      if String.eqb k k' then (k', v) :: rest else (k', v') :: assign k v rest
  end.

(** [{...src}] copied onto [dst], property by property. *)
Definition spread (dst src : object) : object :=
  fold_left (fun acc kv => assign (fst kv) (snd kv) acc) src dst.

(** [v.k] where [k] is none of the names the prototypes define
    ([length], [constructor], ...): only objects have such a property. *)
Definition prop (v : json) (k : string) : option json :=
  match v with
  | JObj fields => lookup k fields
  | _ => None
  end.

(** ToBoolean. *)
Definition truthy (v : option json) : bool :=
  match v with
  | None => false
  | Some JNull => false
  | Some (JBool b) => b
  | Some (JNum n) => negb (n =? 0)
  | Some (JStr s) => negb (String.eqb s "")
  | Some (JArr _) => true
  | Some (JObj _) => true
  end.

(** [a === b] where [b] is a string. *)
Definition strict_eq_string (a : option json) (b : string) : bool :=
  match a with
  | Some (JStr s) => String.eqb s b
  | _ => false
  end.

(** Truthiness of an optional request field that is a string. *)
Definition truthy_field (f : option string) : bool :=
  match f with
  | Some s => negb (String.eqb s "")
  | None => false
  end.

(** [f || dflt] for an optional string field. *)
Definition or_default (f : option string) (dflt : string) : string :=
  match f with
  | Some s => if String.eqb s "" then dflt else s
  | None => dflt
  end.

End JS.
Import JS.

(** ** Base64 as [Buffer] does it *)

Module Base64.

Definition alphabet : string :=
  "ABCDEFGHIJKLMNOPQRSTUVWXYZabcdefghijklmnopqrstuvwxyz0123456789+/".

Definition digit (n : N) : ascii :=
  match String.get (N.to_nat n) alphabet with
  | Some c => c
  | None => "="%char
  end.

(** [buf.toString('base64')]: the standard alphabet, padded with [=]. *)
Fixpoint encode (s : string) : string :=
  match s with
  | EmptyString => EmptyString
  | String a EmptyString =>
      let x := N_of_ascii a in
      String (digit (x / 4)) (String (digit ((x mod 4) * 16)) "==")
  | String a (String b EmptyString) =>
      let x := N_of_ascii a in
      let y := N_of_ascii b in
      String (digit (x / 4))
        (String (digit ((x mod 4) * 16 + y / 16))
           (String (digit ((y mod 16) * 4)) "="))
  | String a (String b (String c rest)) =>
      let x := N_of_ascii a in
      let y := N_of_ascii b in
      let z := N_of_ascii c in
      String (digit (x / 4))
        (String (digit ((x mod 4) * 16 + y / 16))
           (String (digit ((y mod 16) * 4 + z / 64))
              (String (digit (z mod 64)) (encode rest))))
  end%N.

(** The decoder's table: both the standard and the URL-safe alphabet. *)
Definition unbase64 (c : ascii) : option N :=
  let n := N_of_ascii c in
  (if (65 <=? n) && (n <=? 90) then Some (n - 65)
   else if (97 <=? n) && (n <=? 122) then Some (n - 71)
   else if (48 <=? n) && (n <=? 57) then Some (n + 4)
   else if (n =? 43) || (n =? 45) then Some 62
   else if (n =? 47) || (n =? 95) then Some 63
   else None)%N.

(** The sextets of a text: characters outside the table are skipped and
    the first [=] ends the data. *)
Fixpoint sextets (s : string) : list N :=
  match s with
  | EmptyString => []
  | String c rest =>
      if Ascii.eqb c "="%char then []
      else match unbase64 c with
           | Some n => n :: sextets rest
           | None => sextets rest
           end
  end.

(** Four sextets give three bytes; a final group of three gives two
    bytes and one of two gives one byte, the bits left over are dropped;
    a single left-over sextet gives nothing. *)
Fixpoint bytes (l : list N) : string :=
  match l with
  | a :: b :: c :: d :: rest =>
      String (ascii_of_N ((a * 4 + b / 16) mod 256))
        (String (ascii_of_N (((b mod 16) * 16 + c / 4) mod 256))
           (String (ascii_of_N (((c mod 4) * 64 + d) mod 256)) (bytes rest)))
  | [a; b; c] =>
      String (ascii_of_N ((a * 4 + b / 16) mod 256))
        (String (ascii_of_N (((b mod 16) * 16 + c / 4) mod 256)) EmptyString)
  | [a; b] => String (ascii_of_N ((a * 4 + b / 16) mod 256)) EmptyString
  | _ => EmptyString
  end%N.

(** [Buffer.from(text, 'base64')]. *)
Definition decode (s : string) : string := bytes (sextets s).

End Base64.

(** ** The library calls of the license code *)

Class NodeRuntime : Type := {
  (** [crypto.createHmac('sha256', key).update(text).digest('hex')] *)
  hmac_sha256_hex : string -> string -> string;
  (** [JSON.stringify(v)] *)
  JSON_stringify : json -> string;
  (** [JSON.parse(text)]; [None] when it throws *)
  JSON_parse : string -> option json;
  (** [new Date(v).getTime()]; [None] for an invalid date *)
  Date_getTime : json -> option Z;
  (** [new Date(t).toISOString()] for a time in milliseconds *)
  Date_toISOString : Z -> string;
  (** [d.setFullYear(d.getFullYear() + 1)] on the date of time [t] *)
  Date_nextYear : Z -> Z
}.

(** [process.env]: the variables the license code reads. *)
Record ProcessEnv : Type := {
  env_LICENSE_SECRET : option string;
  env_GUMROAD_SELLER_ID : option string;
  env_ADMIN_SECRET : option string
}.

(** [buf.toString('hex')] *)
Module Hex.

Definition digit (n : N) : ascii :=
  match String.get (N.to_nat n) "0123456789abcdef" with
  | Some c => c
  | None => "0"%char
  end.

Fixpoint encode (s : string) : string :=
  match s with
  | EmptyString => EmptyString
  | String c rest =>
      let n := N_of_ascii c in
      String (digit (n / 16)) (String (digit (n mod 16)) (encode rest))
  end%N.

End Hex.

(** ** The signer and the verifier *)

Inductive VerifyResult : Type :=
| Valid (data : json)
| Invalid (reason : string).

Record Issued : Type := {
  issued_licenseKey : string;
  issued_licenseData : json
}.

Section Signer.
Context {node : NodeRuntime}.

(** The envelope [{data, sig}] as its base64 text. *)
Definition sealKey (secret : string) (licenseData : json) : string :=
  let dataStr := JSON_stringify licenseData in
  let signature := hmac_sha256_hex secret dataStr in
  Base64.encode
    (JSON_stringify (JObj [("data", licenseData); ("sig", JStr signature)])).

(** [new Date() > new Date(v)]: false when [v] is no date. *)
Definition past (now : Z) (v : option json) : bool :=
  match v with
  | Some x => match Date_getTime x with
              | Some t => now >? t
              | None => false
              end
  | None => false
  end.

(** The body shared by the copies of [verifyLicenseKey]: they differ in
    where the secret comes from and in the name of the expiry property.
    Every exception inside the [try] ends in the [catch]: a text that is
    no JSON, destructuring [null], a missing secret, [update(undefined)]
    when there is no [data], and reading a property of [null]. *)
Definition verifyEnvelope (secret : option string) (expiry : string)
    (now : Z) (licenseKey : string) : VerifyResult :=
  match JSON_parse (Base64.decode licenseKey) with
  | None => Invalid "Invalid license format"
  | Some JNull => Invalid "Invalid license format"
  | Some licenseObj =>
      match secret, prop licenseObj "data" with
      | None, _ => Invalid "Invalid license format"
      | Some _, None => Invalid "Invalid license format"
      | Some key, Some data =>
          let expectedSignature := hmac_sha256_hex key (JSON_stringify data) in
          if negb (strict_eq_string (prop licenseObj "sig") expectedSignature)
          then Invalid "Invalid signature"
          else match data with
               | JNull => Invalid "Invalid license format"
               | _ =>
                   if truthy (prop data expiry) && past now (prop data expiry)
                   then Invalid "License expired"
                   else Valid data
               end
      end
  end.

End Signer.

(** The license utility module. *)
Module LicenseUtil.
Section Defs.
Context {node : NodeRuntime}.

(** [process.env.LICENSE_SECRET || 'your-license-secret-key'] *)
Definition LICENSE_SECRET (env : ProcessEnv) : string :=
  or_default (env_LICENSE_SECRET env) "your-license-secret-key".

(** [generateLicenseKey(data)] at clock reading [now], [rnd] being the
    eight bytes of [crypto.randomBytes(8)]. *)
Definition generateLicenseKey (env : ProcessEnv) (data : object)
    (now : Z) (rnd : string) : Issued :=
  let licenseData :=
    JObj (assign "uid" (JStr (Hex.encode rnd))
            (assign "createdAt" (JStr (Date_toISOString now))
               (spread [] data))) in
  {| issued_licenseKey := sealKey (LICENSE_SECRET env) licenseData;
     issued_licenseData := licenseData |}.

Definition verifyLicenseKey (env : ProcessEnv) (now : Z)
    (licenseKey : string) : VerifyResult :=
  verifyEnvelope (Some (LICENSE_SECRET env)) "expiresAt" now licenseKey.

End Defs.
End LicenseUtil.

(** The enhanced server's [licenseUtils]: the same two functions over
    [CONFIG.LICENSE_SECRET]. *)
Module LicenseUtils.
Section Defs.
Context {node : NodeRuntime}.

Definition CONFIG_LICENSE_SECRET (env : ProcessEnv) : string :=
  or_default (env_LICENSE_SECRET env) "license-secret-key-change-in-production".

Definition generateLicenseKey (env : ProcessEnv) (data : object)
    (now : Z) (rnd : string) : Issued :=
  let licenseData :=
    JObj (assign "uid" (JStr (Hex.encode rnd))
            (assign "createdAt" (JStr (Date_toISOString now))
               (spread [] data))) in
  {| issued_licenseKey := sealKey (CONFIG_LICENSE_SECRET env) licenseData;
     issued_licenseData := licenseData |}.

Definition verifyLicenseKey (env : ProcessEnv) (now : Z)
    (licenseKey : string) : VerifyResult :=
  verifyEnvelope (Some (CONFIG_LICENSE_SECRET env)) "expiresAt" now licenseKey.

End Defs.
End LicenseUtils.

(** The older generator the routers import: three arguments, a UUID and
    the property [expirationDate]; the secret is read from the
    environment at each call and may be missing. *)
Module LicenseGenerator.
Section Defs.
Context {node : NodeRuntime}.

(** [expirationDate] is an ISO text or [null].  [None] is the exception
    [createHmac] throws when [process.env.LICENSE_SECRET] is not set. *)
Definition generateLicenseKey (env : ProcessEnv) (userId productId : string)
    (expirationDate : option string) (uniqueId : string) (now : Z)
    : option Issued :=
  let licenseData :=
    JObj [("userId", JStr userId);
          ("productId", JStr productId);
          ("uniqueId", JStr uniqueId);
          ("expirationDate",
            match expirationDate with Some d => JStr d | None => JNull end);
          ("createdAt", JStr (Date_toISOString now))] in
  match env_LICENSE_SECRET env with
  | None => None
  | Some secret =>
      Some {| issued_licenseKey := sealKey secret licenseData;
              issued_licenseData := licenseData |}
  end.

Definition verifyLicenseKey (env : ProcessEnv) (now : Z)
    (licenseKey : string) : VerifyResult :=
  verifyEnvelope (env_LICENSE_SECRET env) "expirationDate" now licenseKey.

End Defs.
End LicenseGenerator.

(** ** A collection of documents

    Documents are kept in insertion order; [ObjectId]s are numbers.
    [findOne] returns the first match and a write goes to the first
    document carrying the id. *)

Module Collection.
Section Ops.
Context {Doc : Type} (id_of : Doc -> N).

Definition findOne (p : Doc -> bool) (db : list Doc) : option Doc :=
  find p db.

Definition findById (id : N) (db : list Doc) : option Doc :=
  find (fun d => N.eqb (id_of d) id) db.

Fixpoint updateOne (id : N) (f : Doc -> Doc) (db : list Doc) : list Doc :=
  match db with
  | [] => []
  | d :: rest =>
      if N.eqb (id_of d) id then f d :: rest else d :: updateOne id f rest
  end.

(** [doc.save()] on a document that was read from the collection. *)
Definition save (d : Doc) (db : list Doc) : list Doc :=
  updateOne (id_of d) (fun _ => d) db.

(** [doc.save()] on a new document, once it passed validation. *)
Definition insert (d : Doc) (db : list Doc) : list Doc := db ++ [d].

End Ops.
End Collection.

Definition same_field (a b : option string) : bool :=
  match a, b with
  | Some x, Some y => String.eqb x y
  | None, None => true
  | _, _ => false
  end.

(** ** [models/license.model.js] and [routes/license.routes.js] *)

Module LicenseModel.

Inductive Platform : Type := gumroad | appsumo | stripe | manual.

Record License : Type := {
  _id : N;
  licenseKey : string;
  licenseData : json;
  platform : Platform;
  saleId : string;
  email : string;
  machineIds : list string;
  activations : Z;
  maxActivations : Z;
  createdAt : Z;
  expiresAt : option Z;
  isActive : bool
}.

(** What [new License({...})] of the webhooks builds: the schema's
    defaults fill the fields the caller leaves out. *)
Definition newLicense (oid : N) (key : string) (data : json) (p : Platform)
    (sale mail : string) (expires : option Z) (now : Z) : License :=
  {| _id := oid; licenseKey := key; licenseData := data; platform := p;
     saleId := sale; email := mail; machineIds := []; activations := 0;
     maxActivations := 3; createdAt := now; expiresAt := expires;
     isActive := true |}.

(** The validation [save] runs on a new document: the required strings
    are not empty and the unique index on [licenseKey] holds. *)
Definition acceptable (l : License) (db : list License) : bool :=
  negb (String.eqb (licenseKey l) "")
  && negb (String.eqb (saleId l) "")
  && negb (String.eqb (email l) "")
  && negb (existsb (fun x => String.eqb (licenseKey x) (licenseKey l)) db).

(** [license.expiresAt && new Date() > license.expiresAt] *)
Definition lapsed (now : Z) (l : License) : bool :=
  match expiresAt l with
  | Some e => now >? e
  | None => false
  end.

(** [license.machineIds.push(m); license.activations += 1] *)
Definition bind (m : string) (l : License) : License :=
  {| _id := _id l; licenseKey := licenseKey l; licenseData := licenseData l;
     platform := platform l; saleId := saleId l; email := email l;
     machineIds := machineIds l ++ [m];
     activations := activations l + 1;
     maxActivations := maxActivations l; createdAt := createdAt l;
     expiresAt := expiresAt l; isActive := isActive l |}.

(** [license.machineIds = license.machineIds.filter(id => id !== m);
     license.activations = Math.max(0, license.activations - 1)] *)
Definition unbind (m : option string) (l : License) : License :=
  {| _id := _id l; licenseKey := licenseKey l; licenseData := licenseData l;
     platform := platform l; saleId := saleId l; email := email l;
     machineIds :=
       filter (fun id => negb (same_field (Some id) m)) (machineIds l);
     activations := Z.max 0 (activations l - 1);
     maxActivations := maxActivations l; createdAt := createdAt l;
     expiresAt := expiresAt l; isActive := isActive l |}.

(** [license.isActive = b] *)
Definition setActive (b : bool) (l : License) : License :=
  {| _id := _id l; licenseKey := licenseKey l; licenseData := licenseData l;
     platform := platform l; saleId := saleId l; email := email l;
     machineIds := machineIds l; activations := activations l;
     maxActivations := maxActivations l; createdAt := createdAt l;
     expiresAt := expiresAt l; isActive := b |}.

End LicenseModel.

Module LicenseRoutes.
Import LicenseModel.

Record VerifyRequest : Type := {
  body_licenseKey : string;
  body_machineId : option string
}.

(** [res.status(s).json({valid: false, reason})] or
    [res.json({valid: true, expiryDate, email})]. *)
Inductive VerifyResponse : Type :=
| Rejected (status : Z) (reason : string)
| Accepted (expiryDate : option Z) (mail : string).

Inductive DeactivateResponse : Type :=
| NotFound
| Deactivated.

Section Handlers.
Context {node : NodeRuntime}.

(** [router.post('/verify')] *)
Definition verify (env : ProcessEnv) (now : Z) (req : VerifyRequest)
    (db : list License) : VerifyResponse * list License :=
  match LicenseGenerator.verifyLicenseKey env now (body_licenseKey req) with
  | Invalid reason => (Rejected 400 reason, db)
  | Valid _ =>
      match Collection.findOne
              (fun l => String.eqb (licenseKey l) (body_licenseKey req)) db with
      | None => (Rejected 400 "License not found", db)
      | Some license =>
          if negb (isActive license)
          then (Rejected 400 "License is inactive", db)
          else if lapsed now license
          then (Rejected 400 "License has expired", db)
          else
            match body_machineId req with
            | Some machineId =>
                if truthy_field (Some machineId)
                   && negb (existsb (String.eqb machineId) (machineIds license))
                then
                  if activations license >=? maxActivations license
                  then (Rejected 400 "Maximum activations reached", db)
                  else (Accepted (expiresAt license) (email license),
                        Collection.save _id (bind machineId license) db)
                else (Accepted (expiresAt license) (email license), db)
            | None => (Accepted (expiresAt license) (email license), db)
            end
      end
  end.

(** [router.post('/deactivate')], behind the authentication middleware. *)
Definition deactivate (key : string) (machineId : option string)
    (db : list License) : DeactivateResponse * list License :=
  match Collection.findOne (fun l => String.eqb (licenseKey l) key) db with
  | None => (NotFound, db)
  | Some license =>
      (Deactivated, Collection.save _id (unbind machineId license) db)
  end.

End Handlers.
End LicenseRoutes.

(** ** The webhook router: Gumroad sales *)

Module WebhookRoutes.
Import LicenseModel.

Record GumroadBody : Type := {
  seller_id : option string;
  email_of : string;
  product_id : string;
  sale_id : string
}.

(** The object of a [checkout.session.completed] event. *)
Record CheckoutSession : Type := {
  session_id : string;
  session_mode : string;
  session_email : string;
  session_product : option string
}.

Inductive WebhookResponse : Type :=
| Unauthorized      (* 403 *)
| AlreadyExists     (* 200, success, 'License already exists' *)
| Success           (* 200, success *)
| ServerError.      (* 500 *)

Section Handlers.
Context {node : NodeRuntime}.

(** [router.post('/gumroad')] at clock reading [now]; [uuid] is the
    result of [uuidv4()], [oid] the id of the new document and [mailOk]
    tells whether [sendMail] resolved. *)
Definition gumroad (env : ProcessEnv) (now : Z) (uuid : string) (oid : N)
    (mailOk : bool) (body : GumroadBody) (db : list License)
    : WebhookResponse * list License :=
  if negb (same_field (seller_id body) (env_GUMROAD_SELLER_ID env))
  then (Unauthorized, db)
  else
    match Collection.findOne
            (fun l => String.eqb (saleId l) (sale_id body)) db with
    | Some existingLicense => (AlreadyExists, db)
    | None =>
        let expirationDate := Date_nextYear now in
        match LicenseGenerator.generateLicenseKey env (email_of body)
                (product_id body) (Some (Date_toISOString expirationDate))
                uuid now with
        | None => (ServerError, db)
        | Some issued =>
            let license :=
              newLicense oid (issued_licenseKey issued)
                (issued_licenseData issued) LicenseModel.gumroad
                (sale_id body) (email_of body) (Some expirationDate) now in
            if acceptable license db
            then
              if mailOk
              then (Success, Collection.insert license db)
              else (ServerError, Collection.insert license db)
            else (ServerError, db)
        end
    end.

(** [handleCheckoutCompleted(session)]; [None] when it throws. *)
Definition handleCheckoutCompleted (env : ProcessEnv) (now : Z) (uuid : string)
    (oid : N) (session : CheckoutSession) (db : list License)
    : option (list License) :=
  if String.eqb (session_mode session) "payment"
  then
    let expirationDate := Date_nextYear now in
    match LicenseGenerator.generateLicenseKey env (session_email session)
            (or_default (session_product session) "unknown")
            (Some (Date_toISOString expirationDate)) uuid now with
    | None => None
    | Some issued =>
        let license :=
          newLicense oid (issued_licenseKey issued)
            (issued_licenseData issued) LicenseModel.stripe
            (session_id session) (session_email session)
            (Some expirationDate) now in
        if acceptable license db
        then Some (Collection.insert license db)
        else None
    end
  else Some db.

End Handlers.
End WebhookRoutes.

(** ** The enhanced server *)

Module Server.

Inductive Source : Type := manual | gumroad | appsumo | other.

Record Activation : Type := {
  timestamp : Z;
  machineId : string;
  os : string;
  app : string;
  ip : option string
}.

Record License : Type := {
  _id : N;
  licenseKey : string;
  email : string;
  name : option string;
  createdAt : Z;
  expiresAt : option Z;
  isActive : bool;
  source : Source;
  activations : list Activation;
  metadata : option json
}.

(** [license.activations.push(activation)] *)
Definition record (a : Activation) (l : License) : License :=
  {| _id := _id l; licenseKey := licenseKey l; email := email l;
     name := name l; createdAt := createdAt l; expiresAt := expiresAt l;
     isActive := isActive l; source := source l;
     activations := activations l ++ [a]; metadata := metadata l |}.

(** The update [{ isActive: b }]. *)
Definition setActive (b : bool) (l : License) : License :=
  {| _id := _id l; licenseKey := licenseKey l; email := email l;
     name := name l; createdAt := createdAt l; expiresAt := expiresAt l;
     isActive := b; source := source l;
     activations := activations l; metadata := metadata l |}.

Definition lapsed (now : Z) (l : License) : bool :=
  match expiresAt l with
  | Some e => now >? e
  | None => false
  end.

Definition acceptable (l : License) (db : list License) : bool :=
  negb (String.eqb (licenseKey l) "")
  && negb (String.eqb (email l) "")
  && negb (existsb (fun x => String.eqb (licenseKey x) (licenseKey l)) db).

Record VerifyRequest : Type := {
  body_licenseKey : option string;
  body_machineId : option string;
  body_os : option string;
  body_app : option string;
  clientIP : option string
}.

Inductive VerifyResponse : Type :=
| Rejected (status : Z) (reason : string)
| Accepted (nm : option string) (mail : string) (expires : option Z).

Inductive AdminResponse : Type :=
| AdminUnauthorized           (* 401 *)
| AdminNotFound               (* 404 *)
| AdminLicense (l : License). (* 200 *)

Record GumroadBody : Type := {
  seller_id : option string;
  resource_name : option string;
  email_of : string;
  full_name : string;
  sale_id : string;
  product_id : string
}.

Inductive WebhookResponse : Type :=
| InvalidSeller               (* 403 *)
| Acknowledged                (* 200, 'Non-sale event acknowledged' *)
| Exists (l : License)        (* 200, 'License already exists' *)
| Created (l : License)       (* 200, 'License created' *)
| Failed.                     (* 500 *)

Definition CONFIG_ADMIN_SECRET (env : ProcessEnv) : string :=
  or_default (env_ADMIN_SECRET env) "admin-secret-key-change-in-production".

Definition CONFIG_GUMROAD_SELLER_ID (env : ProcessEnv) : string :=
  or_default (env_GUMROAD_SELLER_ID env) "".

(** [adminAuthMiddleware] lets the request through. *)
Definition adminAuth (env : ProcessEnv) (x_admin_secret : option string) : bool :=
  same_field x_admin_secret (Some (CONFIG_ADMIN_SECRET env)).

Section Handlers.
Context {node : NodeRuntime}.

(** [app.post('/api/license/verify')] *)
Definition verify (env : ProcessEnv) (now : Z) (req : VerifyRequest)
    (db : list License) : VerifyResponse * list License :=
  match body_licenseKey req with
  | None => (Rejected 400 "License key is required", db)
  | Some key =>
      if String.eqb key ""
      then (Rejected 400 "License key is required", db)
      else
        match LicenseUtils.verifyLicenseKey env now key with
        | Invalid reason => (Rejected 403 reason, db)
        | Valid _ =>
            match Collection.findOne
                    (fun l => String.eqb (licenseKey l) key) db with
            | None => (Rejected 403 "License not found", db)
            | Some license =>
                if negb (isActive license)
                then (Rejected 403 "License is not active", db)
                else if lapsed now license
                then (Rejected 403 "License expired", db)
                else
                  let activation :=
                    {| timestamp := now;
                       machineId := or_default (body_machineId req) "unknown";
                       os := or_default (body_os req) "unknown";
                       app := or_default (body_app req) "unknown";
                       ip := clientIP req |} in
                  (Accepted (name license) (email license) (expiresAt license),
                   Collection.save _id (record activation license) db)
            end
        end
  end.

(** [app.put('/api/admin/licenses/:id/activate')] for [b = true] and
    [.../deactivate] for [b = false]: [findByIdAndUpdate] with
    [{ isActive: b }]. *)
Definition adminSetActive (b : bool) (env : ProcessEnv)
    (x_admin_secret : option string) (id : N) (db : list License)
    : AdminResponse * list License :=
  if negb (adminAuth env x_admin_secret) then (AdminUnauthorized, db)
  else
    match Collection.findById _id id db with
    | None => (AdminNotFound, db)
    | Some license =>
        (AdminLicense (setActive b license),
         Collection.updateOne _id id (setActive b) db)
    end.

Definition adminActivate := adminSetActive true.
Definition adminDeactivate := adminSetActive false.

(** The query [{ 'metadata.gumroad_sale_id': sale }]. *)
Definition ofSale (sale : string) (l : License) : bool :=
  match metadata l with
  | Some m => strict_eq_string (prop m "gumroad_sale_id") sale
  | None => false
  end.

(** [app.post('/api/webhooks/gumroad')]; [rnd] are the random bytes of
    the generator and [oid] the id of the new document. *)
Definition gumroadWebhook (env : ProcessEnv) (now : Z) (rnd : string) (oid : N)
    (body : GumroadBody) (db : list License)
    : WebhookResponse * list License :=
  if negb (String.eqb (CONFIG_GUMROAD_SELLER_ID env) "")
     && negb (same_field (seller_id body) (Some (CONFIG_GUMROAD_SELLER_ID env)))
  then (InvalidSeller, db)
  else if negb (same_field (resource_name body) (Some "sale"))
  then (Acknowledged, db)
  else
    match Collection.findOne (ofSale (sale_id body)) db with
    | Some existingLicense => (Exists existingLicense, db)
    | None =>
        let meta :=
          JObj [("gumroad_sale_id", JStr (sale_id body));
                ("gumroad_product_id", JStr (product_id body))] in
        let issued :=
          LicenseUtils.generateLicenseKey env
            [("email", JStr (email_of body));
             ("name", JStr (full_name body));
             ("metadata", meta)] now rnd in
        let license :=
          {| _id := oid; licenseKey := issued_licenseKey issued;
             email := email_of body; name := Some (full_name body);
             createdAt := now; expiresAt := None; isActive := true;
             source := gumroad; activations := [];
             metadata := Some meta |} in
        if acceptable license db
        then (Created license, Collection.insert license db)
        else (Failed, db)
    end.

End Handlers.
End Server.

(** ** The verification routes, one reading of the clock at a time

    Each [new Date()] of a handler reads the clock anew.
    [LicenseRoutes.verify] and [Server.verify] take the readings of one
    call as one instant; here they are told apart. *)

Module Readings.
Section Handlers.
Context {node : NodeRuntime}.

(** [router.post('/verify')]: [checked] is the clock as
    [verifyLicenseKey] reads it, [compared] the clock as the expiry test
    of the record reads it. *)
Definition routerVerify (env : ProcessEnv) (checked compared : Z)
    (req : LicenseRoutes.VerifyRequest) (db : list LicenseModel.License)
    : LicenseRoutes.VerifyResponse * list LicenseModel.License :=
  match LicenseGenerator.verifyLicenseKey env checked
          (LicenseRoutes.body_licenseKey req) with
  | Invalid reason => (LicenseRoutes.Rejected 400 reason, db)
  | Valid _ =>
      match Collection.findOne
              (fun l => String.eqb (LicenseModel.licenseKey l)
                          (LicenseRoutes.body_licenseKey req)) db with
      | None => (LicenseRoutes.Rejected 400 "License not found", db)
      | Some license =>
          if negb (LicenseModel.isActive license)
          then (LicenseRoutes.Rejected 400 "License is inactive", db)
          else if LicenseModel.lapsed compared license
          then (LicenseRoutes.Rejected 400 "License has expired", db)
          else
            match LicenseRoutes.body_machineId req with
            | Some machineId =>
                if truthy_field (Some machineId)
                   && negb (existsb (String.eqb machineId)
                              (LicenseModel.machineIds license))
                then
                  if LicenseModel.activations license
                     >=? LicenseModel.maxActivations license
                  then (LicenseRoutes.Rejected 400 "Maximum activations reached",
                        db)
                  else (LicenseRoutes.Accepted (LicenseModel.expiresAt license)
                          (LicenseModel.email license),
                        Collection.save LicenseModel._id
                          (LicenseModel.bind machineId license) db)
                else (LicenseRoutes.Accepted (LicenseModel.expiresAt license)
                        (LicenseModel.email license), db)
            | None =>
                (LicenseRoutes.Accepted (LicenseModel.expiresAt license)
                   (LicenseModel.email license), db)
            end
      end
  end.

(** [app.post('/api/license/verify')]: [checked] and [compared] as
    above, [stamped] the clock as the activation entry reads it. *)
Definition serverVerify (env : ProcessEnv) (checked compared stamped : Z)
    (req : Server.VerifyRequest) (db : list Server.License)
    : Server.VerifyResponse * list Server.License :=
  match Server.body_licenseKey req with
  | None => (Server.Rejected 400 "License key is required", db)
  | Some key =>
      if String.eqb key ""
      then (Server.Rejected 400 "License key is required", db)
      else
        match LicenseUtils.verifyLicenseKey env checked key with
        | Invalid reason => (Server.Rejected 403 reason, db)
        | Valid _ =>
            match Collection.findOne
                    (fun l => String.eqb (Server.licenseKey l) key) db with
            | None => (Server.Rejected 403 "License not found", db)
            | Some license =>
                if negb (Server.isActive license)
                then (Server.Rejected 403 "License is not active", db)
                else if Server.lapsed compared license
                then (Server.Rejected 403 "License expired", db)
                else
                  let activation :=
                    {| Server.timestamp := stamped;
                       Server.machineId :=
                         or_default (Server.body_machineId req) "unknown";
                       Server.os := or_default (Server.body_os req) "unknown";
                       Server.app := or_default (Server.body_app req) "unknown";
                       Server.ip := Server.clientIP req |} in
                  (Server.Accepted (Server.name license) (Server.email license)
                     (Server.expiresAt license),
                   Collection.save Server._id
                     (Server.record activation license) db)
            end
        end
  end.

End Handlers.
End Readings.

(** ** The admin router *)

Module AdminRoutes.

(** The license model with [name], [metadata], [source] and [notes],
    the fields the router's own create route writes. *)
Inductive Source : Type := manual | gumroad | appsumo | other.

Record License : Type := {
  _id : N;
  licenseKey : string;
  email : string;
  name : option string;
  createdAt : Z;
  activatedAt : option Z;
  expiresAt : option Z;
  metadata : list (string * string);
  isActive : bool;
  source : Source;
  notes : option string
}.

(** [license.isActive = b] *)
Definition setActive (b : bool) (l : License) : License :=
  {| _id := _id l; licenseKey := licenseKey l; email := email l;
     name := name l; createdAt := createdAt l; activatedAt := activatedAt l;
     expiresAt := expiresAt l; metadata := metadata l; isActive := b;
     source := source l; notes := notes l |}.

Inductive AdminResponse (Doc : Type) : Type :=
| Unauthorized                (* 401 *)
| NotFound                    (* 404 *)
| Ok (l : Doc).               (* 200 *)
Arguments Unauthorized {Doc}.
Arguments NotFound {Doc}.
Arguments Ok {Doc} l.

(** [adminAuth] lets the request through. *)
Definition adminAuth (env : ProcessEnv) (x_admin_secret : option string) : bool :=
  same_field x_admin_secret
    (Some (or_default (env_ADMIN_SECRET env) "admin-secret-change-this")).

(** The router reads, assigns [isActive] and saves; it asks nothing else
    of the model it requires, here a type of documents with their ids
    and the assignment. *)
Section Handlers.
Context {Doc : Type} (id_of : Doc -> N) (assignActive : bool -> Doc -> Doc).

(** [router.put('/licenses/:id/activate')] for [b = true] and
    [.../deactivate] for [b = false]. *)
Definition setLicenseActive (b : bool) (env : ProcessEnv)
    (x_admin_secret : option string) (id : N) (db : list Doc)
    : AdminResponse Doc * list Doc :=
  if negb (adminAuth env x_admin_secret) then (Unauthorized, db)
  else
    match Collection.findById id_of id db with
    | None => (NotFound, db)
    | Some license =>
        (Ok (assignActive b license),
         Collection.save id_of (assignActive b license) db)
    end.

Definition activate := setLicenseActive true.
Definition deactivate := setLicenseActive false.

End Handlers.

End AdminRoutes.

(** ** The enhanced server: licenses the admin creates *)

Module ServerAdmin.
Import Server.

(** [req.body] of the create route.  [body_metadata] is the request's
    [metadata] when it is an object whose properties are strings, in
    enumeration order, and [None] when the request has none. *)
Record CreateBody : Type := {
  body_email : option string;
  body_name : option string;
  body_expiresAt : option json;
  body_metadata : option (list (string * string))
}.

Inductive CreateResponse : Type :=
| CreateUnauthorized           (* 401 *)
| EmailRequired                (* 400 *)
| CreateFailed                 (* 500 *)
| LicenseCreated (l : License). (* 201 *)

(** A property of an object literal as [JSON.stringify] sees it: one
    whose value is [undefined] is left out. *)
Definition defined (k : string) (v : option json) : object :=
  match v with
  | Some x => [(k, x)]
  | None => []
  end.

Section Handlers.
Context {node : NodeRuntime}.

(** [expiresAt ? new Date(expiresAt) : undefined], as the schema casts
    it: the outer [None] is the cast error of an invalid date. *)
Definition expiryDate (v : option json) : option (option Z) :=
  if truthy v
  then match v with
       | Some x => option_map Some (Date_getTime x)
       | None => Some None
       end
  else Some None.

(** [metadata = {}] of the destructuring: the object of the request,
    or an empty one. *)
Definition metadataOf (body : CreateBody) : json :=
  JObj (map (fun kv => (fst kv, JStr (snd kv)))
          (match body_metadata body with Some m => m | None => [] end)).

(** What a document keeps of a [Mixed] path.  The schema sets no
    [minimize] option, so mongoose's default holds: an object without
    properties is left out, when the document is stored and when it is
    serialised for the answer. *)
Definition minimized (m : json) : option json :=
  match m with
  | JObj [] => None
  | _ => Some m
  end.

(** The argument of [generateLicenseKey]. *)
Definition payload (body : CreateBody) : object :=
  (defined "email" (option_map JStr (body_email body))
   ++ defined "name" (option_map JStr (body_name body))
   ++ defined "expiresAt" (body_expiresAt body)
   ++ [("metadata", metadataOf body)])%list.

Definition adminCreate (env : ProcessEnv) (now : Z) (rnd : string) (oid : N)
    (x_admin_secret : option string) (body : CreateBody) (db : list License)
    : CreateResponse * list License :=
  if negb (adminAuth env x_admin_secret) then (CreateUnauthorized, db)
  else if negb (truthy_field (body_email body)) then (EmailRequired, db)
  else
    let issued := LicenseUtils.generateLicenseKey env (payload body) now rnd in
    match expiryDate (body_expiresAt body) with
    | None => (CreateFailed, db)
    | Some expires =>
        let license :=
          {| _id := oid; licenseKey := issued_licenseKey issued;
             email := or_default (body_email body) "";
             name := body_name body;
             createdAt := now; expiresAt := expires; isActive := true;
             source := manual; activations := [];
             metadata := minimized (metadataOf body) |} in
        if acceptable license db
        then (LicenseCreated license, Collection.insert license db)
        else (CreateFailed, db)
    end.

End Handlers.
End ServerAdmin.

(** ** The webhook router: AppSumo deals *)

Module AppSumo.
Import LicenseModel.

(** A delivery: [body] is [req.body] as the JSON middleware parsed it,
    the four fields are its properties of those names and
    [x_appsumo_signature] is the header. *)
Record Delivery : Type := {
  body : json;
  x_appsumo_signature : option string;
  email_of : string;
  uuid_of : string;
  plan_id : string;
  status : option string
}.

Inductive Response : Type :=
| InvalidSignature  (* 403 *)
| Skipped           (* 200, success, 'Skipping non-active status' *)
| AlreadyExists     (* 200, success, 'License already exists' *)
| Success           (* 200, success *)
| ServerError.      (* 500 *)

Section Handlers.
Context {node : NodeRuntime}.

(** [router.post('/appsumo')] at clock reading [now];
    [APPSUMO_SECRET] is the variable of that name in [process.env],
    [uuid] the result of [uuidv4()] and [oid] the id of the new
    document. *)
Definition appsumo (env : ProcessEnv) (APPSUMO_SECRET : option string)
    (now : Z) (uuid : string) (oid : N) (req : Delivery) (db : list License)
    : Response * list License :=
  match APPSUMO_SECRET with
  | None => (ServerError, db)
  | Some secret =>
      let signature := hmac_sha256_hex secret (JSON_stringify (body req)) in
      if negb (same_field (Some signature) (x_appsumo_signature req))
      then (InvalidSignature, db)
      else if negb (same_field (status req) (Some "active"))
      then (Skipped, db)
      else
        match Collection.findOne
                (fun l => String.eqb (saleId l) (uuid_of req)) db with
        | Some existingLicense => (AlreadyExists, db)
        | None =>
            match LicenseGenerator.generateLicenseKey env (email_of req)
                    (plan_id req) None uuid now with
            | None => (ServerError, db)
            | Some issued =>
                let license :=
                  newLicense oid (issued_licenseKey issued)
                    (issued_licenseData issued) LicenseModel.appsumo
                    (uuid_of req) (email_of req) None now in
                if acceptable license db
                then (Success, Collection.insert license db)
                else (ServerError, db)
            end
        end
  end.

End Handlers.
End AppSumo.

(** ** The user model and the routes that use it *)

Module UserModel.

Record Subscription : Type := {
  subscription_id : string;
  status : string;
  priceId : option string;
  currentPeriodEnd : Z
}.

Record User : Type := {
  _id : N;
  email : string;
  password : string;
  licenseKey : string;
  stripeCustomerId : option string;
  subscription : option Subscription;
  createdAt : Z;
  lastLogin : option Z
}.

(** [user.lastLogin = new Date()] *)
Definition setLastLogin (now : Z) (u : User) : User :=
  {| _id := _id u; email := email u; password := password u;
     licenseKey := licenseKey u; stripeCustomerId := stripeCustomerId u;
     subscription := subscription u; createdAt := createdAt u;
     lastLogin := Some now |}.

(** [user.subscription = s] *)
Definition setSubscription (s : Subscription) (u : User) : User :=
  {| _id := _id u; email := email u; password := password u;
     licenseKey := licenseKey u; stripeCustomerId := stripeCustomerId u;
     subscription := Some s; createdAt := createdAt u;
     lastLogin := lastLogin u |}.

(** The validation [save] runs on a new user: the required strings are
    not empty and the unique index on [email] holds. *)
Definition acceptable (u : User) (db : list User) : bool :=
  negb (String.eqb (email u) "")
  && negb (String.eqb (password u) "")
  && negb (String.eqb (licenseKey u) "")
  && negb (existsb (fun x => String.eqb (email x) (email u)) db).

End UserModel.

Module AuthRoutes.
Import UserModel.

Record RegisterBody : Type := {
  register_email : string;
  register_password : string;
  register_licenseKey : string
}.

Record LoginBody : Type := {
  login_email : string;
  login_password : string
}.

Inductive RegisterResponse : Type :=
| UserExists                    (* 400, 'User already exists' *)
| InvalidKey (reason : string)  (* 400, 'Invalid license key: ' + reason *)
| Registered                    (* 201 *)
| RegisterFailed.               (* 500 *)

Inductive LoginResponse : Type :=
| InvalidCredentials                (* 400 *)
| LicenseInvalid (reason : string)  (* 400, 'License is invalid: ' + reason *)
| LoggedIn (token : string) (id : N) (mail : string)
    (sub : option Subscription)     (* 200 *)
| LoginFailed.                      (* 500 *)

Section Handlers.
Context {node : NodeRuntime}.

(** The schema's setters on [email] ([trim], [lowercase]), as they act
    on a stored address and on the address of a query. *)
Variable castAddress : string -> string.
Variable castQuery : string -> string.
(** [bcrypt.hash(password, 10)] with the salt it drew, and
    [bcrypt.compare]. *)
Variable bcrypt_hash : string -> string -> string.
Variable bcrypt_compare : string -> string -> bool.
(** [jwt.sign({ userId }, process.env.JWT_SECRET, { expiresIn: '7d' })]
    at a clock reading; [None] when it throws. *)
Variable jwt_sign : N -> Z -> option string.

Definition byAddress (address : string) (u : User) : bool :=
  String.eqb (email u) (castQuery address).

(** [router.post('/register')]; [salt] is the salt of the hash and
    [oid] the id of the new document. *)
Definition register (env : ProcessEnv) (now : Z) (salt : string) (oid : N)
    (body : RegisterBody) (db : list User) : RegisterResponse * list User :=
  match Collection.findOne (byAddress (register_email body)) db with
  | Some existingUser => (UserExists, db)
  | None =>
      match LicenseGenerator.verifyLicenseKey env now
              (register_licenseKey body) with
      | Invalid reason => (InvalidKey reason, db)
      | Valid _ =>
          let hashedPassword := bcrypt_hash (register_password body) salt in
          let user :=
            {| _id := oid; email := castAddress (register_email body);
               password := hashedPassword;
               licenseKey := register_licenseKey body;
               stripeCustomerId := None; subscription := None;
               createdAt := now; lastLogin := None |} in
          if acceptable user db
          then (Registered, Collection.insert user db)
          else (RegisterFailed, db)
      end
  end.

(** [router.post('/login')] *)
Definition login (env : ProcessEnv) (now : Z) (body : LoginBody)
    (db : list User) : LoginResponse * list User :=
  match Collection.findOne (byAddress (login_email body)) db with
  | None => (InvalidCredentials, db)
  | Some user =>
      if negb (bcrypt_compare (login_password body) (password user))
      then (InvalidCredentials, db)
      else
        match LicenseGenerator.verifyLicenseKey env now (licenseKey user) with
        | Invalid reason => (LicenseInvalid reason, db)
        | Valid _ =>
            let saved := Collection.save _id (setLastLogin now user) db in
            match jwt_sign (_id user) now with
            | Some token =>
                (LoggedIn token (_id user) (email user) (subscription user),
                 saved)
            | None => (LoginFailed, saved)
            end
        end
  end.

End Handlers.
End AuthRoutes.

(** ** The webhook router: Stripe events *)

Module StripeWebhook.
Import UserModel.

(** The object of a [customer.subscription.*] event. *)
Record SubscriptionObject : Type := {
  object_id : string;
  customer : string;
  object_status : string;
  first_price : option string;
  current_period_end : Z
}.

(** What [stripe.webhooks.constructEvent] returns, by [event.type]. *)
Inductive Event : Type :=
| CheckoutSessionCompleted (session : WebhookRoutes.CheckoutSession)
| SubscriptionUpdated (s : SubscriptionObject)
| SubscriptionDeleted (s : SubscriptionObject)
| OtherEvent.

Inductive Response : Type :=
| WebhookError  (* 400 *)
| Received      (* 200 *)
| ServerError.  (* 500 *)

Section Handlers.
Context {node : NodeRuntime}.

(** [handleSubscriptionChange(subscription)] *)
Definition handleSubscriptionChange (s : SubscriptionObject) (users : list User)
    : list User :=
  match Collection.findOne
          (fun u => same_field (stripeCustomerId u) (Some (customer s)))
          users with
  | Some user =>
      Collection.save _id
        (setSubscription
           {| subscription_id := object_id s; status := object_status s;
              priceId := first_price s;
              currentPeriodEnd := current_period_end s * 1000 |} user) users
  | None => users
  end.

(** [router.post('/stripe')]; [event] is the outcome of
    [constructEvent], [None] when it throws. *)
Definition stripe (env : ProcessEnv) (now : Z) (uuid : string) (oid : N)
    (event : option Event) (licenses : list LicenseModel.License)
    (users : list User)
    : Response * list LicenseModel.License * list User :=
  match event with
  | None => (WebhookError, licenses, users)
  | Some (CheckoutSessionCompleted session) =>
      match WebhookRoutes.handleCheckoutCompleted env now uuid oid session
              licenses with
      | Some stored => (Received, stored, users)
      | None => (ServerError, licenses, users)
      end
  | Some (SubscriptionUpdated s) | Some (SubscriptionDeleted s) =>
      (Received, licenses, handleSubscriptionChange s users)
  | Some OtherEvent => (Received, licenses, users)
  end.

End Handlers.
End StripeWebhook.

(** ** [utils/watermarking.js] *)

Module Watermarking.

(** [s.slice(n)] *)
Fixpoint skip (n : nat) (s : string) : string :=
  match n, s with
  | O, _ => s
  | S n', String _ rest => skip n' rest
  | S _, EmptyString => EmptyString
  end.

(** The first occurrence of [pat] in [s]: what precedes it and what
    follows it. *)
Fixpoint search (pat s : string) : option (string * string) :=
  if String.prefix pat s then Some (EmptyString, skip (String.length pat) s)
  else
    match s with
    | EmptyString => None
    | String c rest =>
        match search pat rest with
        | Some (before, after) => Some (String c before, after)
        | None => None
        end
    end.

(** The replacement text of [String.prototype.replace] for a pattern
    that is a string, so without capture groups: [$$] is a dollar sign,
    [$&] the match, [$`] what precedes it and [$'] what follows it;
    any other dollar sign stands for itself. *)
Fixpoint substitute (matched before after template : string) : string :=
  match template with
  | EmptyString => EmptyString
  | String c rest =>
      if Ascii.eqb c "$"
      then
        match rest with
        | String d rest' =>
            if Ascii.eqb d "$"
            then String "$" (substitute matched before after rest')
            else if Ascii.eqb d "&"
            then matched ++ substitute matched before after rest'
            else if Ascii.eqb d "`"
            then before ++ substitute matched before after rest'
            else if Ascii.eqb d "'"
            then after ++ substitute matched before after rest'
            else String c (substitute matched before after rest)
        | EmptyString => String c EmptyString
        end
      else String c (substitute matched before after rest)
  end.

(** [s.replace(pat, template)] for a pattern that is a string: the
    first occurrence only. *)
Definition replace (pat template s : string) : string :=
  match search pat s with
  | Some (before, after) =>
      before ++ substitute pat before after template ++ after
  | None => s
  end.

Definition nl : string := String "010" EmptyString.
Definition quote : string := String "034" EmptyString.

Definition watermarkText (licenseKey : string) : string :=
  "<!-- Created with AI Resume Generator | License: " ++ licenseKey ++ " -->".

Definition addTextWatermark (html licenseKey : string) : string :=
  replace "</body>" (watermarkText licenseKey ++ "</body>") html.

Definition watermarkStyle : string :=
  String.concat nl
    [""; "  <style>"; "    @media screen {"; "      body::after {";
     "        content: " ++ quote ++ "AI Resume Generator" ++ quote ++ ";";
     "        position: fixed;"; "        bottom: 5px;"; "        right: 5px;";
     "        font-size: 10px;"; "        color: rgba(0,0,0,0.1);";
     "        transform: rotate(-45deg);"; "        pointer-events: none;";
     "      }"; "    }"; "    "; "    @media print {"; "      body::after {";
     "        display: none;"; "      }"; "    }"; "  </style>"; "  "].

Definition addVisualWatermark (html : string) : string :=
  replace "</head>" (watermarkStyle ++ "</head>") html.

Definition addMetadataWatermark (pdfBuffer licenseKey : string) : string :=
  pdfBuffer.

Definition watermarkDocument (html licenseKey : string) : string :=
  let watermarkedHtml := addTextWatermark html licenseKey in
  addVisualWatermark watermarkedHtml.

End Watermarking.

(** ** The credentials of the database address in the log

    [connectMongoDB] of the enhanced server logs
    [CONFIG.MONGODB_URI.replace(/:([^:@]+)@/, ':***@')]. *)

Module MongoLog.

Definition delimiter (c : ascii) : bool :=
  Ascii.eqb c ":" || Ascii.eqb c "@".

(** The longest run of characters other than [:] and [@] at the start
    of [s], and what follows it. *)
Fixpoint run (s : string) : string * string :=
  match s with
  | EmptyString => (EmptyString, EmptyString)
  | String c rest =>
      if delimiter c then (EmptyString, s)
      else let (r, t) := run rest in (String c r, t)
  end.

(** A match of [:([^:@]+)@] at the start of [s]: what follows it.  The
    class is greedy, and a shorter run is never followed by [@]. *)
Definition matchHere (s : string) : option string :=
  match s with
  | String c rest =>
      if Ascii.eqb c ":"
      then match run rest with
           | (String _ _, String d after) =>
               if Ascii.eqb d "@" then Some after else None
           | _ => None
           end
      else None
  | EmptyString => None
  end.

(** The replacement of the first match by [:***@]. *)
Fixpoint maskCredentials (uri : string) : string :=
  match matchHere uri with
  | Some after => ":***@" ++ after
  | None =>
      match uri with
      | EmptyString => EmptyString
      | String c rest => String c (maskCredentials rest)
      end
  end.

End MongoLog.

(** ** SHA-256 and HMAC (FIPS 180-4, RFC 2104) over byte strings *)

Module Sha256.
Local Open Scope N_scope.

Definition w32 (x : N) : N := N.land x 4294967295.
Definition add32 (x y : N) : N := w32 (x + y).
Definition rotr (n x : N) : N :=
  N.lor (N.shiftr x n) (w32 (N.shiftl x (32 - n))).
Definition Ch (x y z : N) : N :=
  N.lxor (N.land x y) (N.land (N.lxor x 4294967295) z).
Definition Maj (x y z : N) : N :=
  N.lxor (N.lxor (N.land x y) (N.land x z)) (N.land y z).
Definition bigSigma0 (x : N) : N :=
  N.lxor (N.lxor (rotr 2 x) (rotr 13 x)) (rotr 22 x).
Definition bigSigma1 (x : N) : N :=
  N.lxor (N.lxor (rotr 6 x) (rotr 11 x)) (rotr 25 x).
Definition sigma0 (x : N) : N :=
  N.lxor (N.lxor (rotr 7 x) (rotr 18 x)) (N.shiftr x 3).
Definition sigma1 (x : N) : N :=
  N.lxor (N.lxor (rotr 17 x) (rotr 19 x)) (N.shiftr x 10).

(** The first 32 bits of the fractional parts of the cube roots of the
    first 64 primes. *)
Definition K : list N :=
  [1116352408; 1899447441; 3049323471; 3921009573; 961987163; 1508970993;
   2453635748; 2870763221; 3624381080; 310598401; 607225278; 1426881987;
   1925078388; 2162078206; 2614888103; 3248222580; 3835390401; 4022224774;
   264347078; 604807628; 770255983; 1249150122; 1555081692; 1996064986;
   2554220882; 2821834349; 2952996808; 3210313671; 3336571891; 3584528711;
   113926993; 338241895; 666307205; 773529912; 1294757372; 1396182291;
   1695183700; 1986661051; 2177026350; 2456956037; 2730485921; 2820302411;
   3259730800; 3345764771; 3516065817; 3600352804; 4094571909; 275423344;
   430227734; 506948616; 659060556; 883997877; 958139571; 1322822218;
   1537002063; 1747873779; 1955562222; 2024104815; 2227730452; 2361852424;
   2428436474; 2756734187; 3204031479; 3329325298].

(** The same of the square roots of the first 8 primes. *)
Definition H0 : list N :=
  [1779033703; 3144134277; 1013904242; 2773480762;
   1359893119; 2600822924; 528734635; 1541459225].

Definition octets (s : string) : list N := map N_of_ascii (list_ascii_of_string s).
Definition text (l : list N) : string :=
  string_of_list_ascii (map ascii_of_N l).

(** The big-endian bytes of a number, [n] of them. *)
Fixpoint be (n : nat) (x : N) : list N :=
  match n with
  | O => []
  | S k => be k (x / 256) ++ [x mod 256]
  end.

(** The message, the bit 1, zeros up to 56 modulo 64, the bit length. *)
Definition pad (m : list N) : list N :=
  let len := N.of_nat (List.length m) in
  let zeros := (119 - len mod 64) mod 64 in
  m ++ [128] ++ repeat 0 (N.to_nat zeros) ++ be 8 (8 * len).

Fixpoint words (n : nat) (l : list N) : list N :=
  match n, l with
  | S k, a :: b :: c :: d :: rest =>
      (((a * 256 + b) * 256 + c) * 256 + d) :: words k rest
  | _, _ => []
  end.

(** The schedule, latest word first. *)
Fixpoint extend (n : nat) (w : list N) : list N :=
  match n with
  | O => w
  | S k =>
      extend k
        (add32 (add32 (sigma1 (nth 1 w 0)) (nth 6 w 0))
               (add32 (sigma0 (nth 14 w 0)) (nth 15 w 0)) :: w)
  end.

Definition round (s : list N) (kw : N * N) : list N :=
  match s with
  | [a; b; c; d; e; f; g; h] =>
      let t1 := add32 (add32 (add32 h (bigSigma1 e)) (Ch e f g))
                      (add32 (fst kw) (snd kw)) in
      let t2 := add32 (bigSigma0 a) (Maj a b c) in
      [add32 t1 t2; a; b; c; add32 d t1; e; f; g]
  | _ => s
  end.

Definition compress (h : list N) (block : list N) : list N :=
  let w := rev (extend 48 (rev (words 16 block))) in
  map (fun p => add32 (fst p) (snd p))
      (combine h (fold_left round (combine K w) h)).

Fixpoint blocks (n : nat) (h : list N) (m : list N) : list N :=
  match n with
  | O => h
  | S k => blocks k (compress h (firstn 64 m)) (skipn 64 m)
  end.

Definition digest (m : list N) : list N :=
  let p := pad m in
  flat_map (be 4) (blocks (List.length p / 64) H0 p).

Definition blockKey (key : list N) : list N :=
  let k := if 64 <? N.of_nat (List.length key) then digest key else key in
  k ++ repeat 0 (64 - List.length k)%nat.

Definition hmac (key msg : list N) : list N :=
  let k := blockKey key in
  digest (map (N.lxor 92) k ++ digest (map (N.lxor 54) k ++ msg)).

Definition hmac_hex (key msg : string) : string :=
  Hex.encode (text (hmac (octets key) (octets msg))).

End Sha256.

(** ** JSON text

    [JSON.stringify] and [JSON.parse] on the values of [json].  Numbers
    are integers: the parser rejects a fraction or an exponent, and an
    escape [\u] of a surrogate.  The properties of a parsed object are
    listed as the text has them, which is their order of enumeration
    when no name is an array index and no name comes twice. *)

Module JsonText.

Definition dquote : ascii := "034"%char.
Definition backslash : ascii := "092"%char.

(** One character of a string literal. *)
Definition escape (c : ascii) : string :=
  let n := N_of_ascii c in
  (if n =? 34 then String backslash (String dquote EmptyString)
   else if n =? 92 then String backslash (String backslash EmptyString)
   else if n =? 8 then String backslash "b"
   else if n =? 12 then String backslash "f"
   else if n =? 10 then String backslash "n"
   else if n =? 13 then String backslash "r"
   else if n =? 9 then String backslash "t"
   else if n <? 32
   then String backslash
          (String "u" (String "0" (String "0"
             (String (Hex.digit (n / 16))
                (String (Hex.digit (n mod 16)) EmptyString)))))
   else String c EmptyString)%N.

Fixpoint escaped (s : string) : string :=
  match s with
  | EmptyString => EmptyString
  | String c rest => escape c ++ escaped rest
  end.

Definition quote (s : string) : string :=
  String dquote (escaped s ++ String dquote EmptyString).

Definition decimal (n : Z) : string := NilZero.string_of_int (Z.to_int n).

Definition join (parts : list string) : string := String.concat "," parts.

Fixpoint stringify (v : json) : string :=
  match v with
  | JNull => "null"
  | JBool true => "true"
  | JBool false => "false"
  | JNum n => decimal n
  | JStr s => quote s
  | JArr items => "[" ++ join (map stringify items) ++ "]"
  | JObj fields =>
      "{" ++ join (map (fun kv => quote (fst kv) ++ ":" ++ stringify (snd kv))
                       fields) ++ "}"
  end.

Definition is_space (c : ascii) : bool :=
  let n := N_of_ascii c in ((n =? 32) || (n =? 9) || (n =? 10) || (n =? 13))%N.

Definition is_digit (c : ascii) : bool :=
  let n := N_of_ascii c in ((48 <=? n) && (n <=? 57))%N.

Fixpoint skip (s : string) : string :=
  match s with
  | String c rest => if is_space c then skip rest else s
  | EmptyString => s
  end.

(** [s] without the prefix [p]. *)
Fixpoint after (p s : string) : option string :=
  match p, s with
  | EmptyString, _ => Some s
  | String a p', String b s' => if Ascii.eqb a b then after p' s' else None
  | String _ _, EmptyString => None
  end.

Definition hexval (c : ascii) : option N :=
  let n := N_of_ascii c in
  (if (48 <=? n) && (n <=? 57) then Some (n - 48)
   else if (97 <=? n) && (n <=? 102) then Some (n - 87)
   else if (65 <=? n) && (n <=? 70) then Some (n - 55)
   else None)%N.

(** The UTF-8 bytes of a code point of the basic plane. *)
Definition utf8 (u : N) : option string :=
  (if u <? 128 then Some (String (ascii_of_N u) EmptyString)
   else if u <? 2048
   then Some (String (ascii_of_N (192 + u / 64))
                (String (ascii_of_N (128 + u mod 64)) EmptyString))
   else if (55296 <=? u) && (u <=? 57343) then None
   else Some (String (ascii_of_N (224 + u / 4096))
                (String (ascii_of_N (128 + (u / 64) mod 64))
                   (String (ascii_of_N (128 + u mod 64)) EmptyString))))%N.

(** The rest of a string literal, after its opening quote. *)
Fixpoint literal (s : string) : option (string * string) :=
  match s with
  | EmptyString => None
  | String c rest =>
      if Ascii.eqb c dquote then Some (EmptyString, rest)
      else if Ascii.eqb c backslash then
        match rest with
        | String e rest' =>
            let plain (x : ascii) :=
              match literal rest' with
              | Some (t, r) => Some (String x t, r)
              | None => None
              end in
            if Ascii.eqb e dquote then plain dquote
            else if Ascii.eqb e backslash then plain backslash
            else if Ascii.eqb e "/" then plain "/"%char
            else if Ascii.eqb e "b" then plain "008"%char
            else if Ascii.eqb e "f" then plain "012"%char
            else if Ascii.eqb e "n" then plain "010"%char
            else if Ascii.eqb e "r" then plain "013"%char
            else if Ascii.eqb e "t" then plain "009"%char
            else if Ascii.eqb e "u" then
              match rest' with
              | String h1 (String h2 (String h3 (String h4 rest''))) =>
                  match hexval h1, hexval h2, hexval h3, hexval h4 with
                  | Some a, Some b, Some c', Some d =>
                      match utf8 (((a * 16 + b) * 16 + c') * 16 + d)%N,
                            literal rest'' with
                      | Some bytes, Some (t, r) => Some (bytes ++ t, r)
                      | _, _ => None
                      end
                  | _, _, _, _ => None
                  end
              | _ => None
              end
            else None
        | EmptyString => None
        end
      else if (N_of_ascii c <? 32)%N then None
      else match literal rest with
           | Some (t, r) => Some (String c t, r)
           | None => None
           end
  end.

Fixpoint digits (s : string) : string * string :=
  match s with
  | String c rest =>
      if is_digit c then let (d, r) := digits rest in (String c d, r)
      else (EmptyString, s)
  | EmptyString => (EmptyString, s)
  end.

Fixpoint natural (acc : Z) (d : string) : Z :=
  match d with
  | EmptyString => acc
  | String c rest => natural (acc * 10 + Z.of_N (N_of_ascii c) - 48) rest
  end.

(** An integer literal: no leading zero, no fraction, no exponent. *)
Definition number (s : string) : option (Z * string) :=
  let (neg, s1) :=
    match s with
    | String "-" r => (true, r)
    | _ => (false, s)
    end in
  let (d, r) := digits s1 in
  match d with
  | EmptyString => None
  | String "0" (String _ _) => None
  | _ =>
      match r with
      | String "." _ | String "e" _ | String "E" _ => None
      | _ => Some (if neg then - natural 0 d else natural 0 d, r)
      end
  end.

Fixpoint value (fuel : nat) (s : string) {struct fuel} : option (json * string) :=
  match fuel with
  | O => None
  | S k =>
      match skip s with
      | EmptyString => None
      | String c rest =>
          if Ascii.eqb c "n" then
            option_map (fun r => (JNull, r)) (after "ull" rest)
          else if Ascii.eqb c "t" then
            option_map (fun r => (JBool true, r)) (after "rue" rest)
          else if Ascii.eqb c "f" then
            option_map (fun r => (JBool false, r)) (after "alse" rest)
          else if Ascii.eqb c dquote then
            option_map (fun p => (JStr (fst p), snd p)) (literal rest)
          else if Ascii.eqb c "[" then
            match skip rest with
            | String "]" r => Some (JArr [], r)
            | _ => option_map (fun p => (JArr (fst p), snd p)) (elements k rest)
            end
          else if Ascii.eqb c "{" then
            match skip rest with
            | String "}" r => Some (JObj [], r)
            | _ => option_map (fun p => (JObj (fst p), snd p)) (members k [] rest)
            end
          else option_map (fun p => (JNum (fst p), snd p)) (number (String c rest))
      end
  end
with elements (fuel : nat) (s : string) {struct fuel} : option (list json * string) :=
  match fuel with
  | O => None
  | S k =>
      match value k s with
      | Some (v, r) =>
          match skip r with
          | String "," r' =>
              option_map (fun p => (v :: fst p, snd p)) (elements k r')
          | String "]" r' => Some ([v], r')
          | _ => None
          end
      | None => None
      end
  end
with members (fuel : nat) (acc : object) (s : string) {struct fuel}
    : option (object * string) :=
  match fuel with
  | O => None
  | S k =>
      match skip s with
      | String c rest =>
          if Ascii.eqb c dquote then
            match literal rest with
            | Some (key, r) =>
                match skip r with
                | String ":" r1 =>
                    match value k r1 with
                    | Some (v, r2) =>
                        match skip r2 with
                        | String "," r3 => members k (assign key v acc) r3
                        | String "}" r3 => Some (assign key v acc, r3)
                        | _ => None
                        end
                    | None => None
                    end
                | _ => None
                end
            | None => None
            end
          else None
      | EmptyString => None
      end
  end.

Definition parse (s : string) : option json :=
  match value (S (String.length s)) s with
  | Some (v, r) =>
      match skip r with
      | EmptyString => Some v
      | String _ _ => None
      end
  | None => None
  end.

End JsonText.

(** ** Dates: milliseconds since the epoch, in UTC *)

Module DateLib.

Definition msPerDay : Z := 86400000.

(** Days since the epoch of a civil date. *)
Definition daysFromCivil (y m d : Z) : Z :=
  let y' := if m <=? 2 then y - 1 else y in
  let era := y' / 400 in
  let yoe := y' - era * 400 in
  let doy := (153 * (if m >? 2 then m - 3 else m + 9) + 2) / 5 + d - 1 in
  let doe := yoe * 365 + yoe / 4 - yoe / 100 + doy in
  era * 146097 + doe - 719468.

(** The civil date of a day number. *)
Definition civilFromDays (z : Z) : Z * Z * Z :=
  let z := z + 719468 in
  let era := z / 146097 in
  let doe := z - era * 146097 in
  let yoe := (doe - doe / 1460 + doe / 36524 - doe / 146096) / 365 in
  let doy := doe - (365 * yoe + yoe / 4 - yoe / 100) in
  let mp := (5 * doy + 2) / 153 in
  let d := doy - (153 * mp + 2) / 5 + 1 in
  let m := if mp <? 10 then mp + 3 else mp - 9 in
  let y := yoe + era * 400 in
  (if m <=? 2 then y + 1 else y, m, d).

Definition digit (n : Z) : ascii := ascii_of_N (Z.to_N (48 + n mod 10)).

Definition two (n : Z) : string :=
  String (digit (n / 10)) (String (digit n) EmptyString).

Definition three (n : Z) : string := String (digit (n / 100)) (two n).

Definition four (n : Z) : string := String (digit (n / 1000)) (three n).

(** [toISOString] for the years 0 to 9999. *)
Definition toISOString (t : Z) : string :=
  let '(y, m, d) := civilFromDays (t / msPerDay) in
  let r := t mod msPerDay in
  four y ++ "-" ++ two m ++ "-" ++ two d ++ "T"
    ++ two (r / 3600000) ++ ":" ++ two (r / 60000 mod 60) ++ ":"
    ++ two (r / 1000 mod 60) ++ "." ++ three (r mod 1000) ++ "Z".

(** [setFullYear(getFullYear() + 1)], the server running in UTC. *)
Definition nextYear (t : Z) : Z :=
  let '(y, m, d) := civilFromDays (t / msPerDay) in
  daysFromCivil (y + 1) m d * msPerDay + t mod msPerDay.

Fixpoint number (acc : Z) (s : string) : option Z :=
  match s with
  | EmptyString => Some acc
  | String c rest =>
      let n := Z.of_N (N_of_ascii c) in
      if (48 <=? n) && (n <=? 57) then number (acc * 10 + n - 48) rest
      else None
  end.

Definition field (from len : nat) (s : string) : option Z :=
  let f := String.substring from len s in
  if Nat.eqb (String.length f) len then number 0 f else None.

Definition daysInMonth (y m : Z) : Z :=
  daysFromCivil (if m =? 12 then y + 1 else y) (if m =? 12 then 1 else m + 1) 1
  - daysFromCivil y m 1.

(** [Date.parse] on the formats [YYYY-MM-DD] and
    [YYYY-MM-DDTHH:mm:ss.sssZ]; any other text is an invalid date. *)
Definition parse (s : string) : option Z :=
  match field 0 4 s, field 5 2 s, field 8 2 s with
  | Some y, Some m, Some d =>
      if String.eqb (String.substring 4 1 s) "-"
         && String.eqb (String.substring 7 1 s) "-"
         && (1 <=? m) && (m <=? 12) && (1 <=? d) && (d <=? daysInMonth y m)
      then
        if Nat.eqb (String.length s) 10
        then Some (daysFromCivil y m d * msPerDay)
        else
          match field 11 2 s, field 14 2 s, field 17 2 s, field 20 3 s with
          | Some h, Some mi, Some sec, Some ms =>
              if Nat.eqb (String.length s) 24
                 && String.eqb (String.substring 10 1 s) "T"
                 && String.eqb (String.substring 13 1 s) ":"
                 && String.eqb (String.substring 16 1 s) ":"
                 && String.eqb (String.substring 19 1 s) "."
                 && String.eqb (String.substring 23 1 s) "Z"
                 && (h <=? 23) && (mi <=? 59) && (sec <=? 59)
              then Some (daysFromCivil y m d * msPerDay
                         + h * 3600000 + mi * 60000 + sec * 1000 + ms)
              else None
          | _, _, _, _ => None
          end
      else None
  | _, _, _ => None
  end.

End DateLib.

(** ** An executable runtime *)

(** [new Date(v).getTime()].  A number is a time value when it is
    within 8.64e15 milliseconds of the epoch.  Of the texts [Date.parse]
    reads, [DateLib.parse] reads the two the license code writes, the
    date [YYYY-MM-DD] and the text of [toISOString]; on any other text,
    and on arrays and objects, this instance answers that the date is
    invalid. *)
Definition Date_of_json (v : json) : option Z :=
  match v with
  | JStr s => DateLib.parse s
  | JNum n =>
      if (-8640000000000000 <=? n) && (n <=? 8640000000000000)
      then Some n
      else None
  | JBool true => Some 1
  | JBool false => Some 0
  | JNull => Some 0
  | JArr _ => None
  | JObj _ => None
  end.

#[export] Instance Node : NodeRuntime := {
  hmac_sha256_hex := Sha256.hmac_hex;
  JSON_stringify := JsonText.stringify;
  JSON_parse := JsonText.parse;
  Date_getTime := Date_of_json;
  Date_toISOString := DateLib.toISOString;
  Date_nextYear := DateLib.nextYear
}.


(** ** Vocabulary of the statements *)

(** The three copies of [verifyLicenseKey]. *)
Inductive Copy : Type := Utility | ServerUtils | Generator.

Section Copies.
Context {node : NodeRuntime}.

Definition secretOf (c : Copy) (env : ProcessEnv) : option string :=
  match c with
  | Utility => Some (LicenseUtil.LICENSE_SECRET env)
  | ServerUtils => Some (LicenseUtils.CONFIG_LICENSE_SECRET env)
  | Generator => env_LICENSE_SECRET env
  end.

Definition expiryOf (c : Copy) : string :=
  match c with
  | Utility | ServerUtils => "expiresAt"
  | Generator => "expirationDate"
  end.

Definition verifierOf (c : Copy) : ProcessEnv -> Z -> string -> VerifyResult :=
  match c with
  | Utility => LicenseUtil.verifyLicenseKey
  | ServerUtils => LicenseUtils.verifyLicenseKey
  | Generator => LicenseGenerator.verifyLicenseKey
  end.

(** The payload a text carries under a signature that matches it:
    the text decodes to an envelope whose [sig] is the HMAC of its
    re-serialised [data]. *)
Definition signedData (secret key : string) : option json :=
  match JSON_parse (Base64.decode key) with
  | Some licenseObj =>
      match prop licenseObj "data" with
      | Some data =>
          if strict_eq_string (prop licenseObj "sig")
               (hmac_sha256_hex secret (JSON_stringify data))
          then Some data
          else None
      | None => None
      end
  | None => None
  end.



(** The envelope [generateLicenseKey] serialises. *)
Definition envelope (secret : string) (licenseData : json) : json :=
  JObj [("data", licenseData);
        ("sig", JStr (hmac_sha256_hex secret (JSON_stringify licenseData)))].

End Copies.



(** ** Inputs of the examples *)

Definition env0 : ProcessEnv :=
  {| env_LICENSE_SECRET := Some "s3cret";
     env_GUMROAD_SELLER_ID := Some "seller-1";
     env_ADMIN_SECRET := Some "admin" |}.

(** 2025-01-01T00:00:00.000Z *)
Definition t0 : Z := 1735689600000.

Definition rnd0 : string := "01234567".



(** A payload whose expiry is five years before [t0]. *)
Definition lapsedPayload : object :=
  [("email", JStr "a@b.c"); ("expiresAt", JStr "2020-01-01T00:00:00.000Z")].




(** 2025-06-01T00:00:00.000Z *)
Definition tE : Z := 1748736000000.

(** A token that expires at [tE]. *)
Definition issuedE : Issued :=
  LicenseUtil.generateLicenseKey (node := Node) env0
    [("email", JStr "a@b.c"); ("expiresAt", JStr "2025-06-01T00:00:00.000Z")]
    t0 rnd0.

(** A Gumroad sale as the webhook router receives it. *)
Definition sale0 : WebhookRoutes.GumroadBody :=
  {| WebhookRoutes.seller_id := Some "seller-1";
     WebhookRoutes.email_of := "a@b.c";
     WebhookRoutes.product_id := "prod-1";
     WebhookRoutes.sale_id := "abc123" |}.

(** The collection after the first delivery of [sale0] to an empty
    one: a single, freshly created license. *)
Definition db0 : list LicenseModel.License :=
  snd (WebhookRoutes.gumroad (node := Node) env0 t0 "uuid-1" 1 true sale0 []).

Definition key0 : string :=
  match db0 with
  | l :: _ => LicenseModel.licenseKey l
  | [] => EmptyString
  end.

(** Operations on the license of key [key]. *)
Inductive LedgerOp : Type :=
| Activate (machineId : string)
| Deactivate (machineId : string).

Section Ledger.
Context {node : NodeRuntime}.

Definition ledgerStep (env : ProcessEnv) (now : Z) (key : string)
    (db : list LicenseModel.License) (op : LedgerOp)
    : list LicenseModel.License :=
  match op with
  | Activate m =>
      snd (LicenseRoutes.verify env now
             {| LicenseRoutes.body_licenseKey := key;
                LicenseRoutes.body_machineId := Some m |} db)
  | Deactivate m => snd (LicenseRoutes.deactivate key (Some m) db)
  end.

Definition ledgerRun (env : ProcessEnv) (now : Z) (key : string)
    (ops : list LedgerOp) (db : list LicenseModel.License)
    : list LicenseModel.License :=
  fold_left (ledgerStep env now key) ops db.

End Ledger.

(** The lockstep [/verify] keeps: no machine id twice, the counter is the
    number of bound ids, and it is within the limit. *)
Definition ledgerInv (l : LicenseModel.License) : Prop :=
  NoDup (LicenseModel.machineIds l)
  /\ LicenseModel.activations l
     = Z.of_nat (List.length (LicenseModel.machineIds l))
  /\ LicenseModel.activations l <= LicenseModel.maxActivations l.

(** Every deactivation of the trace names a machine that is bound, at
    that moment, to the license it is applied to. *)
Fixpoint ledgerSound {node : NodeRuntime} (env : ProcessEnv) (now : Z)
    (key : string) (ops : list LedgerOp) (db : list LicenseModel.License)
    : bool :=
  match ops with
  | [] => true
  | op :: rest =>
      match op with
      | Activate _ => true
      | Deactivate m =>
          match Collection.findOne
                  (fun l => String.eqb (LicenseModel.licenseKey l) key) db with
          | Some l => existsb (String.eqb m) (LicenseModel.machineIds l)
          | None => true
          end
      end
      && ledgerSound env now key rest (ledgerStep env now key db op)
  end.

(** What the quota is about, per stored license: the machine ids bound,
    the counter and the limit. *)
Definition quotaState (db : list LicenseModel.License)
    : list (list string * Z * Z) :=
  map (fun l => (LicenseModel.machineIds l, LicenseModel.activations l,
                 LicenseModel.maxActivations l)) db.

(** [db0] after three machines were activated on its license. *)
Definition db3 : list LicenseModel.License :=
  ledgerRun (node := Node) env0 t0 key0
    [Activate "m1"; Activate "m2"; Activate "m3"] db0.

Definition reqM (m : option string) : LicenseRoutes.VerifyRequest :=
  {| LicenseRoutes.body_licenseKey := key0;
     LicenseRoutes.body_machineId := m |}.

(** The same sale as the enhanced server receives it. *)
Definition saleS : Server.GumroadBody :=
  {| Server.seller_id := Some "seller-1";
     Server.resource_name := Some "sale";
     Server.email_of := "a@b.c";
     Server.full_name := "Ann";
     Server.sale_id := "abc123";
     Server.product_id := "prod-1" |}.

Definition dbS0 : list Server.License :=
  snd (Server.gumroadWebhook (node := Node) env0 t0 rnd0 1 saleS []).

Definition keyS : string :=
  match dbS0 with
  | l :: _ => Server.licenseKey l
  | [] => EmptyString
  end.

Definition reqS (m : option string) : Server.VerifyRequest :=
  {| Server.body_licenseKey := Some keyS;
     Server.body_machineId := m;
     Server.body_os := None;
     Server.body_app := None;
     Server.clientIP := Some "10.0.0.1" |}.

(** [dbS0] after the verifications of three machines. *)
Definition dbS3 : list Server.License :=
  fold_left
    (fun db m => snd (Server.verify (node := Node) env0 t0 (reqS (Some m)) db))
    ["m1"; "m2"; "m3"] dbS0.

(** The machine ids in the activation log of each stored license. *)
Definition logged (db : list Server.License) : list (list string) :=
  map (fun l => map Server.machineId (Server.activations l)) db.

(** The only license of a one-license collection. *)
Definition theLicense (db : list LicenseModel.License) : LicenseModel.License :=
  nth 0 db (LicenseModel.newLicense 0 "" JNull LicenseModel.manual "" "" None 0).

(** Every field of a license of the enhanced server but [isActive]. *)
Definition serverFrame (a b : Server.License) : Prop :=
  Server._id b = Server._id a
  /\ Server.licenseKey b = Server.licenseKey a
  /\ Server.email b = Server.email a
  /\ Server.name b = Server.name a
  /\ Server.createdAt b = Server.createdAt a
  /\ Server.expiresAt b = Server.expiresAt a
  /\ Server.source b = Server.source a
  /\ Server.activations b = Server.activations a
  /\ Server.metadata b = Server.metadata a.

(** Every field of a license of the admin router but [isActive]. *)
Definition adminFrame (a b : AdminRoutes.License) : Prop :=
  AdminRoutes._id b = AdminRoutes._id a
  /\ AdminRoutes.licenseKey b = AdminRoutes.licenseKey a
  /\ AdminRoutes.email b = AdminRoutes.email a
  /\ AdminRoutes.name b = AdminRoutes.name a
  /\ AdminRoutes.createdAt b = AdminRoutes.createdAt a
  /\ AdminRoutes.activatedAt b = AdminRoutes.activatedAt a
  /\ AdminRoutes.expiresAt b = AdminRoutes.expiresAt a
  /\ AdminRoutes.metadata b = AdminRoutes.metadata a
  /\ AdminRoutes.source b = AdminRoutes.source a
  /\ AdminRoutes.notes b = AdminRoutes.notes a.

(** Every field of a license of the quota model but [isActive]. *)
Definition quotaFrame (a b : LicenseModel.License) : Prop :=
  LicenseModel._id b = LicenseModel._id a
  /\ LicenseModel.licenseKey b = LicenseModel.licenseKey a
  /\ LicenseModel.licenseData b = LicenseModel.licenseData a
  /\ LicenseModel.platform b = LicenseModel.platform a
  /\ LicenseModel.saleId b = LicenseModel.saleId a
  /\ LicenseModel.email b = LicenseModel.email a
  /\ LicenseModel.machineIds b = LicenseModel.machineIds a
  /\ LicenseModel.activations b = LicenseModel.activations a
  /\ LicenseModel.maxActivations b = LicenseModel.maxActivations a
  /\ LicenseModel.createdAt b = LicenseModel.createdAt a
  /\ LicenseModel.expiresAt b = LicenseModel.expiresAt a.

(** The licenses stored for a sale, in each of the two collections. *)
Definition soldBy (sale : string) (db : list LicenseModel.License)
    : list LicenseModel.License :=
  filter (fun l => String.eqb (LicenseModel.saleId l) sale) db.

Definition soldOnServer (sale : string) (db : list Server.License)
    : list Server.License :=
  filter (Server.ofSale sale) db.

(** What the older generator issues for [sale0] at [t0]. *)
Definition issuedG : Issued :=
  match LicenseGenerator.generateLicenseKey (node := Node) env0 "a@b.c" "prod-1"
          (Some (Date_toISOString (Date_nextYear t0))) "uuid-1" t0 with
  | Some issued => issued
  | None => {| issued_licenseKey := EmptyString; issued_licenseData := JNull |}
  end.

(** What [licenseUtils] issues for [saleS] at [t0]. *)
Definition issuedS : Issued :=
  LicenseUtils.generateLicenseKey (node := Node) env0
    [("email", JStr "a@b.c"); ("name", JStr "Ann");
     ("metadata", JObj [("gumroad_sale_id", JStr "abc123");
                        ("gumroad_product_id", JStr "prod-1")])] t0 rnd0.

Definition theServerLicense (db : list Server.License) : Server.License :=
  nth 0 db
    {| Server._id := 0; Server.licenseKey := EmptyString;
       Server.email := EmptyString; Server.name := None;
       Server.createdAt := 0; Server.expiresAt := None;
       Server.isActive := false; Server.source := Server.other;
       Server.activations := []; Server.metadata := None |}.

(** A paid Stripe checkout session. *)
Definition session0 : WebhookRoutes.CheckoutSession :=
  {| WebhookRoutes.session_id := "cs_123";
     WebhookRoutes.session_mode := "payment";
     WebhookRoutes.session_email := "a@b.c";
     WebhookRoutes.session_product := Some "prod-1" |}.

(** [handleCheckoutCompleted] run on the outcome of an earlier run. *)
Definition thenCheckout {node : NodeRuntime} (env : ProcessEnv) (now : Z)
    (uuid : string) (oid : N) (session : WebhookRoutes.CheckoutSession)
    (before : option (list LicenseModel.License))
    : option (list LicenseModel.License) :=
  match before with
  | Some db => WebhookRoutes.handleCheckoutCompleted env now uuid oid session db
  | None => None
  end.

(** ** More vocabulary *)

(** The counter of a license is between zero and its limit. *)
Definition counterInv (l : LicenseModel.License) : Prop :=
  0 <= LicenseModel.activations l <= LicenseModel.maxActivations l.

(** Every field of a license of the quota model but the bound machine
    ids and the counter. *)
Definition bindingsApart (a b : LicenseModel.License) : Prop :=
  LicenseModel._id b = LicenseModel._id a
  /\ LicenseModel.licenseKey b = LicenseModel.licenseKey a
  /\ LicenseModel.licenseData b = LicenseModel.licenseData a
  /\ LicenseModel.platform b = LicenseModel.platform a
  /\ LicenseModel.saleId b = LicenseModel.saleId a
  /\ LicenseModel.email b = LicenseModel.email a
  /\ LicenseModel.maxActivations b = LicenseModel.maxActivations a
  /\ LicenseModel.createdAt b = LicenseModel.createdAt a
  /\ LicenseModel.expiresAt b = LicenseModel.expiresAt a
  /\ LicenseModel.isActive b = LicenseModel.isActive a.

(** A license is as it was, or it is the license of [key] and only its
    bindings moved. *)
Definition ledgerFrame (key : string) (a b : LicenseModel.License) : Prop :=
  a = b \/ (LicenseModel.licenseKey a = key /\ bindingsApart a b).

(** Calls to the enhanced server that write to stored licenses. *)
Inductive ServerOp : Type :=
| Verification (now : Z) (req : Server.VerifyRequest)
| Switch (b : bool) (x_admin_secret : option string) (id : N).

Section ServerRuns.
Context {node : NodeRuntime}.

Definition serverStep (env : ProcessEnv) (db : list Server.License)
    (op : ServerOp) : list Server.License :=
  match op with
  | Verification now req => snd (Server.verify env now req db)
  | Switch b secret id => snd (Server.adminSetActive b env secret id db)
  end.

Definition serverRun (env : ProcessEnv) (ops : list ServerOp)
    (db : list Server.License) : list Server.License :=
  fold_left (serverStep env) ops db.

End ServerRuns.

(** The log of [b] continues the log of [a]; every other field but
    [isActive] is the same. *)
Definition logExtends (a b : Server.License) : Prop :=
  Server._id b = Server._id a
  /\ Server.licenseKey b = Server.licenseKey a
  /\ Server.email b = Server.email a
  /\ Server.name b = Server.name a
  /\ Server.createdAt b = Server.createdAt a
  /\ Server.expiresAt b = Server.expiresAt a
  /\ Server.source b = Server.source a
  /\ Server.metadata b = Server.metadata a
  /\ exists more, Server.activations b = (Server.activations a ++ more)%list.

(** Every field of a license of the quota model that no route writes
    once the license is stored: all but the bound machine ids, the
    counter and the active flag. *)
Definition purchaseKept (a b : LicenseModel.License) : Prop :=
  LicenseModel._id b = LicenseModel._id a
  /\ LicenseModel.licenseKey b = LicenseModel.licenseKey a
  /\ LicenseModel.licenseData b = LicenseModel.licenseData a
  /\ LicenseModel.platform b = LicenseModel.platform a
  /\ LicenseModel.saleId b = LicenseModel.saleId a
  /\ LicenseModel.email b = LicenseModel.email a
  /\ LicenseModel.maxActivations b = LicenseModel.maxActivations a
  /\ LicenseModel.createdAt b = LicenseModel.createdAt a
  /\ LicenseModel.expiresAt b = LicenseModel.expiresAt a.

(** The calls that write to stored licenses of the quota model:
    [/verify], [/deactivate] and the admin router's switch. *)
Inductive RouterCall : Type :=
| RouterVerify (checked compared : Z) (req : LicenseRoutes.VerifyRequest)
| RouterDeactivate (key : string) (machineId : option string)
| RouterSwitch (b : bool) (x_admin_secret : option string) (id : N).

(** The calls that write to stored licenses of the enhanced server:
    [/api/license/verify] and the admin switch. *)
Inductive ServerCall : Type :=
| ServerVerify (checked compared stamped : Z) (req : Server.VerifyRequest)
| ServerSwitch (b : bool) (x_admin_secret : option string) (id : N).

Section Calls.
Context {node : NodeRuntime}.

Definition routerCall (env : ProcessEnv) (db : list LicenseModel.License)
    (call : RouterCall) : list LicenseModel.License :=
  match call with
  | RouterVerify checked compared req =>
      snd (Readings.routerVerify env checked compared req db)
  | RouterDeactivate key machineId =>
      snd (LicenseRoutes.deactivate key machineId db)
  | RouterSwitch b secret id =>
      snd (AdminRoutes.setLicenseActive LicenseModel._id LicenseModel.setActive
             b env secret id db)
  end.

Definition routerCalls (env : ProcessEnv) (calls : list RouterCall)
    (db : list LicenseModel.License) : list LicenseModel.License :=
  fold_left (routerCall env) calls db.

Definition serverCall (env : ProcessEnv) (db : list Server.License)
    (call : ServerCall) : list Server.License :=
  match call with
  | ServerVerify checked compared stamped req =>
      snd (Readings.serverVerify env checked compared stamped req db)
  | ServerSwitch b secret id =>
      snd (Server.adminSetActive b env secret id db)
  end.

Definition serverCalls (env : ProcessEnv) (calls : list ServerCall)
    (db : list Server.License) : list Server.License :=
  fold_left (serverCall env) calls db.

End Calls.

(** The last license of a collection, the one a successful delivery
    stored. *)
Definition newest (db : list LicenseModel.License) : LicenseModel.License :=
  last db (LicenseModel.newLicense 0 "" JNull LicenseModel.manual "" "" None 0).

(** No character of [s] satisfies [p]. *)
Fixpoint without (p : ascii -> bool) (s : string) : bool :=
  match s with
  | EmptyString => true
  | String c rest => negb (p c) && without p rest
  end.

(** No dollar sign in a text. *)
Fixpoint dollarFree (s : string) : bool :=
  match s with
  | EmptyString => true
  | String c rest => negb (Ascii.eqb c "$") && dollarFree rest
  end.

(** [pat] occurs in [s] at the end of [before], and nowhere earlier. *)
Definition firstOccurrence (pat s before after : string) : Prop :=
  s = before ++ pat ++ after
  /\ forall b a, s = b ++ pat ++ a -> (String.length before <= String.length b)%nat.

Definition occurs (pat s : string) : Prop :=
  exists b a, s = b ++ pat ++ a.

(** ** Inputs of further examples *)

(** The trace of five calls that binds a fourth machine after a
    deactivation that named none. *)
Definition voidTrace : list LedgerOp :=
  [Activate "m1"; Activate "m2"; Activate "m3"; Deactivate "m9"; Activate "m4"].

(** Calls to the enhanced server on the license of [dbS0]: a check, the
    admin switching it off and on, another check. *)
Definition serverTrace : list ServerOp :=
  [Verification t0 (reqS (Some "m1"));
   Switch false (Some "admin") 1;
   Verification (t0 + 60000) (reqS (Some "m2"));
   Switch true (Some "admin") 1;
   Verification (t0 + 120000) (reqS None)].

(** What the admin sends to create a license that expires at [tE]. *)
Definition createBody0 : ServerAdmin.CreateBody :=
  {| ServerAdmin.body_email := Some "a@b.c";
     ServerAdmin.body_name := Some "Ann";
     ServerAdmin.body_expiresAt := Some (JStr "2025-06-01T00:00:00.000Z");
     ServerAdmin.body_metadata := None |}.

(** The collection after that license was created in an empty one. *)
Definition dbA0 : list Server.License :=
  snd (ServerAdmin.adminCreate (node := Node) env0 t0 rnd0 1 (Some "admin")
         createBody0 []).

Definition reqA : Server.VerifyRequest :=
  {| Server.body_licenseKey := Some (Server.licenseKey (theServerLicense dbA0));
     Server.body_machineId := Some "m1";
     Server.body_os := None;
     Server.body_app := None;
     Server.clientIP := None |}.

(** An AppSumo delivery for the deal [deal-1], signed with the secret
    [sumo]. *)
Definition sumoBody : json :=
  JObj [("email", JStr "a@b.c"); ("uuid", JStr "deal-1");
        ("plan_id", JStr "tier1"); ("status", JStr "active")].

Definition delivery0 : AppSumo.Delivery :=
  {| AppSumo.body := sumoBody;
     AppSumo.x_appsumo_signature :=
       Some (hmac_sha256_hex (NodeRuntime := Node) "sumo"
               (JSON_stringify sumoBody));
     AppSumo.email_of := "a@b.c";
     AppSumo.uuid_of := "deal-1";
     AppSumo.plan_id := "tier1";
     AppSumo.status := Some "active" |}.

(** The collection after the first delivery to an empty one. *)
Definition dbD0 : list LicenseModel.License :=
  snd (AppSumo.appsumo (node := Node) env0 (Some "sumo") t0 "uuid-1" 1
         delivery0 []).

Definition reqD (m : option string) : LicenseRoutes.VerifyRequest :=
  {| LicenseRoutes.body_licenseKey := LicenseModel.licenseKey (newest dbD0);
     LicenseRoutes.body_machineId := m |}.

Definition reqG (m : option string) : LicenseRoutes.VerifyRequest :=
  {| LicenseRoutes.body_licenseKey := LicenseModel.licenseKey (newest db0);
     LicenseRoutes.body_machineId := m |}.

(** A hundred years after [t0]. *)
Definition tFar : Z := t0 + 3155760000000.

(** An environment that sets no [LICENSE_SECRET]. *)
Definition envBare : ProcessEnv :=
  {| env_LICENSE_SECRET := None;
     env_GUMROAD_SELLER_ID := Some "seller-1";
     env_ADMIN_SECRET := Some "admin" |}.

(** A page with its two closing tags, and a fragment without them. *)
Definition page0 : string :=
  "<html><head><title>CV</title></head><body><p>Ann</p></body></html>".

Definition fragment0 : string := "<p>Ann</p>".

(** Stand-ins for [bcrypt] and [jsonwebtoken] in the examples: the
    digest is the salt of four characters followed by the password, and
    every signature succeeds. *)
Definition plainHash (password salt : string) : string := salt ++ password.

Definition plainCompare (password hashed : string) : bool :=
  String.eqb (Watermarking.skip 4 hashed) password.

Definition plainSign (id : N) (now : Z) : option string := Some "token".

Definition identity (address : string) : string := address.

Definition signup0 : AuthRoutes.RegisterBody :=
  {| AuthRoutes.register_email := "a@b.c";
     AuthRoutes.register_password := "pass";
     AuthRoutes.register_licenseKey := key0 |}.

Definition signupBad : AuthRoutes.RegisterBody :=
  {| AuthRoutes.register_email := "a@b.c";
     AuthRoutes.register_password := "pass";
     AuthRoutes.register_licenseKey := "no-key" |}.

(** The users after [signup0] registered at [t0]. *)
Definition users0 : list UserModel.User :=
  snd (AuthRoutes.register (node := Node) identity identity plainHash env0 t0
         "salt" 1 signup0 []).

Definition theUser (db : list UserModel.User) : UserModel.User :=
  nth 0 db
    {| UserModel._id := 0; UserModel.email := EmptyString;
       UserModel.password := EmptyString; UserModel.licenseKey := EmptyString;
       UserModel.stripeCustomerId := None; UserModel.subscription := None;
       UserModel.createdAt := 0; UserModel.lastLogin := None |}.

Definition login0 : AuthRoutes.LoginBody :=
  {| AuthRoutes.login_email := "a@b.c"; AuthRoutes.login_password := "pass" |}.

(** A user who is a Stripe customer, and a change of that customer's
    subscription. *)
Definition customers0 : list UserModel.User :=
  [{| UserModel._id := 1; UserModel.email := "a@b.c";
      UserModel.password := "saltpass"; UserModel.licenseKey := "k";
      UserModel.stripeCustomerId := Some "cus_1";
      UserModel.subscription := None;
      UserModel.createdAt := t0; UserModel.lastLogin := None |}].

Definition change0 : StripeWebhook.SubscriptionObject :=
  {| StripeWebhook.object_id := "sub_1";
     StripeWebhook.customer := "cus_1";
     StripeWebhook.object_status := "canceled";
     StripeWebhook.first_price := Some "price_1";
     StripeWebhook.current_period_end := 1748736000 |}.

(** An environment that sets no [GUMROAD_SELLER_ID]. *)
Definition envOpen : ProcessEnv :=
  {| env_LICENSE_SECRET := Some "s3cret";
     env_GUMROAD_SELLER_ID := None;
     env_ADMIN_SECRET := Some "admin" |}.

(** [dbS0] after a check of the machine [m1] and the admin switching
    its license off. *)
Definition dbSoff : list Server.License :=
  serverCalls (node := Node) env0
    [ServerVerify t0 t0 t0 (reqS (Some "m1"));
     ServerSwitch false (Some "admin") 1] dbS0.

(** [dbA0] after a check of its license and the admin switching it
    off. *)
Definition dbAoff : list Server.License :=
  serverCalls (node := Node) env0
    [ServerVerify t0 t0 t0 reqA; ServerSwitch false (Some "admin") 1] dbA0.

(** [dbD0] after three machines were bound to its license, and after
    the admin then switched it off. *)
Definition dbD3 : list LicenseModel.License :=
  routerCalls (node := Node) env0
    [RouterVerify t0 t0 (reqD (Some "m1"));
     RouterVerify t0 t0 (reqD (Some "m2"));
     RouterVerify t0 t0 (reqD (Some "m3"))] dbD0.

Definition dbDoff : list LicenseModel.License :=
  routerCalls (node := Node) env0
    [RouterVerify t0 t0 (reqD (Some "m1"));
     RouterVerify t0 t0 (reqD (Some "m2"));
     RouterVerify t0 t0 (reqD (Some "m3"));
     RouterSwitch false (Some "admin") 1] dbD0.

(** [db0] after three machines were bound to its license and the admin
    then switched it off. *)
Definition db3off : list LicenseModel.License :=
  routerCalls (node := Node) env0
    [RouterVerify t0 t0 (reqG (Some "m1"));
     RouterVerify t0 t0 (reqG (Some "m2"));
     RouterVerify t0 t0 (reqG (Some "m3"));
     RouterSwitch false (Some "admin") 1] db0.

(** * Properties *)

(** ** Base64: decoding undoes encoding *)

Module Base64Facts.
Import Base64.
Local Open Scope N_scope.

Lemma string_ind3 (P : string -> Prop) :
  P EmptyString ->
  (forall a, P (String a EmptyString)) ->
  (forall a b, P (String a (String b EmptyString))) ->
  (forall a b c rest, P rest -> P (String a (String b (String c rest)))) ->
  forall s, P s.
Proof.
  intros H0 H1 H2 H3.
  assert (step : forall s, P s /\ (forall a, P (String a s))
                           /\ (forall a b, P (String a (String b s)))).
  { induction s as [|c s [IH0 [IH1 IH2]]].
    - repeat split; auto.
    - repeat split; auto. }
  intro s. apply step.
Qed.

Lemma digit_sextet (n : N) :
  n < 64 -> unbase64 (digit n) = Some n /\ Ascii.eqb (digit n) "="%char = false.
Proof.
  intro H.
  assert (K : forall k : nat, (k < 64)%nat ->
            unbase64 (digit (N.of_nat k)) = Some (N.of_nat k)
            /\ Ascii.eqb (digit (N.of_nat k)) "="%char = false).
  { intros k Hk.
    do 64 (destruct k as [|k]; [split; reflexivity|]). lia. }
  rewrite <- (N2Nat.id n). apply K. lia.
Qed.

Lemma sextets_digit (n : N) (rest : string) :
  n < 64 -> sextets (String (digit n) rest) = n :: sextets rest.
Proof.
  intro H. destruct (digit_sextet n H) as [Hu He].
  simpl. rewrite He, Hu. reflexivity.
Qed.

Lemma octet_bound (a : ascii) : N_of_ascii a < 256.
Proof. apply N_ascii_bounded. Qed.

Lemma octet_back (a : ascii) (n : N) : n = N_of_ascii a -> ascii_of_N n = a.
Proof. intros ->. apply ascii_N_embedding. Qed.

Ltac euclid := zify; Z.to_euclidean_division_equations; lia.

Lemma sextet_bounds (x y z : N) :
  x < 256 -> y < 256 -> z < 256 ->
  x / 4 < 64 /\ x mod 4 * 16 < 64 /\ x mod 4 * 16 + y / 16 < 64
  /\ y mod 16 * 4 < 64 /\ y mod 16 * 4 + z / 64 < 64 /\ z mod 64 < 64.
Proof. intros. euclid. Qed.

Lemma first_octet (x q : N) :
  x < 256 -> q < 16 -> (x / 4 * 4 + (x mod 4 * 16 + q) / 16) mod 256 = x.
Proof. intros. euclid. Qed.

Lemma second_octet (x y q : N) :
  x < 256 -> y < 256 -> q < 4 ->
  ((x mod 4 * 16 + y / 16) mod 16 * 16 + (y mod 16 * 4 + q) / 4) mod 256 = y.
Proof. intros. euclid. Qed.

Lemma third_octet (y z : N) :
  y < 256 -> z < 256 ->
  ((y mod 16 * 4 + z / 64) mod 4 * 64 + z mod 64) mod 256 = z.
Proof. intros. euclid. Qed.

Lemma sextets_pad (rest : string) : sextets (String "="%char rest) = [].
Proof. reflexivity. Qed.

(** [Buffer.from(buf.toString('base64'), 'base64')] is [buf]. *)
Lemma decode_encode (s : string) : decode (encode s) = s.
Proof.
  unfold decode. induction s as [|a|a b|a b c rest IH] using string_ind3.
  - reflexivity.
  - pose proof (octet_bound a) as Ha.
    destruct (sextet_bounds (N_of_ascii a) 0 0 Ha) as (B1 & B2 & _); try lia.
    cbn [encode]. rewrite !sextets_digit by assumption.
    rewrite sextets_pad. cbn [bytes].
    f_equal. apply octet_back.
    pose proof (first_octet (N_of_ascii a) 0 Ha).
    rewrite N.add_0_r in *. apply H. lia.
  - pose proof (octet_bound a) as Ha. pose proof (octet_bound b) as Hb.
    destruct (sextet_bounds (N_of_ascii a) (N_of_ascii b) 0 Ha Hb)
      as (B1 & _ & B3 & B4 & _); try lia.
    cbn [encode]. rewrite !sextets_digit by assumption.
    rewrite sextets_pad. cbn [bytes].
    f_equal; [|f_equal]; apply octet_back.
    + apply first_octet; [assumption|euclid].
    + pose proof (second_octet (N_of_ascii a) (N_of_ascii b) 0 Ha Hb).
      rewrite N.add_0_r in *. apply H. lia.
  - pose proof (octet_bound a) as Ha. pose proof (octet_bound b) as Hb.
    pose proof (octet_bound c) as Hc.
    destruct (sextet_bounds (N_of_ascii a) (N_of_ascii b) (N_of_ascii c)
                Ha Hb Hc) as (B1 & _ & B3 & _ & B5 & B6).
    cbn [encode]. rewrite !sextets_digit by assumption.
    cbn [bytes]. rewrite IH.
    f_equal; [|f_equal; [|f_equal]]; apply octet_back.
    + apply first_octet; [assumption|euclid].
    + apply second_octet; [assumption|assumption|euclid].
    + apply third_octet; assumption.
Qed.

End Base64Facts.

(** ** The signer and the verifier *)

Section SignerFacts.
Context {node : NodeRuntime}.

Lemma lookup_assign (k k' : string) (v : json) (o : object) :
  lookup k (assign k' v o) = if String.eqb k k' then Some v else lookup k o.
Proof.
  induction o as [|[k0 v0] o IH]; cbn [assign lookup].
  - reflexivity.
  - destruct (String.eqb k' k0) eqn:E0; cbn [lookup].
    + apply String.eqb_eq in E0. subst k0.
      destruct (String.eqb k k'); reflexivity.
    + rewrite IH. destruct (String.eqb k k') eqn:E1; [|reflexivity].
      apply String.eqb_eq in E1. subst k'. rewrite E0. reflexivity.
Qed.

Lemma lookup_app (k : string) (a b : object) :
  lookup k (a ++ b)%list =
  match lookup k a with Some v => Some v | None => lookup k b end.
Proof.
  induction a as [|[k0 v0] a IH]; cbn [app lookup]; [reflexivity|].
  destruct (String.eqb k k0); [reflexivity|exact IH].
Qed.

(** In [{...src}] the last occurrence of a key wins. *)
Lemma lookup_spread (k : string) (src dst : object) :
  lookup k (spread dst src) =
  match lookup k (rev src) with Some v => Some v | None => lookup k dst end.
Proof.
  unfold spread. revert dst.
  induction src as [|[k0 v0] src IH]; intro dst; cbn [fold_left rev fst snd].
  - reflexivity.
  - rewrite IH, lookup_app, lookup_assign. cbn [lookup].
    destruct (lookup k (rev src)); [reflexivity|].
    destruct (String.eqb k k0); reflexivity.
Qed.

Lemma lookup_absent (k : string) (o : object) :
  ~ In k (map fst o) -> lookup k o = None.
Proof.
  induction o as [|[k0 v0] o IH]; cbn [map fst lookup In]; intro H.
  - reflexivity.
  - destruct (String.eqb k k0) eqn:E.
    + apply String.eqb_eq in E. subst. exfalso. apply H. now left.
    + apply IH. intro. apply H. now right.
Qed.

(** An object has no key twice, so the order of reading is immaterial. *)
Lemma lookup_rev (k : string) (o : object) :
  NoDup (map fst o) -> lookup k (rev o) = lookup k o.
Proof.
  induction o as [|[k0 v0] o IH]; cbn [map fst rev lookup]; intro H.
  - reflexivity.
  - inversion H as [|? ? Hnot Hrest]; subst.
    rewrite lookup_app, IH by assumption. cbn [lookup].
    destruct (String.eqb k k0) eqn:E.
    + apply String.eqb_eq in E. subst k0.
      rewrite lookup_absent by assumption. reflexivity.
    + destruct (lookup k o); reflexivity.
Qed.

Lemma past_spec (now e : Z) (v : json) :
  Date_getTime v = Some e -> past now (Some v) = (now >? e).
Proof. intro H. unfold past. rewrite H. reflexivity. Qed.

(** What the verifier does once the signature matches. *)
Lemma verifyEnvelope_signed (secret expiry key : string) (now : Z) (data : json) :
  signedData secret key = Some data ->
  verifyEnvelope (Some secret) expiry now key =
  match data with
  | JNull => Invalid "Invalid license format"
  | _ => if truthy (prop data expiry) && past now (prop data expiry)
         then Invalid "License expired"
         else Valid data
  end.
Proof.
  unfold signedData, verifyEnvelope.
  destruct (JSON_parse (Base64.decode key)) as [licenseObj|]; [|discriminate].
  destruct (prop licenseObj "data") as [d|] eqn:Hd.
  2:{ destruct licenseObj; discriminate. }
  destruct (strict_eq_string (prop licenseObj "sig")
              (hmac_sha256_hex secret (JSON_stringify d))) eqn:Hs;
    [|discriminate].
  intro H. injection H as ->.
  destruct licenseObj; cbn [prop] in Hd; try discriminate.
  cbn [negb]. reflexivity.
Qed.



Lemma verifierOf_envelope (c : Copy) (env : ProcessEnv) (now : Z) (key : string) :
  verifierOf c env now key =
  verifyEnvelope (secretOf c env) (expiryOf c) now key.
Proof. destruct c; reflexivity. Qed.

End SignerFacts.

Section SignerClaims.
Context {node : NodeRuntime}.

(** C6.  A token whose payload carries an expiry instant is refused with
    [License expired] at every time strictly after that instant and is
    accepted at every time up to it, in each copy of the verifier (the
    older generator names the property [expirationDate]). *)
Theorem expiry_is_strictly_after (c : Copy) (env : ProcessEnv)
    (secret key : string) (data v : json) (e now : Z) :
  secretOf c env = Some secret ->
  signedData secret key = Some data ->
  prop data (expiryOf c) = Some v ->
  truthy (Some v) = true ->
  Date_getTime v = Some e ->
  (e < now -> verifierOf c env now key = Invalid "License expired")
  /\ (now <= e -> verifierOf c env now key = Valid data).
Proof.
  intros Hsecret Hsigned Hprop Htruthy Hdate.
  rewrite verifierOf_envelope, Hsecret.
  rewrite (verifyEnvelope_signed _ _ _ _ _ Hsigned).
  destruct data as [| | | | |fields]; cbn [prop] in Hprop; try discriminate.
  cbn [prop]. rewrite Hprop, Htruthy, (past_spec _ _ _ Hdate). cbn [andb].
  split; intro Hnow.
  - destruct (Z.gtb_spec now e); [reflexivity|lia].
  - destruct (Z.gtb_spec now e); [lia|reflexivity].
Qed.


(** C5, as the code has it.  For a payload that is an object (no key
    twice), whose envelope survives [JSON.parse] of its [JSON.stringify]
    and whose [expiresAt], if it has a truthy one, is not in the past at
    the time of the check: verifying the issued key succeeds and returns
    the payload's properties unchanged, except that [createdAt] and
    [uid] are the ones issuance wrote. *)
Theorem issue_then_verify (env : ProcessEnv) (data : object) (now now' : Z)
    (rnd : string) :
  let issued := LicenseUtil.generateLicenseKey env data now rnd in
  NoDup (map fst data) ->
  JSON_parse
    (JSON_stringify
       (envelope (LicenseUtil.LICENSE_SECRET env) (issued_licenseData issued)))
  = Some (envelope (LicenseUtil.LICENSE_SECRET env) (issued_licenseData issued)) ->
  truthy (lookup "expiresAt" data) && past now' (lookup "expiresAt" data) = false ->
  LicenseUtil.verifyLicenseKey env now' (issued_licenseKey issued)
  = Valid (issued_licenseData issued)
  /\ (forall k, k <> "createdAt" -> k <> "uid" ->
      prop (issued_licenseData issued) k = lookup k data)
  /\ prop (issued_licenseData issued) "createdAt"
     = Some (JStr (Date_toISOString now))
  /\ prop (issued_licenseData issued) "uid" = Some (JStr (Hex.encode rnd)).
Proof.
  intros issued Hobj Hjson Hfresh.
  assert (Hfield : forall k, k <> "createdAt" -> k <> "uid" ->
            prop (issued_licenseData issued) k = lookup k data).
  { intros k Hc Hu. cbn [issued LicenseUtil.generateLicenseKey
                           issued_licenseData prop].
    rewrite !lookup_assign.
    apply String.eqb_neq in Hc, Hu. rewrite Hc, Hu.
    rewrite lookup_spread, lookup_rev by assumption.
    destruct (lookup k data); reflexivity. }
  split; [|split; [exact Hfield|split]].
  - unfold LicenseUtil.verifyLicenseKey.
    assert (Hsigned : signedData (LicenseUtil.LICENSE_SECRET env)
                        (issued_licenseKey issued)
                      = Some (issued_licenseData issued)).
    { unfold signedData.
      cbn [issued LicenseUtil.generateLicenseKey issued_licenseKey].
      unfold sealKey. rewrite Base64Facts.decode_encode.
      unfold envelope in Hjson. cbn [issued_licenseData issued
        LicenseUtil.generateLicenseKey] in Hjson.
      rewrite Hjson. cbn [prop lookup String.eqb Ascii.eqb Bool.eqb].
      cbn [strict_eq_string]. rewrite String.eqb_refl. reflexivity. }
    rewrite (verifyEnvelope_signed _ _ _ _ _ Hsigned).
    rewrite (Hfield "expiresAt") by discriminate.
    cbn [issued LicenseUtil.generateLicenseKey issued_licenseData].
    rewrite Hfresh. reflexivity.
  - cbn [issued LicenseUtil.generateLicenseKey issued_licenseData prop].
    rewrite !lookup_assign. reflexivity.
  - cbn [issued LicenseUtil.generateLicenseKey issued_licenseData prop].
    rewrite !lookup_assign. reflexivity.
Qed.

End SignerClaims.

(** The expiry boundary on a key issued at [t0] that expires at [tE]:
    refused one second after, accepted one second before. *)
Lemma expiry_boundary_example :
  verifierOf Utility env0 (tE + 1000) (issued_licenseKey issuedE)
  = Invalid "License expired"
  /\ verifierOf Utility env0 (tE - 1000) (issued_licenseKey issuedE)
     = Valid (issued_licenseData issuedE).
Proof.
  split.
  - refine (proj1 (expiry_is_strictly_after (node := Node) Utility env0 "s3cret"
                     (issued_licenseKey issuedE) (issued_licenseData issuedE)
                     (JStr "2025-06-01T00:00:00.000Z") tE (tE + 1000)
                     _ _ _ _ _) _);
      vm_compute; reflexivity.
  - refine (proj2 (expiry_is_strictly_after (node := Node) Utility env0 "s3cret"
                     (issued_licenseKey issuedE) (issued_licenseData issuedE)
                     (JStr "2025-06-01T00:00:00.000Z") tE (tE - 1000)
                     _ _ _ _ _) _);
      vm_compute; first [reflexivity | discriminate].
Defined.



(** A payload that is already expired when it is issued: the issued
    key is refused. *)
Lemma lapsed_payload_does_not_verify :
  LicenseUtil.verifyLicenseKey env0 t0
    (issued_licenseKey (LicenseUtil.generateLicenseKey env0 lapsedPayload t0 rnd0))
  = Invalid "License expired".
Proof. vm_compute. reflexivity. Qed.

(** The round trip on [{email: 'ab'}], issued and checked at [t0]. *)
Lemma issue_then_verify_example :
  let issued :=
    LicenseUtil.generateLicenseKey (node := Node) env0 [("email", JStr "ab")]
      t0 rnd0 in
  LicenseUtil.verifyLicenseKey env0 t0 (issued_licenseKey issued)
  = Valid (issued_licenseData issued)
  /\ (forall k, k <> "createdAt" -> k <> "uid" ->
      prop (issued_licenseData issued) k = lookup k [("email", JStr "ab")])
  /\ prop (issued_licenseData issued) "createdAt"
     = Some (JStr (Date_toISOString t0))
  /\ prop (issued_licenseData issued) "uid" = Some (JStr (Hex.encode rnd0)).
Proof.
  apply (issue_then_verify (node := Node) env0 [("email", JStr "ab")] t0 t0 rnd0).
  - repeat constructor. intros [].
  - vm_compute. reflexivity.
  - reflexivity.
Defined.

(** ** Collections *)

Section CollectionFacts.
Context {Doc : Type} (id_of : Doc -> N).

(** After [save], a query that found the old document and matches the
    new one finds the new one. *)
Lemma findOne_save (p : Doc -> bool) (db : list Doc) (d d' : Doc) :
  Collection.findOne p db = Some d ->
  id_of d' = id_of d ->
  p d' = true ->
  Collection.findOne p (Collection.save id_of d' db) = Some d'.
Proof.
  unfold Collection.findOne, Collection.save. intros Hfind Hid Hp.
  induction db as [|x rest IH]; cbn [find Collection.updateOne] in *;
    [discriminate|].
  destruct (p x) eqn:Hx.
  - injection Hfind as ->. rewrite Hid, N.eqb_refl. cbn [find].
    rewrite Hp. reflexivity.
  - destruct (N.eqb (id_of x) (id_of d')); cbn [find].
    + rewrite Hp. reflexivity.
    + rewrite Hx. apply IH. exact Hfind.
Qed.

Lemma findOne_insert (p : Doc -> bool) (db : list Doc) (d : Doc) :
  Collection.findOne p db = None ->
  p d = true ->
  Collection.findOne p (Collection.insert d db) = Some d.
Proof.
  unfold Collection.findOne, Collection.insert. intros Hnone Hp.
  induction db as [|x rest IH]; cbn [find app] in *.
  - rewrite Hp. reflexivity.
  - destruct (p x); [discriminate|]. apply IH. exact Hnone.
Qed.

Lemma filter_none (p : Doc -> bool) (db : list Doc) :
  find p db = None -> filter p db = [].
Proof.
  induction db as [|x rest IH]; cbn [find filter]; [reflexivity|].
  destruct (p x); [discriminate|exact IH].
Qed.

(** A write through [updateOne] relates each document to itself or to
    its image. *)
Lemma updateOne_pointwise (R : Doc -> Doc -> Prop) (id : N) (f : Doc -> Doc)
    (db : list Doc) :
  (forall d, R d d) -> (forall d, N.eqb (id_of d) id = true -> R d (f d)) ->
  Forall2 R db (Collection.updateOne id_of id f db).
Proof.
  intros Hrefl Hf.
  assert (Hsame : forall l : list Doc, Forall2 R l l).
  { induction l; constructor; auto. }
  induction db as [|x rest IH]; cbn [Collection.updateOne]; [constructor|].
  destruct (N.eqb (id_of x) id) eqn:E; constructor; auto.
Qed.


End CollectionFacts.

(** ** The activation ledger of [routes/license.routes.js] *)

Section LedgerClaims.
Context {node : NodeRuntime}.
Import LicenseModel LicenseRoutes.

Lemma truthy_field_nonempty (m : string) :
  m <> "" -> truthy_field (Some m) = true.
Proof.
  intro H. cbn [truthy_field]. apply String.eqb_neq in H. rewrite H. reflexivity.
Qed.

Lemma filter_unbound (m : string) (ids : list string) :
  existsb (String.eqb m) ids = false ->
  filter (fun id => negb (same_field (Some id) (Some m))) ids = ids.
Proof.
  induction ids as [|x rest IH]; cbn [existsb filter same_field];
    [reflexivity|].
  intro H. apply orb_false_iff in H as [Hx Hrest].
  rewrite String.eqb_sym, Hx. cbn [negb]. f_equal. exact (IH Hrest).
Qed.

(** What [/deactivate] does with a machine id that is not bound: the
    bound ids stay, the counter goes down by one unless it is zero. *)
Lemma unbind_unbound (m : string) (l : License) :
  existsb (String.eqb m) (machineIds l) = false ->
  machineIds (unbind (Some m) l) = machineIds l
  /\ activations (unbind (Some m) l) = Z.max 0 (activations l - 1).
Proof.
  intro H. cbn [unbind machineIds activations].
  split; [apply filter_unbound; exact H|reflexivity].
Qed.

(** The ledger step of [router.post('/verify')], once the key, the
    record, its active flag and its expiry pass. *)
Lemma router_activation_step (env : ProcessEnv) (now : Z)
    (req : VerifyRequest) (db : list License) (license : License)
    (machineId : string) (data : json) :
  let byKey := fun l => String.eqb (licenseKey l) (body_licenseKey req) in
  LicenseGenerator.verifyLicenseKey env now (body_licenseKey req) = Valid data ->
  Collection.findOne byKey db = Some license ->
  isActive license = true ->
  lapsed now license = false ->
  body_machineId req = Some machineId ->
  machineId <> "" ->
  (existsb (String.eqb machineId) (machineIds license) = false ->
   activations license < maxActivations license ->
   verify env now req db
   = (Accepted (expiresAt license) (email license),
      Collection.save _id (bind machineId license) db)
   /\ Collection.findOne byKey (Collection.save _id (bind machineId license) db)
      = Some (bind machineId license)
   /\ machineIds (bind machineId license) = (machineIds license ++ [machineId])%list
   /\ activations (bind machineId license) = activations license + 1)
  /\ (existsb (String.eqb machineId) (machineIds license) = false ->
      maxActivations license <= activations license ->
      verify env now req db = (Rejected 400 "Maximum activations reached", db))
  /\ (existsb (String.eqb machineId) (machineIds license) = true ->
      verify env now req db
      = (Accepted (expiresAt license) (email license), db)).
Proof.
  intros byKey Hkey Hfind Hactive Hlapsed Hmachine Hnonempty.
  pose proof (truthy_field_nonempty _ Hnonempty) as Htruthy.
  unfold verify. fold byKey.
  rewrite Hkey, Hfind, Hactive, Hlapsed, Hmachine, Htruthy. cbn [negb andb].
  split; [|split].
  - intros Hunbound Hroom. rewrite Hunbound. cbn [negb].
    destruct (Z.geb_spec (activations license) (maxActivations license));
      [lia|].
    split; [reflexivity|]. split; [|split; reflexivity].
    apply (findOne_save _id byKey db license); [exact Hfind|reflexivity|].
    unfold byKey. cbn [bind licenseKey].
    unfold Collection.findOne in Hfind. apply find_some in Hfind. apply Hfind.
  - intros Hunbound Hfull. rewrite Hunbound. cbn [negb].
    destruct (Z.geb_spec (activations license) (maxActivations license));
      [reflexivity|lia].
  - intros Hbound. rewrite Hbound. reflexivity.
Qed.

(** On [router.post('/verify')] a request without a machine id (absent
    or empty) writes nothing, whatever the checks say. *)
Lemma router_check_without_machine (env : ProcessEnv) (now : Z)
    (req : VerifyRequest) (db : list License) :
  truthy_field (body_machineId req) = false ->
  snd (verify env now req db) = db.
Proof.
  intro Hnone. unfold verify.
  destruct (LicenseGenerator.verifyLicenseKey env now (body_licenseKey req));
    [|reflexivity].
  destruct (Collection.findOne _ db) as [license|]; [|reflexivity].
  destruct (negb (isActive license)); [reflexivity|].
  destruct (lapsed now license); [reflexivity|].
  destruct (body_machineId req) as [m|]; [|reflexivity].
  rewrite Hnone. reflexivity.
Qed.

End LedgerClaims.

(** ** The enhanced server's verification *)

Section ServerFacts.
Context {node : NodeRuntime}.

(** Once the checks pass, [/api/license/verify] appends one entry to the
    activation log, whatever the machine id and however long the log. *)
Lemma server_verify_records (env : ProcessEnv) (now : Z)
    (req : Server.VerifyRequest) (db : list Server.License)
    (license : Server.License) (key : string) (data : json) :
  Server.body_licenseKey req = Some key ->
  key <> "" ->
  LicenseUtils.verifyLicenseKey env now key = Valid data ->
  Collection.findOne (fun l => String.eqb (Server.licenseKey l) key) db
  = Some license ->
  Server.isActive license = true ->
  Server.lapsed now license = false ->
  Server.verify env now req db
  = (Server.Accepted (Server.name license) (Server.email license)
       (Server.expiresAt license),
     Collection.save Server._id
       (Server.record
          {| Server.timestamp := now;
             Server.machineId := or_default (Server.body_machineId req) "unknown";
             Server.os := or_default (Server.body_os req) "unknown";
             Server.app := or_default (Server.body_app req) "unknown";
             Server.ip := Server.clientIP req |} license) db).
Proof.
  intros Hkey Hnonempty Hvalid Hfind Hactive Hlapsed.
  unfold Server.verify. rewrite Hkey.
  apply String.eqb_neq in Hnonempty. rewrite Hnonempty.
  rewrite Hvalid, Hfind, Hactive, Hlapsed. reflexivity.
Qed.

(** C9.  A verification call that answers [valid: false] leaves the
    collection as it was, on both verification routes. *)
Theorem rejected_check_writes_nothing (env : ProcessEnv) (now : Z) :
  (forall req db status reason,
     fst (LicenseRoutes.verify env now req db)
     = LicenseRoutes.Rejected status reason ->
     snd (LicenseRoutes.verify env now req db) = db)
  /\ (forall req db status reason,
        fst (Server.verify env now req db) = Server.Rejected status reason ->
        snd (Server.verify env now req db) = db).
Proof.
  split; intros req db status reason.
  - unfold LicenseRoutes.verify.
    destruct (LicenseGenerator.verifyLicenseKey env now _); [|reflexivity].
    destruct (Collection.findOne _ db) as [license|]; [|reflexivity].
    destruct (negb (LicenseModel.isActive license)); [reflexivity|].
    destruct (LicenseModel.lapsed now license); [reflexivity|].
    destruct (LicenseRoutes.body_machineId req) as [m|]; [|reflexivity].
    destruct (truthy_field (Some m) && _); [|reflexivity].
    destruct (_ >=? _); [reflexivity|].
    cbn [fst]. discriminate.
  - unfold Server.verify.
    destruct (Server.body_licenseKey req) as [key|]; [|reflexivity].
    destruct (String.eqb key ""); [reflexivity|].
    destruct (LicenseUtils.verifyLicenseKey env now key); [|reflexivity].
    destruct (Collection.findOne _ db) as [license|]; [|reflexivity].
    destruct (negb (Server.isActive license)); [reflexivity|].
    destruct (Server.lapsed now license); [reflexivity|].
    cbn [fst]. discriminate.
Qed.

(** The quota as each route keeps it.  On [router.post('/verify')],
    once the key, the record, its active flag and its expiry pass: a
    request with a machine id that is not bound binds it when the
    record's activation counter is strictly below [maxActivations] (the
    counter, not the number of bound ids), and is refused with
    [Maximum activations reached], the collection unchanged, when the
    counter has reached it; a machine id that is already bound is
    accepted and nothing is written.  The enhanced server's
    [/api/license/verify] has no quota: once its checks pass it accepts
    and appends one entry to the activation log. *)
Theorem activation_quota_by_route (env : ProcessEnv) (now : Z) :
  (forall req db license machineId data,
     let byKey := fun l => String.eqb (LicenseModel.licenseKey l)
                             (LicenseRoutes.body_licenseKey req) in
     LicenseGenerator.verifyLicenseKey env now (LicenseRoutes.body_licenseKey req)
     = Valid data ->
     Collection.findOne byKey db = Some license ->
     LicenseModel.isActive license = true ->
     LicenseModel.lapsed now license = false ->
     LicenseRoutes.body_machineId req = Some machineId ->
     machineId <> "" ->
     (existsb (String.eqb machineId) (LicenseModel.machineIds license) = false ->
      LicenseModel.activations license < LicenseModel.maxActivations license ->
      LicenseRoutes.verify env now req db
      = (LicenseRoutes.Accepted (LicenseModel.expiresAt license)
           (LicenseModel.email license),
         Collection.save LicenseModel._id
           (LicenseModel.bind machineId license) db)
      /\ Collection.findOne byKey
           (Collection.save LicenseModel._id
              (LicenseModel.bind machineId license) db)
         = Some (LicenseModel.bind machineId license)
      /\ LicenseModel.machineIds (LicenseModel.bind machineId license)
         = (LicenseModel.machineIds license ++ [machineId])%list
      /\ LicenseModel.activations (LicenseModel.bind machineId license)
         = LicenseModel.activations license + 1)
     /\ (existsb (String.eqb machineId) (LicenseModel.machineIds license) = false ->
         LicenseModel.maxActivations license <= LicenseModel.activations license ->
         LicenseRoutes.verify env now req db
         = (LicenseRoutes.Rejected 400 "Maximum activations reached", db))
     /\ (existsb (String.eqb machineId) (LicenseModel.machineIds license) = true ->
         LicenseRoutes.verify env now req db
         = (LicenseRoutes.Accepted (LicenseModel.expiresAt license)
              (LicenseModel.email license), db)))
  /\ (forall req db license key data,
        Server.body_licenseKey req = Some key ->
        key <> "" ->
        LicenseUtils.verifyLicenseKey env now key = Valid data ->
        Collection.findOne (fun l => String.eqb (Server.licenseKey l) key) db
        = Some license ->
        Server.isActive license = true ->
        Server.lapsed now license = false ->
        Server.verify env now req db
        = (Server.Accepted (Server.name license) (Server.email license)
             (Server.expiresAt license),
           Collection.save Server._id
             (Server.record
                {| Server.timestamp := now;
                   Server.machineId :=
                     or_default (Server.body_machineId req) "unknown";
                   Server.os := or_default (Server.body_os req) "unknown";
                   Server.app := or_default (Server.body_app req) "unknown";
                   Server.ip := Server.clientIP req |} license) db)).
Proof.
  split.
  - intros req db license machineId data byKey.
    exact (router_activation_step env now req db license machineId data).
  - intros req db license key data.
    exact (server_verify_records env now req db license key data).
Qed.

(** C8, as the code has it.  On [router.post('/verify')] a request
    without a machine id writes nothing.  On the enhanced server a
    request without a machine id that passes the checks appends an
    activation entry for the machine [unknown]. *)
Theorem check_without_machine_by_route (env : ProcessEnv) (now : Z) :
  (forall req db,
     truthy_field (LicenseRoutes.body_machineId req) = false ->
     snd (LicenseRoutes.verify env now req db) = db)
  /\ (forall req db license key data,
        truthy_field (Server.body_machineId req) = false ->
        Server.body_licenseKey req = Some key ->
        key <> "" ->
        LicenseUtils.verifyLicenseKey env now key = Valid data ->
        Collection.findOne (fun l => String.eqb (Server.licenseKey l) key) db
        = Some license ->
        Server.isActive license = true ->
        Server.lapsed now license = false ->
        Server.verify env now req db
        = (Server.Accepted (Server.name license) (Server.email license)
             (Server.expiresAt license),
           Collection.save Server._id
             (Server.record
                {| Server.timestamp := now;
                   Server.machineId := "unknown";
                   Server.os := or_default (Server.body_os req) "unknown";
                   Server.app := or_default (Server.body_app req) "unknown";
                   Server.ip := Server.clientIP req |} license) db)).
Proof.
  split.
  - intros req db. apply router_check_without_machine.
  - intros req db license key data Hnone Hkey Hnonempty Hvalid Hfind Hactive
      Hlapsed.
    rewrite (server_verify_records env now req db license key data)
      by assumption.
    replace (or_default (Server.body_machineId req) "unknown")
      with "unknown"; [reflexivity|].
    destruct (Server.body_machineId req) as [m|]; [|reflexivity].
    cbn [truthy_field] in Hnone. cbn [or_default].
    destruct (String.eqb m ""); [reflexivity|discriminate].
Qed.

End ServerFacts.

(** The enhanced server keeps no quota: a record whose log names three
    machines, the limit the license model sets by default, accepts a
    fourth and writes it down. *)
Lemma server_admits_a_fourth_machine :
  logged dbS3 = [["m1"; "m2"; "m3"]]
  /\ map LicenseModel.maxActivations db0 = [3]
  /\ fst (Server.verify env0 t0 (reqS (Some "m4")) dbS3)
     = Server.Accepted (Some "Ann") "a@b.c" None
  /\ logged (snd (Server.verify env0 t0 (reqS (Some "m4")) dbS3))
     = [["m1"; "m2"; "m3"; "m4"]].
Proof. repeat split; vm_compute; reflexivity. Qed.

(** Without a machine id the enhanced server still writes: the log of
    the license grows by an entry for the machine [unknown]. *)
Lemma server_logs_a_check_without_machine :
  logged dbS0 = [[]]
  /\ fst (Server.verify env0 t0 (reqS None) dbS0)
     = Server.Accepted (Some "Ann") "a@b.c" None
  /\ logged (snd (Server.verify env0 t0 (reqS None) dbS0)) = [["unknown"]].
Proof. repeat split; vm_compute; reflexivity. Qed.

(** The ledger on the license of [db0]: a first machine is bound; with
    three machines bound a fourth is refused and nothing is written; a
    bound machine is accepted again and nothing is written.  On the
    enhanced server the fourth machine is recorded. *)
Lemma ledger_example :
  LicenseRoutes.verify env0 t0 (reqM (Some "m1")) db0
  = (LicenseRoutes.Accepted (LicenseModel.expiresAt (theLicense db0))
       (LicenseModel.email (theLicense db0)),
     Collection.save LicenseModel._id
       (LicenseModel.bind "m1" (theLicense db0)) db0)
  /\ LicenseRoutes.verify env0 t0 (reqM (Some "m4")) db3
     = (LicenseRoutes.Rejected 400 "Maximum activations reached", db3)
  /\ LicenseRoutes.verify env0 t0 (reqM (Some "m2")) db3
     = (LicenseRoutes.Accepted (LicenseModel.expiresAt (theLicense db3))
          (LicenseModel.email (theLicense db3)), db3)
  /\ logged (snd (Server.verify env0 t0 (reqS (Some "m4")) dbS3))
     = [["m1"; "m2"; "m3"; "m4"]].
Proof.
  pose (data := LicenseModel.licenseData (theLicense db0)).
  destruct (activation_quota_by_route (node := Node) env0 t0) as [HR HS].
  split; [|split; [|split]].
  - destruct (HR (reqM (Some "m1")) db0 (theLicense db0) "m1" data)
      as (Hbind & _ & _).
    1-5: vm_compute; reflexivity.
    1: discriminate.
    apply Hbind; vm_compute; reflexivity.
  - destruct (HR (reqM (Some "m4")) db3 (theLicense db3) "m4" data)
      as (_ & Hfull & _).
    1-5: vm_compute; reflexivity.
    1: discriminate.
    apply Hfull; vm_compute; [reflexivity|discriminate].
  - destruct (HR (reqM (Some "m2")) db3 (theLicense db3) "m2" data)
      as (_ & _ & Hbound).
    1-5: vm_compute; reflexivity.
    1: discriminate.
    apply Hbound; vm_compute; reflexivity.
  - rewrite (HS (reqS (Some "m4")) dbS3 (theServerLicense dbS3)
               keyS (issued_licenseData issuedS)).
    1: vm_compute; reflexivity.
    1: reflexivity.
    1: vm_compute; discriminate.
    all: vm_compute; reflexivity.
Defined.

(** A check without a machine id on the license of [db0], and on the
    license of [dbS0]. *)
Lemma check_without_machine_example :
  snd (LicenseRoutes.verify env0 t0 (reqM None) db0) = db0
  /\ logged (snd (Server.verify env0 t0 (reqS None) dbS0)) = [["unknown"]].
Proof.
  destruct (check_without_machine_by_route (node := Node) env0 t0) as [HR HS].
  split.
  - apply HR. reflexivity.
  - rewrite (HS (reqS None) dbS0 (theServerLicense dbS0) keyS
               (issued_licenseData issuedS)).
    1: vm_compute; reflexivity.
    1-2: reflexivity.
    1: vm_compute; discriminate.
    all: vm_compute; reflexivity.
Defined.

(** Refused checks: a fourth machine on the quota route, and a text
    that is no license key on the enhanced server. *)
Lemma rejected_check_example :
  snd (LicenseRoutes.verify env0 t0 (reqM (Some "m4")) db3) = db3
  /\ snd (Server.verify env0 t0
            {| Server.body_licenseKey := Some "no-key";
               Server.body_machineId := Some "m1";
               Server.body_os := None; Server.body_app := None;
               Server.clientIP := None |} dbS3) = dbS3.
Proof.
  destruct (rejected_check_writes_nothing (node := Node) env0 t0) as [HA HS].
  split.
  - apply (HA _ _ 400 "Maximum activations reached"). vm_compute. reflexivity.
  - apply (HS _ _ 403 "Invalid license format"). vm_compute. reflexivity.
Defined.

(** C7 at a failing input.  The license of [db0] with the machine [m1]
    bound, and a deactivation of [m2], which is not bound: the bound
    ids stay but the counter drops from one to zero. *)
Lemma deactivating_an_unbound_machine_decrements :
  quotaState (ledgerRun env0 t0 key0 [Activate "m1"] db0) = [(["m1"], 1, 3)]
  /\ LicenseRoutes.deactivate key0 (Some "m2")
       (ledgerRun env0 t0 key0 [Activate "m1"] db0)
     = (LicenseRoutes.Deactivated,
        ledgerRun env0 t0 key0 [Activate "m1"; Deactivate "m2"] db0)
  /\ quotaState (ledgerRun env0 t0 key0 [Activate "m1"; Deactivate "m2"] db0)
     = [(["m1"], 0, 3)].
Proof. repeat split; vm_compute; reflexivity. Qed.

(** C2 at a failing input.  Three activations fill the quota of the
    license of [db0]; deactivating a machine that was never bound frees
    a slot in the counter; a fourth machine is then bound: four bound
    machine ids under a limit of three. *)
Lemma quota_exceeded_after_a_void_deactivation :
  quotaState db0 = [([], 0, 3)]
  /\ quotaState
       (ledgerRun env0 t0 key0
          [Activate "m1"; Activate "m2"; Activate "m3";
           Deactivate "m9"; Activate "m4"] db0)
     = [(["m1"; "m2"; "m3"; "m4"], 3, 3)].
Proof. split; vm_compute; reflexivity. Qed.

(** C1 at a failing input.  The license of [db0] after three
    activations and the deactivation of a machine that was never bound:
    three machine ids are bound, the limit is three and the counter is
    two.  A verification with a fourth machine id, which is not bound,
    is accepted and binds it, though the number of bound ids is not
    below the limit; four ids are bound afterwards. *)
Lemma unbound_machine_is_bound_at_the_limit :
  quotaState
    (ledgerRun env0 t0 key0
       [Activate "m1"; Activate "m2"; Activate "m3"; Deactivate "m9"] db0)
  = [(["m1"; "m2"; "m3"], 2, 3)]
  /\ fst (LicenseRoutes.verify env0 t0 (reqM (Some "m4"))
            (ledgerRun env0 t0 key0
               [Activate "m1"; Activate "m2"; Activate "m3"; Deactivate "m9"]
               db0))
     = LicenseRoutes.Accepted (LicenseModel.expiresAt (theLicense db0)) "a@b.c"
  /\ quotaState
       (snd (LicenseRoutes.verify env0 t0 (reqM (Some "m4"))
               (ledgerRun env0 t0 key0
                  [Activate "m1"; Activate "m2"; Activate "m3"; Deactivate "m9"]
                  db0)))
     = [(["m1"; "m2"; "m3"; "m4"], 3, 3)].
Proof. repeat split; vm_compute; reflexivity. Qed.

(** ** Issuance from Gumroad sales *)

Section IssuanceClaims.
Context {node : NodeRuntime}.

Lemma soldBy_insert (sale : string) (db : list LicenseModel.License)
    (l : LicenseModel.License) :
  Collection.findOne (fun x => String.eqb (LicenseModel.saleId x) sale) db = None ->
  LicenseModel.saleId l = sale ->
  soldBy sale (Collection.insert l db) = [l].
Proof.
  intros Hnone Hsale. unfold soldBy, Collection.insert.
  rewrite filter_app, (filter_none _ _ Hnone). cbn [filter app].
  rewrite Hsale, String.eqb_refl. reflexivity.
Qed.

Lemma soldOnServer_insert (sale : string) (db : list Server.License)
    (l : Server.License) :
  Collection.findOne (Server.ofSale sale) db = None ->
  Server.ofSale sale l = true ->
  soldOnServer sale (Collection.insert l db) = [l].
Proof.
  intros Hnone Hsale. unfold soldOnServer, Collection.insert.
  rewrite filter_app, (filter_none _ _ Hnone). cbn [filter app].
  rewrite Hsale. reflexivity.
Qed.

(** A delivery for a sale that already has a license answers success
    and writes nothing, on the webhook router. *)
Lemma gumroad_replay (env : ProcessEnv) (now : Z) (uuid : string) (oid : N)
    (mailOk : bool) (body : WebhookRoutes.GumroadBody)
    (db : list LicenseModel.License) (l : LicenseModel.License) :
  same_field (WebhookRoutes.seller_id body) (env_GUMROAD_SELLER_ID env) = true ->
  Collection.findOne
    (fun x => String.eqb (LicenseModel.saleId x) (WebhookRoutes.sale_id body)) db
  = Some l ->
  WebhookRoutes.gumroad env now uuid oid mailOk body db
  = (WebhookRoutes.AlreadyExists, db).
Proof.
  intros Hseller Hfound. unfold WebhookRoutes.gumroad.
  rewrite Hseller, Hfound. reflexivity.
Qed.

(** A Gumroad sale delivered twice creates one license.  On the
    webhook router: when the first delivery passes the seller check,
    finds no license for the sale and stores one, the second delivery,
    whenever it comes and whatever the mail transport did, answers
    success with [License already exists] and writes nothing, so the
    collection holds exactly one license for the sale.  On the enhanced
    server the same holds and the second answer carries the license the
    first delivery created. *)
Theorem gumroad_delivery_is_idempotent (env : ProcessEnv) :
  (forall now uuid oid mailOk now' uuid' oid' mailOk' body db issued,
     let license :=
       LicenseModel.newLicense oid (issued_licenseKey issued)
         (issued_licenseData issued) LicenseModel.gumroad
         (WebhookRoutes.sale_id body) (WebhookRoutes.email_of body)
         (Some (Date_nextYear now)) now in
     let first := WebhookRoutes.gumroad env now uuid oid mailOk body db in
     let second :=
       WebhookRoutes.gumroad env now' uuid' oid' mailOk' body (snd first) in
     same_field (WebhookRoutes.seller_id body) (env_GUMROAD_SELLER_ID env)
     = true ->
     Collection.findOne
       (fun x => String.eqb (LicenseModel.saleId x) (WebhookRoutes.sale_id body))
       db = None ->
     LicenseGenerator.generateLicenseKey env (WebhookRoutes.email_of body)
       (WebhookRoutes.product_id body)
       (Some (Date_toISOString (Date_nextYear now))) uuid now = Some issued ->
     LicenseModel.acceptable license db = true ->
     snd first = Collection.insert license db
     /\ fst first
        = (if mailOk then WebhookRoutes.Success else WebhookRoutes.ServerError)
     /\ second = (WebhookRoutes.AlreadyExists, snd first)
     /\ soldBy (WebhookRoutes.sale_id body) (snd second) = [license])
  /\ (forall now rnd oid now' rnd' oid' body db,
        let meta :=
          JObj [("gumroad_sale_id", JStr (Server.sale_id body));
                ("gumroad_product_id", JStr (Server.product_id body))] in
        let license :=
          {| Server._id := oid;
             Server.licenseKey :=
               issued_licenseKey
                 (LicenseUtils.generateLicenseKey env
                    [("email", JStr (Server.email_of body));
                     ("name", JStr (Server.full_name body));
                     ("metadata", meta)] now rnd);
             Server.email := Server.email_of body;
             Server.name := Some (Server.full_name body);
             Server.createdAt := now; Server.expiresAt := None;
             Server.isActive := true; Server.source := Server.gumroad;
             Server.activations := []; Server.metadata := Some meta |} in
        let first := Server.gumroadWebhook env now rnd oid body db in
        let second := Server.gumroadWebhook env now' rnd' oid' body (snd first) in
        negb (String.eqb (Server.CONFIG_GUMROAD_SELLER_ID env) "")
        && negb (same_field (Server.seller_id body)
                   (Some (Server.CONFIG_GUMROAD_SELLER_ID env))) = false ->
        Server.resource_name body = Some "sale" ->
        Collection.findOne (Server.ofSale (Server.sale_id body)) db = None ->
        Server.acceptable license db = true ->
        first = (Server.Created license, Collection.insert license db)
        /\ second = (Server.Exists license, snd first)
        /\ soldOnServer (Server.sale_id body) (snd second) = [license]).
Proof.
  split.
  - intros now uuid oid mailOk now' uuid' oid' mailOk' body db issued
      license first second Hseller Hnone Hissued Hok.
    assert (Hfirst : first
              = (if mailOk then WebhookRoutes.Success
                 else WebhookRoutes.ServerError,
                 Collection.insert license db)).
    { unfold first, WebhookRoutes.gumroad.
      rewrite Hseller, Hnone, Hissued. cbn [negb]. fold license.
      rewrite Hok. destruct mailOk; reflexivity. }
    assert (Hfound : Collection.findOne
              (fun x => String.eqb (LicenseModel.saleId x)
                          (WebhookRoutes.sale_id body))
              (Collection.insert license db) = Some license).
    { apply findOne_insert; [exact Hnone|].
      cbn [license LicenseModel.newLicense LicenseModel.saleId].
      apply String.eqb_refl. }
    assert (Hsecond : second
              = (WebhookRoutes.AlreadyExists, Collection.insert license db)).
    { unfold second. rewrite Hfirst. cbn [snd].
      exact (gumroad_replay _ _ _ _ _ _ _ _ Hseller Hfound). }
    rewrite Hsecond, Hfirst. cbn [fst snd].
    repeat split. apply soldBy_insert; [exact Hnone|reflexivity].
  - intros now rnd oid now' rnd' oid' body db meta license first second
      Hseller Hsale Hnone Hok.
    assert (Hmine : Server.ofSale (Server.sale_id body) license = true).
    { cbn. apply String.eqb_refl. }
    assert (Hfirst : first
              = (Server.Created license, Collection.insert license db)).
    { unfold first, Server.gumroadWebhook.
      rewrite Hseller, Hsale, Hnone. cbn [same_field negb].
      rewrite String.eqb_refl. cbn [negb]. fold meta. fold license.
      rewrite Hok. reflexivity. }
    assert (Hsecond : second
              = (Server.Exists license, Collection.insert license db)).
    { unfold second. rewrite Hfirst. cbn [snd].
      unfold Server.gumroadWebhook.
      rewrite Hseller, Hsale. cbn [same_field negb].
      rewrite String.eqb_refl. cbn [negb].
      rewrite (findOne_insert _ _ _ Hnone Hmine). reflexivity. }
    rewrite Hsecond, Hfirst. cbn [fst snd].
    repeat split. apply soldOnServer_insert; assumption.
Qed.

(** The Stripe checkout helper looks nothing up: each delivery of a
    paid session that passes validation stores a license of its own, so
    two deliveries of one session leave two licenses for the sale. *)
Theorem checkout_replay_stores_twice (env : ProcessEnv) (now now' : Z)
    (uuid uuid' : string) (oid oid' : N)
    (session : WebhookRoutes.CheckoutSession)
    (db : list LicenseModel.License) (issued issued' : Issued) :
  let product := or_default (WebhookRoutes.session_product session) "unknown" in
  let license :=
    LicenseModel.newLicense oid (issued_licenseKey issued)
      (issued_licenseData issued) LicenseModel.stripe
      (WebhookRoutes.session_id session) (WebhookRoutes.session_email session)
      (Some (Date_nextYear now)) now in
  let license' :=
    LicenseModel.newLicense oid' (issued_licenseKey issued')
      (issued_licenseData issued') LicenseModel.stripe
      (WebhookRoutes.session_id session) (WebhookRoutes.session_email session)
      (Some (Date_nextYear now')) now' in
  WebhookRoutes.session_mode session = "payment" ->
  LicenseGenerator.generateLicenseKey env (WebhookRoutes.session_email session)
    product (Some (Date_toISOString (Date_nextYear now))) uuid now
  = Some issued ->
  LicenseModel.acceptable license db = true ->
  LicenseGenerator.generateLicenseKey env (WebhookRoutes.session_email session)
    product (Some (Date_toISOString (Date_nextYear now'))) uuid' now'
  = Some issued' ->
  LicenseModel.acceptable license' (Collection.insert license db) = true ->
  thenCheckout env now' uuid' oid' session
    (WebhookRoutes.handleCheckoutCompleted env now uuid oid session db)
  = Some (db ++ [license; license'])%list
  /\ soldBy (WebhookRoutes.session_id session) (db ++ [license; license'])%list
     = (soldBy (WebhookRoutes.session_id session) db ++ [license; license'])%list.
Proof.
  intros product license license' Hmode Hissued Hok Hissued' Hok'.
  split.
  - unfold WebhookRoutes.handleCheckoutCompleted at 1.
    rewrite Hmode. cbn [String.eqb Ascii.eqb Bool.eqb]. fold product.
    rewrite Hissued. fold license. rewrite Hok.
    cbn [thenCheckout]. unfold WebhookRoutes.handleCheckoutCompleted.
    rewrite Hmode. cbn [String.eqb Ascii.eqb Bool.eqb]. fold product.
    rewrite Hissued'. fold license'. rewrite Hok'.
    unfold Collection.insert. rewrite <- app_assoc. reflexivity.
  - unfold soldBy. rewrite filter_app. f_equal.
    cbn [filter license license' LicenseModel.newLicense LicenseModel.saleId].
    rewrite String.eqb_refl. reflexivity.
Qed.

End IssuanceClaims.

(** The sale [abc123] delivered twice, a minute apart, to an empty
    collection: on the webhook router (the mail transport failing the
    second time) and on the enhanced server. *)
Lemma gumroad_twice_example :
  (let first := WebhookRoutes.gumroad env0 t0 "uuid-1" 1 true sale0 [] in
   let second :=
     WebhookRoutes.gumroad env0 (t0 + 60000) "uuid-2" 2 false sale0 (snd first) in
   fst first = WebhookRoutes.Success
   /\ second = (WebhookRoutes.AlreadyExists, snd first)
   /\ List.length (soldBy (WebhookRoutes.sale_id sale0) (snd second)) = 1%nat)
  /\ (let first := Server.gumroadWebhook env0 t0 rnd0 1 saleS [] in
      let second :=
        Server.gumroadWebhook env0 (t0 + 60000) "76543210" 2 saleS (snd first) in
      (exists l, fst first = Server.Created l /\ fst second = Server.Exists l)
      /\ snd second = snd first
      /\ List.length (soldOnServer (Server.sale_id saleS) (snd second)) = 1%nat).
Proof.
  destruct (gumroad_delivery_is_idempotent (node := Node) env0) as [HR HS].
  split.
  - destruct (HR t0 "uuid-1" 1%N true (t0 + 60000) "uuid-2" 2%N false sale0 []
                issuedG) as (H1 & H2 & H3 & H4);
      [vm_compute; reflexivity ..|].
    cbv zeta. split; [rewrite H2; reflexivity|].
    split; [exact H3|]. rewrite H4. reflexivity.
  - destruct (HS t0 rnd0 1%N (t0 + 60000) "76543210" 2%N saleS [])
      as (H1 & H2 & H3); [vm_compute; reflexivity ..|].
    cbv zeta. rewrite H3, H2, H1. cbn [fst snd].
    split; [eexists; split; reflexivity|]. split; reflexivity.
Defined.

(** ** The admin switch *)

Section AdminClaims.

Lemma Forall2_chain {A : Type} (R : A -> A -> Prop) :
  (forall x y z, R x y -> R y z -> R x z) ->
  forall a b c : list A, Forall2 R a b -> Forall2 R b c -> Forall2 R a c.
Proof.
  intros Htrans a b c Hab. revert c.
  induction Hab as [|x y a b Hxy Hab IH]; intros c Hbc;
    inversion Hbc; subst; constructor; eauto.
Qed.

Lemma serverFrame_refl (l : Server.License) : serverFrame l l.
Proof. unfold serverFrame. repeat split. Qed.

Lemma serverFrame_setActive (b : bool) (l : Server.License) :
  serverFrame l (Server.setActive b l).
Proof. unfold serverFrame. repeat split. Qed.

Lemma serverFrame_trans (x y z : Server.License) :
  serverFrame x y -> serverFrame y z -> serverFrame x z.
Proof.
  unfold serverFrame. intros Hxy Hyz.
  decompose [and] Hxy. decompose [and] Hyz. repeat split; congruence.
Qed.

Lemma adminFrame_refl (l : AdminRoutes.License) : adminFrame l l.
Proof. unfold adminFrame. repeat split. Qed.

Lemma adminFrame_setActive (b : bool) (l : AdminRoutes.License) :
  adminFrame l (AdminRoutes.setActive b l).
Proof. unfold adminFrame. repeat split. Qed.

Lemma adminFrame_trans (x y z : AdminRoutes.License) :
  adminFrame x y -> adminFrame y z -> adminFrame x z.
Proof.
  unfold adminFrame. intros Hxy Hyz.
  decompose [and] Hxy. decompose [and] Hyz. repeat split; congruence.
Qed.

Lemma Forall2_same {A : Type} (R : A -> A -> Prop) :
  (forall x, R x x) -> forall l : list A, Forall2 R l l.
Proof. intros Hrefl l. induction l; constructor; auto. Qed.

Lemma server_switch_frame (b : bool) (env : ProcessEnv)
    (secret : option string) (id : N) (db : list Server.License) :
  Forall2 serverFrame db (snd (Server.adminSetActive b env secret id db)).
Proof.
  unfold Server.adminSetActive.
  destruct (negb (Server.adminAuth env secret)); cbn [snd];
    [apply Forall2_same, serverFrame_refl|].
  destruct (Collection.findById Server._id id db); cbn [snd];
    [|apply Forall2_same, serverFrame_refl].
  apply updateOne_pointwise;
    auto using serverFrame_refl, serverFrame_setActive.
Qed.

Lemma quotaFrame_refl (l : LicenseModel.License) : quotaFrame l l.
Proof. unfold quotaFrame. repeat split. Qed.

Lemma quotaFrame_setActive (b : bool) (l : LicenseModel.License) :
  quotaFrame l (LicenseModel.setActive b l).
Proof. unfold quotaFrame. repeat split. Qed.

Lemma quotaFrame_trans (x y z : LicenseModel.License) :
  quotaFrame x y -> quotaFrame y z -> quotaFrame x z.
Proof.
  unfold quotaFrame. intros Hxy Hyz.
  decompose [and] Hxy. decompose [and] Hyz. repeat split; congruence.
Qed.

Section AnyModel.
Context {Doc : Type} (id_of : Doc -> N) (assignActive : bool -> Doc -> Doc)
  (frame : Doc -> Doc -> Prop).
Hypothesis frame_refl : forall d, frame d d.
Hypothesis frame_assign : forall b d, frame d (assignActive b d).
Hypothesis id_assign : forall b d, id_of (assignActive b d) = id_of d.

(** [save] after [findById] writes to the very document that was read. *)
Lemma admin_save_frame (b : bool) (id : N) (db : list Doc) (license : Doc) :
  Collection.findById id_of id db = Some license ->
  Forall2 frame db (Collection.save id_of (assignActive b license) db).
Proof.
  unfold Collection.findById, Collection.save. rewrite id_assign.
  induction db as [|x rest IH]; cbn [find Collection.updateOne];
    [discriminate|].
  destruct (N.eqb (id_of x) id) eqn:Hx; intro Hfind.
  - injection Hfind as ->. rewrite N.eqb_refl.
    constructor; [apply frame_assign|].
    apply Forall2_same, frame_refl.
  - pose proof (find_some _ _ Hfind) as [_ Hid].
    apply N.eqb_eq in Hid. specialize (IH Hfind). rewrite Hid in *. rewrite Hx.
    constructor; [apply frame_refl|]. exact IH.
Qed.

Lemma admin_switch_frame (b : bool) (env : ProcessEnv)
    (secret : option string) (id : N) (db : list Doc) :
  Forall2 frame db
    (snd (AdminRoutes.setLicenseActive id_of assignActive b env secret id db)).
Proof.
  unfold AdminRoutes.setLicenseActive.
  destruct (negb (AdminRoutes.adminAuth env secret)); cbn [snd];
    [apply Forall2_same, frame_refl|].
  destruct (Collection.findById id_of id db) as [license|] eqn:Hfind;
    cbn [snd]; [|apply Forall2_same, frame_refl].
  apply (admin_save_frame b id). exact Hfind.
Qed.

End AnyModel.

(** C10.  The admin activate and deactivate operations leave every
    field of every stored license but [isActive] as it was: in the
    enhanced server (key, address, name, dates, source, metadata and the
    activation log) and in the admin router, over its own license model
    (key, address, name, dates, metadata, source, notes) as over the
    quota model (among others the bound machine ids, the activation
    counter and the limit).  So does a deactivation followed by an
    activation, which therefore resets nothing the quota depends on. *)
Theorem admin_switch_touches_only_isActive (env : ProcessEnv)
    (secret secret' : option string) (id id' : N) :
  (forall b db,
     Forall2 serverFrame db (snd (Server.adminSetActive b env secret id db)))
  /\ (forall db,
        Forall2 serverFrame db
          (snd (Server.adminActivate env secret' id'
                  (snd (Server.adminDeactivate env secret id db)))))
  /\ (forall b db,
        Forall2 adminFrame db
          (snd (AdminRoutes.setLicenseActive AdminRoutes._id
                  AdminRoutes.setActive b env secret id db)))
  /\ (forall db,
        Forall2 adminFrame db
          (snd (AdminRoutes.activate AdminRoutes._id AdminRoutes.setActive
                  env secret' id'
                  (snd (AdminRoutes.deactivate AdminRoutes._id
                          AdminRoutes.setActive env secret id db)))))
  /\ (forall b db,
        Forall2 quotaFrame db
          (snd (AdminRoutes.setLicenseActive LicenseModel._id
                  LicenseModel.setActive b env secret id db)))
  /\ (forall db,
        Forall2 quotaFrame db
          (snd (AdminRoutes.activate LicenseModel._id LicenseModel.setActive
                  env secret' id'
                  (snd (AdminRoutes.deactivate LicenseModel._id
                          LicenseModel.setActive env secret id db))))).
Proof.
  assert (Hadmin := admin_switch_frame AdminRoutes._id AdminRoutes.setActive
                      adminFrame adminFrame_refl adminFrame_setActive
                      (fun _ _ => eq_refl)).
  assert (Hquota := admin_switch_frame LicenseModel._id LicenseModel.setActive
                      quotaFrame quotaFrame_refl quotaFrame_setActive
                      (fun _ _ => eq_refl)).
  repeat apply conj.
  - intros b db. apply server_switch_frame.
  - intro db. unfold Server.adminActivate, Server.adminDeactivate.
    eapply (Forall2_chain serverFrame serverFrame_trans);
      apply server_switch_frame.
  - intros b db. apply Hadmin.
  - intro db. unfold AdminRoutes.activate, AdminRoutes.deactivate.
    eapply (Forall2_chain adminFrame adminFrame_trans); apply Hadmin.
  - intros b db. apply Hquota.
  - intro db. unfold AdminRoutes.activate, AdminRoutes.deactivate.
    eapply (Forall2_chain quotaFrame quotaFrame_trans); apply Hquota.
Qed.

End AdminClaims.

(** ** The quota invariant, void deactivations apart *)

Section LedgerInvariant.
Context {node : NodeRuntime}.
Import LicenseModel.

Lemma save_keeps (P : License -> Prop) (d : License) (db : list License) :
  Forall P db -> P d -> Forall P (Collection.save _id d db).
Proof.
  unfold Collection.save. intros Hdb Hd.
  induction Hdb as [|x rest Hx Hrest IH]; cbn [Collection.updateOne];
    [constructor|].
  destruct (N.eqb (_id x) (_id d)); constructor; auto.
Qed.

Lemma found_keeps (P : License -> Prop) (p : License -> bool)
    (db : list License) (l : License) :
  Forall P db -> Collection.findOne p db = Some l -> P l.
Proof.
  unfold Collection.findOne. intros Hdb Hfind.
  apply find_some in Hfind as [Hin _].
  rewrite Forall_forall in Hdb. auto.
Qed.

Lemma unbound_not_in (m : string) (ids : list string) :
  existsb (String.eqb m) ids = false -> ~ In m ids.
Proof.
  intros H Hin.
  assert (E : existsb (String.eqb m) ids = true).
  { apply existsb_exists. exists m. split; [exact Hin|apply String.eqb_refl]. }
  congruence.
Qed.

Lemma bind_keeps (m : string) (l : License) :
  ledgerInv l ->
  existsb (String.eqb m) (machineIds l) = false ->
  activations l < maxActivations l ->
  ledgerInv (bind m l).
Proof.
  intros (Hnodup & Hcount & Hmax) Hunbound Hroom.
  unfold ledgerInv. cbn [bind machineIds activations maxActivations].
  split; [|split].
  - apply NoDup_app; [exact Hnodup|repeat constructor; intros []|].
    intros x Hx [<-|[]]. exact (unbound_not_in _ _ Hunbound Hx).
  - rewrite length_app. cbn [List.length]. lia.
  - lia.
Qed.

(** Removing a bound id from a list without repetition shortens it by
    one. *)
Lemma filter_bound (m : string) (ids : list string) :
  NoDup ids -> In m ids ->
  S (List.length
       (filter (fun id => negb (same_field (Some id) (Some m))) ids))
  = List.length ids.
Proof.
  induction 1 as [|x rest Hx Hrest IH]; cbn [In filter same_field];
    [intros []|].
  intros [->|Hin].
  - rewrite String.eqb_refl. cbn [negb List.length]. f_equal.
    clear IH Hrest. induction rest as [|y rest IH]; [reflexivity|].
    cbn [filter same_field]. destruct (String.eqb_spec y m) as [->|_].
    + exfalso. apply Hx. now left.
    + cbn [negb List.length]. f_equal. apply IH.
      intro H. apply Hx. now right.
  - destruct (String.eqb_spec x m) as [->|_]; [contradiction|].
    cbn [negb List.length]. f_equal. exact (IH Hin).
Qed.

Lemma unbind_keeps (m : string) (l : License) :
  ledgerInv l ->
  existsb (String.eqb m) (machineIds l) = true ->
  ledgerInv (unbind (Some m) l).
Proof.
  intros (Hnodup & Hcount & Hmax) Hbound.
  apply existsb_exists in Hbound as (x & Hin & Hx).
  apply String.eqb_eq in Hx. subst x.
  pose proof (filter_bound m (machineIds l) Hnodup Hin) as Hlen.
  unfold ledgerInv. cbn [unbind machineIds activations maxActivations].
  split; [|split].
  - apply NoDup_filter. exact Hnodup.
  - lia.
  - lia.
Qed.

Lemma verify_keeps (env : ProcessEnv) (now : Z)
    (req : LicenseRoutes.VerifyRequest) (db : list License) :
  Forall ledgerInv db ->
  Forall ledgerInv (snd (LicenseRoutes.verify env now req db)).
Proof.
  intro Hdb. unfold LicenseRoutes.verify.
  destruct (LicenseGenerator.verifyLicenseKey env now _); [|exact Hdb].
  destruct (Collection.findOne _ db) as [license|] eqn:Hfind; [|exact Hdb].
  destruct (negb (isActive license)); [exact Hdb|].
  destruct (lapsed now license); [exact Hdb|].
  destruct (LicenseRoutes.body_machineId req) as [m|]; [|exact Hdb].
  destruct (truthy_field (Some m)); cbn [andb]; [|exact Hdb].
  destruct (existsb (String.eqb m) (machineIds license)) eqn:Hbound;
    cbn [negb]; [exact Hdb|].
  destruct (Z.geb_spec (activations license) (maxActivations license));
    [exact Hdb|].
  cbn [snd]. apply save_keeps; [exact Hdb|].
  apply bind_keeps; [exact (found_keeps _ _ _ _ Hdb Hfind)|exact Hbound|lia].
Qed.

(** Activations, and deactivations of machines that are bound when they
    are asked for, keep the lockstep: in every license reached the
    counter is the number of bound machine ids, which therefore never
    exceeds [maxActivations]. *)
Theorem quota_holds_without_void_deactivations (env : ProcessEnv) (now : Z)
    (key : string) (ops : list LedgerOp) (db : list License) :
  Forall ledgerInv db ->
  ledgerSound env now key ops db = true ->
  Forall ledgerInv (ledgerRun env now key ops db)
  /\ Forall (fun l => Z.of_nat (List.length (machineIds l)) <= maxActivations l)
       (ledgerRun env now key ops db).
Proof.
  intros Hdb Hsound.
  assert (Hinv : Forall ledgerInv (ledgerRun env now key ops db)).
  { unfold ledgerRun. revert db Hdb Hsound.
    induction ops as [|op rest IH]; intros db Hdb Hsound; cbn [fold_left];
      [exact Hdb|].
    cbn [ledgerSound] in Hsound. apply andb_prop in Hsound as [Hop Hrest].
    apply IH; [|exact Hrest].
    destruct op as [m|m]; cbn [ledgerStep].
    - apply verify_keeps. exact Hdb.
    - unfold LicenseRoutes.deactivate.
      destruct (Collection.findOne _ db) as [license|] eqn:Hfind;
        [|exact Hdb].
      cbn [snd]. apply save_keeps; [exact Hdb|].
      apply unbind_keeps; [exact (found_keeps _ _ _ _ Hdb Hfind)|exact Hop]. }
  split; [exact Hinv|].
  apply Forall_impl with (2 := Hinv).
  intros l (_ & Hcount & Hmax). lia.
Qed.

End LedgerInvariant.

(** Three machines, one of them released and a fourth bound, on the
    license of [db0]: three ids bound under the limit of three. *)
Lemma quota_holds_example :
  Forall ledgerInv
    (ledgerRun env0 t0 key0
       [Activate "m1"; Activate "m2"; Activate "m3";
        Deactivate "m2"; Activate "m4"] db0)
  /\ Forall (fun l => Z.of_nat (List.length (LicenseModel.machineIds l))
                      <= LicenseModel.maxActivations l)
       (ledgerRun env0 t0 key0
          [Activate "m1"; Activate "m2"; Activate "m3";
           Deactivate "m2"; Activate "m4"] db0).
Proof.
  apply (quota_holds_without_void_deactivations (node := Node)).
  - vm_compute. repeat constructor. discriminate.
  - vm_compute. reflexivity.
Defined.

(** C3 at a failing input.  The paid checkout session [cs_123]
    delivered twice, a minute apart, to an empty collection: the helper
    of the Stripe webhook stores two licenses for the one sale, where
    the Gumroad handlers store one. *)
Lemma checkout_twice_example :
  option_map (map (fun l => (LicenseModel.platform l, LicenseModel.saleId l)))
    (thenCheckout env0 (t0 + 60000) "uuid-2" 2 session0
       (WebhookRoutes.handleCheckoutCompleted env0 t0 "uuid-1" 1 session0 []))
  = Some [(LicenseModel.stripe, "cs_123"); (LicenseModel.stripe, "cs_123")].
Proof.
  pose (second :=
    match LicenseGenerator.generateLicenseKey (node := Node) env0 "a@b.c"
            "prod-1" (Some (Date_toISOString (Date_nextYear (t0 + 60000))))
            "uuid-2" (t0 + 60000) with
    | Some issued => issued
    | None => issuedG
    end).
  destruct (checkout_replay_stores_twice (node := Node) env0 t0 (t0 + 60000)
              "uuid-1" "uuid-2" 1%N 2%N session0 [] issuedG second)
    as [Hrun _]; [vm_compute; reflexivity ..|].
  rewrite Hrun. reflexivity.
Qed.

(** * Further properties *)

(** ** More on collections *)

Section StoreFacts.
Context {Doc : Type} (id_of : Doc -> N).

Lemma save_ids (d : Doc) (db : list Doc) :
  map id_of (Collection.save id_of d db) = map id_of db.
Proof.
  unfold Collection.save.
  induction db as [|x rest IH]; cbn [Collection.updateOne map]; [reflexivity|].
  destruct (N.eqb_spec (id_of x) (id_of d)) as [E|_]; cbn [map].
  - rewrite E. reflexivity.
  - rewrite IH. reflexivity.
Qed.

Lemma updateOne_ids (id : N) (f : Doc -> Doc) (db : list Doc) :
  (forall d, id_of (f d) = id_of d) ->
  map id_of (Collection.updateOne id_of id f db) = map id_of db.
Proof.
  intro Hf.
  induction db as [|x rest IH]; cbn [Collection.updateOne map]; [reflexivity|].
  destruct (N.eqb (id_of x) id); cbn [map].
  - rewrite Hf. reflexivity.
  - rewrite IH. reflexivity.
Qed.

(** With ids that are unique, [save] on a document that a query found
    writes to that very document. *)
Lemma save_found_pointwise (R : Doc -> Doc -> Prop) (p : Doc -> bool)
    (db : list Doc) (l l' : Doc) :
  NoDup (map id_of db) ->
  Collection.findOne p db = Some l ->
  id_of l' = id_of l ->
  (forall d, R d d) ->
  R l l' ->
  Forall2 R db (Collection.save id_of l' db).
Proof.
  unfold Collection.findOne, Collection.save.
  intros Hids Hfind Hid Hrefl Hl.
  assert (Hsame : forall xs : list Doc, Forall2 R xs xs).
  { induction xs; constructor; auto. }
  induction db as [|x rest IH]; cbn [find Collection.updateOne map] in *;
    [discriminate|].
  inversion Hids as [|? ? Hx Hrest]; subst.
  destruct (p x) eqn:Hp.
  - injection Hfind as ->. rewrite Hid, N.eqb_refl. constructor; auto.
  - destruct (N.eqb_spec (id_of x) (id_of l')) as [E|_].
    + exfalso. apply Hx. rewrite E, Hid.
      apply in_map. apply find_some in Hfind. apply Hfind.
    + constructor; auto.
Qed.


(** A query that reads nothing a relation lets change finds, in a
    collection related document by document, the image of what it
    found. *)
Lemma findOne_related (R : Doc -> Doc -> Prop) (p : Doc -> bool)
    (db later : list Doc) (d : Doc) :
  (forall a b, R a b -> p b = p a) ->
  Forall2 R db later ->
  Collection.findOne p db = Some d ->
  exists d', Collection.findOne p later = Some d' /\ R d d'.
Proof.
  unfold Collection.findOne. intros Hp Hrel.
  induction Hrel as [|a b db later Hab Hrel IH]; cbn [find]; [discriminate|].
  rewrite (Hp a b Hab).
  destruct (p a); [|exact IH].
  intro H. injection H as <-. exists b. split; [reflexivity|exact Hab].
Qed.

End StoreFacts.

(** ** More on the activation ledger *)

Section LedgerMore.
Context {node : NodeRuntime}.
Import LicenseModel LicenseRoutes.

Lemma bound_after_bind (m : string) (ids : list string) :
  existsb (String.eqb m) (ids ++ [m]) = true.
Proof.
  rewrite existsb_app. cbn [existsb]. rewrite String.eqb_refl.
  rewrite orb_true_r. reflexivity.
Qed.

(** X3.  A machine that [/verify] accepted is not counted again: the
    same request repeated at the same clock reading gets the same
    answer and writes nothing, and repeated at any other time it still
    writes nothing. *)
Theorem accepted_machine_is_not_counted_again (env : ProcessEnv) (now now' : Z)
    (req : VerifyRequest) (db : list License) (e : option Z) (mail : string) :
  fst (verify env now req db) = Accepted e mail ->
  verify env now req (snd (verify env now req db))
  = (Accepted e mail, snd (verify env now req db))
  /\ snd (verify env now' req (snd (verify env now req db)))
     = snd (verify env now req db).
Proof.
  intro Hacc. pose proof Hacc as Hrun. unfold verify in Hrun.
  destruct (LicenseGenerator.verifyLicenseKey env now (body_licenseKey req))
    as [data|reason] eqn:Hkey; [|discriminate].
  destruct (Collection.findOne _ db) as [license|] eqn:Hfind; [|discriminate].
  destruct (negb (isActive license)) eqn:Hactive; [discriminate|].
  destruct (lapsed now license) eqn:Hlapsed; [discriminate|].
  assert (Hstill : forall t,
            truthy_field (body_machineId req) = false
            \/ (exists m, body_machineId req = Some m
                          /\ existsb (String.eqb m) (machineIds license) = true) ->
            snd (verify env t req db) = db).
  { intros t Hcase. unfold verify.
    destruct (LicenseGenerator.verifyLicenseKey env t _); [|reflexivity].
    rewrite Hfind, Hactive.
    destruct (lapsed t license); [reflexivity|].
    destruct Hcase as [Hnone|(m & Hm & Hbound)].
    - destruct (body_machineId req) as [m|]; [|reflexivity].
      rewrite Hnone. reflexivity.
    - rewrite Hm, Hbound. rewrite andb_false_r. reflexivity. }
  assert (Hsame : truthy_field (body_machineId req) = false
            \/ (exists m, body_machineId req = Some m
                          /\ existsb (String.eqb m) (machineIds license) = true) ->
            verify env now req db
            = (Accepted (expiresAt license) (email license), db)).
  { intros Hcase. unfold verify. rewrite Hkey, Hfind, Hactive, Hlapsed.
    destruct Hcase as [Hnone|(m & Hm & Hbound)].
    - destruct (body_machineId req) as [m|]; [|reflexivity].
      rewrite Hnone. reflexivity.
    - rewrite Hm, Hbound. rewrite andb_false_r. reflexivity. }
  assert (Hidle : truthy_field (body_machineId req) = false
            \/ (exists m, body_machineId req = Some m
                          /\ existsb (String.eqb m) (machineIds license) = true) ->
            verify env now req (snd (verify env now req db))
            = (Accepted e mail, snd (verify env now req db))
            /\ snd (verify env now' req (snd (verify env now req db)))
               = snd (verify env now req db)).
  { intro Hcase. rewrite (Hsame Hcase) in Hacc |- *. cbn [fst snd] in *.
    injection Hacc as <- <-. split; [apply Hsame|apply Hstill]; exact Hcase. }
  destruct (body_machineId req) as [m|] eqn:Hm;
    [|apply Hidle; left; reflexivity].
  destruct (truthy_field (Some m)) eqn:Htruthy; cbn [andb] in Hrun;
    [|apply Hidle; left; reflexivity].
  destruct (existsb (String.eqb m) (machineIds license)) eqn:Hbound;
    cbn [negb] in Hrun.
  { apply Hidle. right. exists m. split; [reflexivity|exact Hbound]. }
  destruct (activations license >=? maxActivations license) eqn:Hroom;
    [discriminate|].
  cbn [fst] in Hrun. injection Hrun as <- <-. clear Hidle Hsame Hstill.
  assert (Hfirst : verify env now req db
            = (Accepted (expiresAt license) (email license),
               Collection.save _id (bind m license) db)).
  { unfold verify.
    rewrite Hkey, Hfind, Hactive, Hlapsed, Hm, Htruthy, Hbound, Hroom.
    reflexivity. }
  assert (Hfound : Collection.findOne
            (fun l => String.eqb (licenseKey l) (body_licenseKey req))
            (Collection.save _id (bind m license) db) = Some (bind m license)).
  { apply (findOne_save _id _ db license); [exact Hfind|reflexivity|].
    cbn [bind licenseKey].
    unfold Collection.findOne in Hfind. apply find_some in Hfind. apply Hfind. }
  rewrite Hfirst. cbn [snd]. split.
  - unfold verify. rewrite Hkey, Hfound, Hm, Htruthy.
    change (lapsed now (bind m license)) with (lapsed now license).
    cbn [bind isActive machineIds expiresAt email].
    rewrite Hactive, Hlapsed, bound_after_bind. reflexivity.
  - unfold verify.
    destruct (LicenseGenerator.verifyLicenseKey env now' _); [|reflexivity].
    rewrite Hfound, Hm, Htruthy.
    change (lapsed now' (bind m license)) with (lapsed now' license).
    cbn [bind isActive machineIds expiresAt email].
    rewrite Hactive. destruct (lapsed now' license); [reflexivity|].
    rewrite bound_after_bind. reflexivity.
Qed.

Lemma unbound_after_filter (m m' : string) (ids : list string) :
  existsb (String.eqb m') ids = false ->
  existsb (String.eqb m')
    (filter (fun id => negb (same_field (Some id) (Some m))) ids) = false.
Proof.
  induction ids as [|x rest IH]; cbn [existsb filter]; [reflexivity|].
  intro H. apply orb_false_iff in H as [Hx Hrest].
  destruct (negb (same_field (Some x) (Some m))); cbn [existsb].
  - rewrite Hx, (IH Hrest). reflexivity.
  - exact (IH Hrest).
Qed.

(** X4.  Deactivating frees a slot.  On a license that passes the
    checks, whose counter is within a positive limit (it may have
    reached it): after [/deactivate] of a machine, a [/verify] for a
    machine that was not bound is accepted and binds it, and the counter
    is again within the limit. *)
Theorem deactivation_frees_a_slot (env : ProcessEnv) (now : Z)
    (req : VerifyRequest) (db : list License) (license : License)
    (m m' : string) (data : json) :
  let key := body_licenseKey req in
  let byKey := fun l => String.eqb (licenseKey l) key in
  let released := snd (deactivate key (Some m) db) in
  LicenseGenerator.verifyLicenseKey env now key = Valid data ->
  Collection.findOne byKey db = Some license ->
  isActive license = true ->
  lapsed now license = false ->
  0 < maxActivations license ->
  activations license <= maxActivations license ->
  body_machineId req = Some m' ->
  m' <> "" ->
  existsb (String.eqb m') (machineIds license) = false ->
  fst (verify env now req released)
  = Accepted (expiresAt license) (email license)
  /\ Collection.findOne byKey (snd (verify env now req released))
     = Some (bind m' (unbind (Some m) license))
  /\ activations (bind m' (unbind (Some m) license)) <= maxActivations license.
Proof.
  intros key byKey released Hkey Hfind Hactive Hlapsed Hpos Hmax Hm' Hne Hnew.
  assert (Hp : byKey license = true).
  { unfold Collection.findOne in Hfind. apply find_some in Hfind. apply Hfind. }
  assert (Hrel : released = Collection.save _id (unbind (Some m) license) db).
  { unfold released, deactivate. fold byKey. rewrite Hfind. reflexivity. }
  assert (Hfound : Collection.findOne byKey released
                   = Some (unbind (Some m) license)).
  { rewrite Hrel. apply (findOne_save _id byKey db license);
      [exact Hfind|reflexivity|exact Hp]. }
  destruct (router_activation_step env now req released
              (unbind (Some m) license) m' data) as (Hbind & _ & _);
    try assumption.
  destruct Hbind as (Hrun & Hthen & _).
  - cbn [unbind machineIds]. apply unbound_after_filter. exact Hnew.
  - cbn [unbind activations maxActivations]. lia.
  - rewrite Hrun. cbn [fst snd]. split; [reflexivity|]. split.
    + exact Hthen.
    + cbn [bind unbind activations]. lia.
Qed.

Lemma verify_counter (env : ProcessEnv) (now : Z) (req : VerifyRequest)
    (db : list License) :
  Forall counterInv db -> Forall counterInv (snd (verify env now req db)).
Proof.
  intro Hdb. unfold verify.
  destruct (LicenseGenerator.verifyLicenseKey env now _); [|exact Hdb].
  destruct (Collection.findOne _ db) as [license|] eqn:Hfind; [|exact Hdb].
  destruct (negb (isActive license)); [exact Hdb|].
  destruct (lapsed now license); [exact Hdb|].
  destruct (body_machineId req) as [m|]; [|exact Hdb].
  destruct (truthy_field (Some m) && _); [|exact Hdb].
  destruct (Z.geb_spec (activations license) (maxActivations license));
    [exact Hdb|].
  cbn [snd]. apply save_keeps; [exact Hdb|].
  pose proof (found_keeps _ _ _ _ Hdb Hfind) as Hl.
  unfold counterInv in *. cbn [bind activations maxActivations]. lia.
Qed.

Lemma deactivate_counter (key : string) (m : option string) (db : list License) :
  Forall counterInv db -> Forall counterInv (snd (deactivate key m db)).
Proof.
  intro Hdb. unfold deactivate.
  destruct (Collection.findOne _ db) as [license|] eqn:Hfind; [|exact Hdb].
  cbn [snd]. apply save_keeps; [exact Hdb|].
  pose proof (found_keeps _ _ _ _ Hdb Hfind) as Hl.
  unfold counterInv in *. cbn [unbind activations maxActivations]. lia.
Qed.

(** X5.  The counter never leaves the range from zero to
    [maxActivations]: [/verify] raises it only below the limit and
    [/deactivate] stops at zero, so the range is kept by each call and
    by every sequence of calls, void deactivations included. *)
Theorem counter_stays_within_the_limit (env : ProcessEnv) (now : Z)
    (db : list License) :
  Forall counterInv db ->
  (forall req, Forall counterInv (snd (verify env now req db)))
  /\ (forall key m, Forall counterInv (snd (deactivate key m db)))
  /\ (forall key ops, Forall counterInv (ledgerRun env now key ops db)).
Proof.
  intro Hdb. split; [|split].
  - intro req. apply verify_counter. exact Hdb.
  - intros key m. apply deactivate_counter. exact Hdb.
  - intros key ops. unfold ledgerRun. revert db Hdb.
    induction ops as [|op rest IH]; intros db Hdb; cbn [fold_left];
      [exact Hdb|].
    apply IH. destruct op as [m|m]; cbn [ledgerStep].
    + apply verify_counter. exact Hdb.
    + apply deactivate_counter. exact Hdb.
Qed.

Lemma bindingsApart_refl (l : License) : bindingsApart l l.
Proof. unfold bindingsApart. repeat split. Qed.

Lemma ledgerFrame_refl (key : string) (l : License) : ledgerFrame key l l.
Proof. left. reflexivity. Qed.

Lemma ledgerFrame_trans (key : string) (x y z : License) :
  ledgerFrame key x y -> ledgerFrame key y z -> ledgerFrame key x z.
Proof.
  intros [->|[Hk Hxy]] [->|[Hk' Hyz]].
  - left. reflexivity.
  - right. split; assumption.
  - right. split; assumption.
  - right. split; [exact Hk|].
    unfold bindingsApart in *.
    decompose [and] Hxy. decompose [and] Hyz. repeat split; congruence.
Qed.

Lemma step_frame (env : ProcessEnv) (now : Z) (key : string) (op : LedgerOp)
    (db : list License) :
  NoDup (map _id db) ->
  Forall2 (ledgerFrame key) db (ledgerStep env now key db op)
  /\ map _id (ledgerStep env now key db op) = map _id db.
Proof.
  intro Hids.
  assert (Hsame : Forall2 (ledgerFrame key) db db)
    by (apply Forall2_same, ledgerFrame_refl).
  destruct op as [m|m]; cbn [ledgerStep].
  - unfold verify. cbn [body_licenseKey body_machineId].
    destruct (LicenseGenerator.verifyLicenseKey env now key); [|split; auto].
    destruct (Collection.findOne _ db) as [license|] eqn:Hfind; [|split; auto].
    destruct (negb (isActive license)); [split; auto|].
    destruct (lapsed now license); [split; auto|].
    destruct (truthy_field (Some m) && _); [|split; auto].
    destruct (activations license >=? maxActivations license); [split; auto|].
    cbn [snd]. split; [|apply save_ids].
    eapply save_found_pointwise with (l := license);
      [exact Hids|exact Hfind|reflexivity|apply ledgerFrame_refl|].
    right. split.
    + unfold Collection.findOne in Hfind. apply find_some in Hfind.
      apply String.eqb_eq. apply Hfind.
    + unfold bindingsApart. repeat split.
  - unfold deactivate.
    destruct (Collection.findOne _ db) as [license|] eqn:Hfind; [|split; auto].
    cbn [snd]. split; [|apply save_ids].
    eapply save_found_pointwise with (l := license);
      [exact Hids|exact Hfind|reflexivity|apply ledgerFrame_refl|].
    right. split.
    + unfold Collection.findOne in Hfind. apply find_some in Hfind.
      apply String.eqb_eq. apply Hfind.
    + unfold bindingsApart. repeat split.
Qed.

(** X6.  With ids that are unique, a sequence of [/verify] and
    [/deactivate] calls for one key leaves every license of another key
    exactly as it was, and changes nothing of the license of that key
    but its bound machine ids and its counter: key, payload, platform,
    sale, address, limit, dates and the active flag stay, and so do the
    ids and the order of the collection. *)
Theorem ledger_touches_only_bindings (env : ProcessEnv) (now : Z)
    (key : string) (ops : list LedgerOp) (db : list License) :
  NoDup (map _id db) ->
  Forall2 (ledgerFrame key) db (ledgerRun env now key ops db)
  /\ map _id (ledgerRun env now key ops db) = map _id db.
Proof.
  unfold ledgerRun. revert db.
  induction ops as [|op rest IH]; intros db Hids; cbn [fold_left].
  - split; [apply Forall2_same, ledgerFrame_refl|reflexivity].
  - destruct (step_frame env now key op db Hids) as [Hstep Hsame].
    destruct (IH (ledgerStep env now key db op)) as [Hrest Hsame'].
    { rewrite Hsame. exact Hids. }
    split.
    + eapply (Forall2_chain (ledgerFrame key) (ledgerFrame_trans key));
        eassumption.
    + rewrite Hsame'. exact Hsame.
Qed.

End LedgerMore.

(** The machine [m1] verified twice on the license of [db0], the
    second time at once and a minute later. *)
Lemma rebinding_example :
  LicenseRoutes.verify env0 t0 (reqM (Some "m1"))
    (snd (LicenseRoutes.verify env0 t0 (reqM (Some "m1")) db0))
  = (LicenseRoutes.Accepted (LicenseModel.expiresAt (theLicense db0)) "a@b.c",
     snd (LicenseRoutes.verify env0 t0 (reqM (Some "m1")) db0))
  /\ snd (LicenseRoutes.verify env0 (t0 + 60000) (reqM (Some "m1"))
            (snd (LicenseRoutes.verify env0 t0 (reqM (Some "m1")) db0)))
     = snd (LicenseRoutes.verify env0 t0 (reqM (Some "m1")) db0).
Proof.
  refine (accepted_machine_is_not_counted_again (node := Node) env0 t0
            (t0 + 60000) (reqM (Some "m1")) db0
            (LicenseModel.expiresAt (theLicense db0)) "a@b.c" _).
  vm_compute. reflexivity.
Defined.

(** On the license of [db3], whose three slots are taken: [m2] is
    released and [m4] takes its place. *)
Lemma release_example :
  fst (LicenseRoutes.verify env0 t0 (reqM (Some "m4"))
         (snd (LicenseRoutes.deactivate
                 (LicenseRoutes.body_licenseKey (reqM (Some "m4")))
                 (Some "m2") db3)))
  = LicenseRoutes.Accepted (LicenseModel.expiresAt (theLicense db3))
      (LicenseModel.email (theLicense db3))
  /\ Collection.findOne
       (fun l => String.eqb (LicenseModel.licenseKey l)
                   (LicenseRoutes.body_licenseKey (reqM (Some "m4"))))
       (snd (LicenseRoutes.verify env0 t0 (reqM (Some "m4"))
               (snd (LicenseRoutes.deactivate
                       (LicenseRoutes.body_licenseKey (reqM (Some "m4")))
                       (Some "m2") db3))))
     = Some (LicenseModel.bind "m4"
               (LicenseModel.unbind (Some "m2") (theLicense db3)))
  /\ LicenseModel.activations
       (LicenseModel.bind "m4"
          (LicenseModel.unbind (Some "m2") (theLicense db3)))
     <= LicenseModel.maxActivations (theLicense db3).
Proof.
  refine (deactivation_frees_a_slot (node := Node) env0 t0 (reqM (Some "m4"))
            db3 (theLicense db3) "m2" "m4"
            (LicenseModel.licenseData (theLicense db0)) _ _ _ _ _ _ _ _ _).
  1-4: vm_compute; reflexivity.
  1: reflexivity.
  1: vm_compute; discriminate.
  1: reflexivity.
  1: discriminate.
  1: vm_compute; reflexivity.
Defined.

(** The counter on the trace that ends with four machines bound: it
    stays within the limit of three. *)
Lemma counter_example_run :
  Forall counterInv (ledgerRun env0 t0 key0 voidTrace db0).
Proof.
  assert (Hdb : Forall counterInv db0).
  { unfold counterInv. vm_compute. repeat constructor; discriminate. }
  destruct (counter_stays_within_the_limit (node := Node) env0 t0 db0 Hdb)
    as (_ & _ & Hrun).
  exact (Hrun key0 voidTrace).
Defined.

(** The same trace on [db0]. *)
Lemma ledger_frame_example :
  Forall2 (ledgerFrame key0) db0 (ledgerRun env0 t0 key0 voidTrace db0)
  /\ map LicenseModel._id (ledgerRun env0 t0 key0 voidTrace db0)
     = map LicenseModel._id db0.
Proof.
  refine (ledger_touches_only_bindings (node := Node) env0 t0 key0 voidTrace
            db0 _).
  vm_compute. repeat constructor. intros [].
Defined.

(** ** Sealed keys and new licenses *)

Section SealFacts.
Context {node : NodeRuntime}.

(** A key that was sealed carries a matching signature, provided the
    envelope survives [JSON.parse] of its [JSON.stringify]. *)
Lemma sealKey_signed (secret : string) (data : json) :
  JSON_parse (JSON_stringify (envelope secret data)) = Some (envelope secret data) ->
  signedData secret (sealKey secret data) = Some data.
Proof.
  intro Hjson. unfold signedData, sealKey.
  rewrite Base64Facts.decode_encode.
  unfold envelope in Hjson. rewrite Hjson.
  cbn [prop lookup String.eqb Ascii.eqb Bool.eqb strict_eq_string].
  rewrite String.eqb_refl. reflexivity.
Qed.

(** The unique index on [licenseKey]: a new license that passed
    validation is the one its key finds. *)
Lemma server_insert_found (l : Server.License) (db : list Server.License) :
  Server.acceptable l db = true ->
  Collection.findOne
    (fun x => String.eqb (Server.licenseKey x) (Server.licenseKey l))
    (Collection.insert l db) = Some l.
Proof.
  unfold Server.acceptable. intro Hok.
  apply andb_prop in Hok as [_ Hnew]. apply negb_true_iff in Hnew.
  apply findOne_insert; [|apply String.eqb_refl].
  unfold Collection.findOne.
  destruct (find _ db) as [x|] eqn:Hx; [|reflexivity].
  apply find_some in Hx as [Hin Hx].
  assert (E : existsb (fun x => String.eqb (Server.licenseKey x)
                                  (Server.licenseKey l)) db = true).
  { apply existsb_exists. exists x. split; assumption. }
  congruence.
Qed.

Lemma server_key_nonempty (l : Server.License) (db : list Server.License) :
  Server.acceptable l db = true -> Server.licenseKey l <> "".
Proof.
  unfold Server.acceptable. intro Hok.
  apply andb_prop in Hok as [Hok _]. apply andb_prop in Hok as [Hkey _].
  apply negb_true_iff in Hkey. apply String.eqb_neq. exact Hkey.
Qed.

End SealFacts.

(** ** The log and the switch of the enhanced server *)

Section ServerMore.
Context {node : NodeRuntime}.

Lemma logExtends_refl (l : Server.License) : logExtends l l.
Proof.
  unfold logExtends. repeat split. exists []. rewrite app_nil_r. reflexivity.
Qed.

Lemma logExtends_trans (x y z : Server.License) :
  logExtends x y -> logExtends y z -> logExtends x z.
Proof.
  unfold logExtends.
  intros (? & ? & ? & ? & ? & ? & ? & ? & more & Hxy)
         (? & ? & ? & ? & ? & ? & ? & ? & more' & Hyz).
  repeat split; try congruence.
  exists (more ++ more')%list. rewrite Hyz, Hxy, app_assoc. reflexivity.
Qed.

Lemma server_step_log (env : ProcessEnv) (op : ServerOp)
    (db : list Server.License) :
  NoDup (map Server._id db) ->
  Forall2 logExtends db (serverStep env db op)
  /\ map Server._id (serverStep env db op) = map Server._id db.
Proof.
  intro Hids.
  assert (Hsame : Forall2 logExtends db db)
    by (apply Forall2_same, logExtends_refl).
  destruct op as [now req|b secret id]; cbn [serverStep].
  - unfold Server.verify.
    destruct (Server.body_licenseKey req) as [key|]; [|split; auto].
    destruct (String.eqb key ""); [split; auto|].
    destruct (LicenseUtils.verifyLicenseKey env now key); [|split; auto].
    destruct (Collection.findOne _ db) as [license|] eqn:Hfind; [|split; auto].
    destruct (negb (Server.isActive license)); [split; auto|].
    destruct (Server.lapsed now license); [split; auto|].
    cbn [snd]. split; [|apply save_ids].
    eapply save_found_pointwise with (l := license);
      [exact Hids|exact Hfind|reflexivity|apply logExtends_refl|].
    unfold logExtends. cbn [Server.record Server._id Server.licenseKey
      Server.email Server.name Server.createdAt Server.expiresAt Server.source
      Server.metadata Server.activations].
    repeat split. eexists. reflexivity.
  - unfold Server.adminSetActive.
    destruct (negb (Server.adminAuth env secret)); [split; auto|].
    destruct (Collection.findById Server._id id db); [|split; auto].
    cbn [snd]. split.
    + apply updateOne_pointwise; [apply logExtends_refl|].
      intros d _. unfold logExtends. repeat split.
      exists []. cbn [Server.setActive Server.activations].
      rewrite app_nil_r. reflexivity.
    + apply updateOne_ids. reflexivity.
Qed.

(** X7.  The activation log of the enhanced server only grows.  With
    ids that are unique, after any sequence of verifications and admin
    switches each stored license has its old log as a prefix of the new
    one and every other field but [isActive] as before. *)
Theorem server_log_is_append_only (env : ProcessEnv) (ops : list ServerOp)
    (db : list Server.License) :
  NoDup (map Server._id db) ->
  Forall2 logExtends db (serverRun env ops db).
Proof.
  unfold serverRun. revert db.
  induction ops as [|op rest IH]; intros db Hids; cbn [fold_left].
  - apply Forall2_same, logExtends_refl.
  - destruct (server_step_log env op db Hids) as [Hstep Hsame].
    eapply (Forall2_chain logExtends logExtends_trans); [exact Hstep|].
    apply IH. rewrite Hsame. exact Hids.
Qed.


End ServerMore.

(** The log of the license of [dbS0] along [serverTrace]. *)
Lemma server_log_example :
  Forall2 logExtends dbS0 (serverRun env0 serverTrace dbS0).
Proof.
  refine (server_log_is_append_only (node := Node) env0 serverTrace dbS0 _).
  vm_compute. repeat constructor. intros [].
Defined.


(** ** Licenses the enhanced server issues *)

Section ServerIssuance.
Context {node : NodeRuntime}.

(** With one reading of the clock for the whole call, the routes of
    [Readings] are [LicenseRoutes.verify] and [Server.verify]. *)
Lemma verify_at_one_reading (env : ProcessEnv) (now : Z) :
  (forall req db,
     Readings.routerVerify env now now req db = LicenseRoutes.verify env now req db)
  /\ (forall req db,
        Readings.serverVerify env now now now req db
        = Server.verify env now req db).
Proof. split; reflexivity. Qed.

Lemma serverCall_log (env : ProcessEnv) (call : ServerCall)
    (db : list Server.License) :
  NoDup (map Server._id db) ->
  Forall2 logExtends db (serverCall env db call)
  /\ map Server._id (serverCall env db call) = map Server._id db.
Proof.
  intro Hids.
  assert (Hsame : Forall2 logExtends db db)
    by (apply Forall2_same, logExtends_refl).
  destruct call as [checked compared stamped req|b secret id]; cbn [serverCall].
  - unfold Readings.serverVerify.
    destruct (Server.body_licenseKey req) as [key|]; [|split; auto].
    destruct (String.eqb key ""); [split; auto|].
    destruct (LicenseUtils.verifyLicenseKey env checked key); [|split; auto].
    destruct (Collection.findOne _ db) as [license|] eqn:Hfind; [|split; auto].
    destruct (negb (Server.isActive license)); [split; auto|].
    destruct (Server.lapsed compared license); [split; auto|].
    cbn [snd]. split; [|apply save_ids].
    eapply save_found_pointwise with (l := license);
      [exact Hids|exact Hfind|reflexivity|apply logExtends_refl|].
    unfold logExtends. cbn [Server.record Server._id Server.licenseKey
      Server.email Server.name Server.createdAt Server.expiresAt Server.source
      Server.metadata Server.activations].
    repeat split. eexists. reflexivity.
  - unfold Server.adminSetActive.
    destruct (negb (Server.adminAuth env secret)); [split; auto|].
    destruct (Collection.findById Server._id id db); [|split; auto].
    cbn [snd]. split.
    + apply updateOne_pointwise; [apply logExtends_refl|].
      intros d _. unfold logExtends. repeat split.
      exists []. cbn [Server.setActive Server.activations].
      rewrite app_nil_r. reflexivity.
    + apply updateOne_ids. reflexivity.
Qed.

Lemma serverCalls_log (env : ProcessEnv) (calls : list ServerCall)
    (db : list Server.License) :
  NoDup (map Server._id db) ->
  Forall2 logExtends db (serverCalls env calls db).
Proof.
  unfold serverCalls. revert db.
  induction calls as [|call rest IH]; intros db Hids; cbn [fold_left].
  - apply Forall2_same, logExtends_refl.
  - destruct (serverCall_log env call db Hids) as [Hstep Hsame].
    eapply (Forall2_chain logExtends logExtends_trans); [exact Hstep|].
    apply IH. rewrite Hsame. exact Hids.
Qed.

(** After any calls the key of a stored license still finds it, its
    log extended. *)
Lemma serverCalls_found (env : ProcessEnv) (calls : list ServerCall)
    (db : list Server.License) (key : string) (license : Server.License) :
  NoDup (map Server._id db) ->
  Collection.findOne (fun l => String.eqb (Server.licenseKey l) key) db
  = Some license ->
  exists current,
    Collection.findOne (fun l => String.eqb (Server.licenseKey l) key)
      (serverCalls env calls db) = Some current
    /\ logExtends license current.
Proof.
  intros Hids Hfind.
  apply (findOne_related logExtends _ db); [|apply serverCalls_log; exact Hids|exact Hfind].
  intros a b (_ & Hkey & _). rewrite Hkey. reflexivity.
Qed.

(** What [/api/license/verify] answers for a key that is valid at the
    first reading and finds [current]. *)
Lemma serverVerify_found (env : ProcessEnv) (checked compared stamped : Z)
    (req : Server.VerifyRequest) (db : list Server.License)
    (current : Server.License) (key : string) (data : json) :
  Server.body_licenseKey req = Some key ->
  key <> "" ->
  LicenseUtils.verifyLicenseKey env checked key = Valid data ->
  Collection.findOne (fun l => String.eqb (Server.licenseKey l) key) db
  = Some current ->
  Readings.serverVerify env checked compared stamped req db
  = if negb (Server.isActive current)
    then (Server.Rejected 403 "License is not active", db)
    else if Server.lapsed compared current
    then (Server.Rejected 403 "License expired", db)
    else (Server.Accepted (Server.name current) (Server.email current)
            (Server.expiresAt current),
          Collection.save Server._id
            (Server.record
               {| Server.timestamp := stamped;
                  Server.machineId :=
                    or_default (Server.body_machineId req) "unknown";
                  Server.os := or_default (Server.body_os req) "unknown";
                  Server.app := or_default (Server.body_app req) "unknown";
                  Server.ip := Server.clientIP req |} current) db).
Proof.
  intros Hkey Hnonempty Hvalid Hfind.
  unfold Readings.serverVerify. rewrite Hkey.
  apply String.eqb_neq in Hnonempty. rewrite Hnonempty.
  rewrite Hvalid, Hfind. reflexivity.
Qed.

(** X9.  A license the enhanced server created for a Gumroad sale
    never expires, and of the checks of [/api/license/verify] only the
    active flag can refuse its key.  When the webhook answered
    [License created]: the key is valid at every reading of the clock.
    In every collection where the key finds a record that has the
    fields of the created one, apart from [isActive] and a log that may
    have grown, a verification of the key, whatever its three readings
    of the clock, is accepted with the buyer's name and address and no
    expiry and appends one entry to the log of that record when the
    record is active; it is refused with [License is not active],
    nothing written, when the record is not.  With ids that are unique
    the key finds such a record after any sequence of verifications and
    admin switches. *)
Theorem server_sale_never_expires (env : ProcessEnv) (now : Z)
    (rnd : string) (oid : N) (body : Server.GumroadBody)
    (db db' : list Server.License) (license : Server.License) :
  let issued :=
    LicenseUtils.generateLicenseKey env
      [("email", JStr (Server.email_of body));
       ("name", JStr (Server.full_name body));
       ("metadata",
        JObj [("gumroad_sale_id", JStr (Server.sale_id body));
              ("gumroad_product_id", JStr (Server.product_id body))])] now rnd in
  let byKey :=
    fun l => String.eqb (Server.licenseKey l) (Server.licenseKey license) in
  Server.gumroadWebhook env now rnd oid body db = (Server.Created license, db') ->
  JSON_parse
    (JSON_stringify
       (envelope (LicenseUtils.CONFIG_LICENSE_SECRET env) (issued_licenseData issued)))
  = Some (envelope (LicenseUtils.CONFIG_LICENSE_SECRET env)
            (issued_licenseData issued)) ->
  (forall checked,
     LicenseUtils.verifyLicenseKey env checked (Server.licenseKey license)
     = Valid (issued_licenseData issued))
  /\ (forall later current checked compared stamped req,
        Server.body_licenseKey req = Some (Server.licenseKey license) ->
        Collection.findOne byKey later = Some current ->
        logExtends license current ->
        Readings.serverVerify env checked compared stamped req later
        = if Server.isActive current
          then (Server.Accepted (Some (Server.full_name body))
                  (Server.email_of body) None,
                Collection.save Server._id
                  (Server.record
                     {| Server.timestamp := stamped;
                        Server.machineId :=
                          or_default (Server.body_machineId req) "unknown";
                        Server.os := or_default (Server.body_os req) "unknown";
                        Server.app := or_default (Server.body_app req) "unknown";
                        Server.ip := Server.clientIP req |} current) later)
          else (Server.Rejected 403 "License is not active", later))
  /\ (NoDup (map Server._id db') ->
      forall calls,
        exists current,
          Collection.findOne byKey (serverCalls env calls db') = Some current
          /\ logExtends license current).
Proof.
  intros issued byKey Hsale Hjson.
  unfold Server.gumroadWebhook in Hsale.
  destruct (negb (String.eqb (Server.CONFIG_GUMROAD_SELLER_ID env) "") && _);
    [discriminate|].
  destruct (negb (same_field (Server.resource_name body) (Some "sale")));
    [discriminate|].
  destruct (Collection.findOne _ db); [discriminate|].
  fold issued in Hsale.
  match type of Hsale with
  | (if Server.acceptable ?l db then _ else _) = _ =>
      set (lic := l) in Hsale;
      destruct (Server.acceptable lic db) eqn:Hok; [|discriminate]
  end.
  injection Hsale as Hlic Hdb. subst license db'.
  assert (Hkeyof : Server.licenseKey lic = issued_licenseKey issued)
    by reflexivity.
  assert (Hexpof : Server.expiresAt lic = None) by reflexivity.
  assert (Hname : Server.name lic = Some (Server.full_name body))
    by reflexivity.
  assert (Hmail : Server.email lic = Server.email_of body) by reflexivity.
  clearbody lic.
  assert (Hvalid : forall checked,
            LicenseUtils.verifyLicenseKey env checked (Server.licenseKey lic)
            = Valid (issued_licenseData issued)).
  { intro checked. rewrite Hkeyof. unfold LicenseUtils.verifyLicenseKey.
    rewrite (verifyEnvelope_signed _ _ _ _ _ (sealKey_signed _ _ Hjson)).
    reflexivity. }
  split; [exact Hvalid|]. split.
  - intros later current checked compared stamped req Hreq Hfind Hlog.
    rewrite (serverVerify_found env checked compared stamped req later current
               _ _ Hreq (server_key_nonempty _ _ Hok) (Hvalid checked) Hfind).
    destruct Hlog as (_ & _ & Hm & Hn & _ & He & _).
    unfold Server.lapsed. rewrite He, Hexpof, Hm, Hn, Hmail, Hname.
    destruct (Server.isActive current); reflexivity.
  - intros Hids calls.
    apply serverCalls_found; [exact Hids|].
    apply (server_insert_found _ _ Hok).
Qed.

Lemma created_expiry (env : ProcessEnv) (now : Z) (rnd : string)
    (body : ServerAdmin.CreateBody) :
  truthy_field (ServerAdmin.body_email body) = true ->
  prop (issued_licenseData
          (LicenseUtils.generateLicenseKey env (ServerAdmin.payload body) now rnd))
    "expiresAt"
  = ServerAdmin.body_expiresAt body.
Proof.
  intro Hemail. unfold ServerAdmin.payload.
  destruct (ServerAdmin.body_email body) as [e|]; [|discriminate].
  destruct (ServerAdmin.body_name body) as [n|];
    destruct (ServerAdmin.body_expiresAt body) as [v|]; reflexivity.
Qed.

(** X10.  A license the admin created on the enhanced server runs
    until the expiry it was created with.  Creation needs the admin
    secret and an address, and the record's expiry is the date of the
    request's [expiresAt], none when that is falsy.  [verifyLicenseKey]
    refuses the issued key with [License expired] exactly at the
    readings of the clock that are past that expiry.  In every
    collection where the key finds a record that has the fields of the
    created one, apart from [isActive] and a log that may have grown, a
    verification of the key answers [License expired] when the clock is
    past the expiry as the key's check reads it; else
    [License is not active] when the record is not active; else
    [License expired] when the clock is past the expiry as the record's
    check reads it; else it accepts and appends one entry to the log of
    that record.  A refusal writes nothing.  With ids that are unique
    the key finds such a record after any sequence of verifications and
    admin switches. *)
Theorem admin_license_runs_until_its_expiry (env : ProcessEnv) (now : Z)
    (rnd : string) (oid : N) (secret : option string)
    (body : ServerAdmin.CreateBody)
    (db db' : list Server.License) (license : Server.License) :
  let issued :=
    LicenseUtils.generateLicenseKey env (ServerAdmin.payload body) now rnd in
  let byKey :=
    fun l => String.eqb (Server.licenseKey l) (Server.licenseKey license) in
  ServerAdmin.adminCreate env now rnd oid secret body db
  = (ServerAdmin.LicenseCreated license, db') ->
  JSON_parse
    (JSON_stringify
       (envelope (LicenseUtils.CONFIG_LICENSE_SECRET env) (issued_licenseData issued)))
  = Some (envelope (LicenseUtils.CONFIG_LICENSE_SECRET env)
            (issued_licenseData issued)) ->
  Server.adminAuth env secret = true
  /\ ServerAdmin.body_email body = Some (Server.email license)
  /\ ServerAdmin.expiryDate (ServerAdmin.body_expiresAt body)
     = Some (Server.expiresAt license)
  /\ (forall checked,
        LicenseUtils.verifyLicenseKey env checked (Server.licenseKey license)
        = if Server.lapsed checked license
          then Invalid "License expired"
          else Valid (issued_licenseData issued))
  /\ (forall later current checked compared stamped req,
        Server.body_licenseKey req = Some (Server.licenseKey license) ->
        Collection.findOne byKey later = Some current ->
        logExtends license current ->
        Readings.serverVerify env checked compared stamped req later
        = if Server.lapsed checked license
          then (Server.Rejected 403 "License expired", later)
          else if negb (Server.isActive current)
          then (Server.Rejected 403 "License is not active", later)
          else if Server.lapsed compared license
          then (Server.Rejected 403 "License expired", later)
          else (Server.Accepted (Server.name license) (Server.email license)
                  (Server.expiresAt license),
                Collection.save Server._id
                  (Server.record
                     {| Server.timestamp := stamped;
                        Server.machineId :=
                          or_default (Server.body_machineId req) "unknown";
                        Server.os := or_default (Server.body_os req) "unknown";
                        Server.app := or_default (Server.body_app req) "unknown";
                        Server.ip := Server.clientIP req |} current) later))
  /\ (NoDup (map Server._id db') ->
      forall calls,
        exists current,
          Collection.findOne byKey (serverCalls env calls db') = Some current
          /\ logExtends license current).
Proof.
  intros issued byKey Hcreate Hjson.
  unfold ServerAdmin.adminCreate in Hcreate.
  destruct (Server.adminAuth env secret) eqn:Hauth; cbn [negb] in Hcreate;
    [|discriminate].
  destruct (truthy_field (ServerAdmin.body_email body)) eqn:Hemail;
    cbn [negb] in Hcreate; [|discriminate].
  destruct (ServerAdmin.expiryDate (ServerAdmin.body_expiresAt body))
    as [expires|] eqn:Hexp; [|discriminate].
  match type of Hcreate with
  | (if Server.acceptable ?l db then _ else _) = _ =>
      set (lic := l) in Hcreate;
      destruct (Server.acceptable lic db) eqn:Hok; [|discriminate]
  end.
  injection Hcreate as Hlic Hdb. subst license db'.
  assert (Hkeyof : Server.licenseKey lic = issued_licenseKey issued)
    by reflexivity.
  assert (Hexpof : Server.expiresAt lic = expires) by reflexivity.
  assert (Hmail : Server.email lic
                  = or_default (ServerAdmin.body_email body) "")
    by reflexivity.
  clearbody lic.
  split; [reflexivity|]. split.
  { rewrite Hmail. destruct (ServerAdmin.body_email body) as [e|];
      [|discriminate].
    cbn [truthy_field] in Hemail. cbn [or_default].
    destruct (String.eqb e ""); [discriminate|reflexivity]. }
  split; [rewrite Hexpof; reflexivity|].
  pose proof (created_expiry env now rnd body Hemail) as Hprop. fold issued in Hprop.
  assert (Hobj : exists fields, issued_licenseData issued = JObj fields).
  { eexists. reflexivity. }
  destruct Hobj as [fields Hobj].
  assert (Hlapsed : forall t, Server.lapsed t lic
            = truthy (ServerAdmin.body_expiresAt body)
              && past t (ServerAdmin.body_expiresAt body)).
  { intro t. unfold Server.lapsed. rewrite Hexpof.
    unfold ServerAdmin.expiryDate in Hexp.
    destruct (truthy (ServerAdmin.body_expiresAt body)) eqn:Ht; cbn [andb].
    - destruct (ServerAdmin.body_expiresAt body) as [v|]; [|discriminate].
      cbn [past]. destruct (Date_getTime v) as [e|]; [|discriminate].
      injection Hexp as <-. reflexivity.
    - injection Hexp as <-. reflexivity. }
  assert (Hkey : forall checked,
            LicenseUtils.verifyLicenseKey env checked (Server.licenseKey lic)
            = if Server.lapsed checked lic
              then Invalid "License expired"
              else Valid (issued_licenseData issued)).
  { intro checked. rewrite Hlapsed, Hkeyof. unfold LicenseUtils.verifyLicenseKey.
    rewrite (verifyEnvelope_signed _ _ _ _ _ (sealKey_signed _ _ Hjson)).
    rewrite Hprop, Hobj. reflexivity. }
  split; [exact Hkey|]. split.
  - intros later current checked compared stamped req Hreq Hfind Hlog.
    pose proof (server_key_nonempty _ _ Hok) as Hne.
    destruct (Server.lapsed checked lic) eqn:Hchecked.
    + unfold Readings.serverVerify. rewrite Hreq.
      apply String.eqb_neq in Hne. rewrite Hne, Hkey, Hchecked. reflexivity.
    + specialize (Hkey checked). rewrite Hchecked in Hkey.
      rewrite (serverVerify_found env checked compared stamped req later current
                 _ _ Hreq Hne Hkey Hfind).
      destruct Hlog as (_ & _ & Hm & Hn & _ & He & _).
      unfold Server.lapsed. rewrite He, Hm, Hn. reflexivity.
  - intros Hids calls.
    apply serverCalls_found; [exact Hids|].
    apply (server_insert_found _ _ Hok).
Qed.

End ServerIssuance.

(** The license of [dbS0] a hundred years after the sale: a fourth
    machine is accepted on [dbS3]; on [dbSoff], where the admin switched
    the license off, the check is refused. *)
Lemma server_sale_example :
  LicenseUtils.verifyLicenseKey env0 tFar
    (Server.licenseKey (theServerLicense dbS0))
  = Valid (issued_licenseData issuedS)
  /\ fst (Readings.serverVerify env0 tFar tFar tFar (reqS (Some "m4")) dbS3)
     = Server.Accepted (Some "Ann") "a@b.c" None
  /\ Readings.serverVerify env0 tFar tFar tFar (reqS (Some "m2")) dbSoff
     = (Server.Rejected 403 "License is not active", dbSoff)
  /\ exists current,
       Collection.findOne
         (fun l => String.eqb (Server.licenseKey l)
                     (Server.licenseKey (theServerLicense dbS0))) dbSoff
       = Some current
       /\ logExtends (theServerLicense dbS0) current.
Proof.
  destruct (server_sale_never_expires (node := Node) env0 t0 rnd0 1%N saleS
              [] dbS0 (theServerLicense dbS0))
    as (Hkey & Hstate & Hreach).
  1-2: vm_compute; reflexivity.
  split; [apply Hkey|]. split; [|split].
  - assert (Hlog : logExtends (theServerLicense dbS0) (theServerLicense dbS3)).
    { unfold logExtends. repeat (split; [vm_compute; reflexivity|]).
      exists (Server.activations (theServerLicense dbS3)).
      vm_compute. reflexivity. }
    rewrite (Hstate dbS3 (theServerLicense dbS3) tFar tFar tFar
               (reqS (Some "m4")));
      [vm_compute; reflexivity|vm_compute; reflexivity
      |vm_compute; reflexivity|exact Hlog].
  - assert (Hlog : logExtends (theServerLicense dbS0) (theServerLicense dbSoff)).
    { unfold logExtends. repeat (split; [vm_compute; reflexivity|]).
      exists (Server.activations (theServerLicense dbSoff)).
      vm_compute. reflexivity. }
    rewrite (Hstate dbSoff (theServerLicense dbSoff) tFar tFar tFar
               (reqS (Some "m2")));
      [vm_compute; reflexivity|vm_compute; reflexivity
      |vm_compute; reflexivity|exact Hlog].
  - apply (Hreach ltac:(vm_compute; repeat constructor; intros [])
             [ServerVerify t0 t0 t0 (reqS (Some "m1"));
              ServerSwitch false (Some "admin") 1]).
Defined.

(** The license of [dbA0], which expires at [tE] and stores no
    metadata: accepted one second before [tE]; refused then on
    [dbAoff], where the admin switched it off; refused when the clock
    passes [tE] between the two checks; refused one second after. *)
Lemma admin_license_example :
  (Server.adminAuth env0 (Some "admin") = true
   /\ ServerAdmin.body_email createBody0
      = Some (Server.email (theServerLicense dbA0))
   /\ ServerAdmin.expiryDate (ServerAdmin.body_expiresAt createBody0)
      = Some (Server.expiresAt (theServerLicense dbA0)))
  /\ map Server.metadata dbA0 = [None]
  /\ Server.expiresAt (theServerLicense dbA0) = Some tE
  /\ LicenseUtils.verifyLicenseKey env0 (tE + 1000)
       (Server.licenseKey (theServerLicense dbA0))
     = Invalid "License expired"
  /\ fst (Readings.serverVerify env0 (tE - 1000) (tE - 1000) (tE - 1000) reqA
            dbA0)
     = Server.Accepted (Some "Ann") "a@b.c" (Some tE)
  /\ Readings.serverVerify env0 (tE - 1000) (tE - 1000) (tE - 1000) reqA dbAoff
     = (Server.Rejected 403 "License is not active", dbAoff)
  /\ Readings.serverVerify env0 tE (tE + 1) (tE + 1) reqA dbA0
     = (Server.Rejected 403 "License expired", dbA0)
  /\ Readings.serverVerify env0 (tE + 1000) (tE + 1000) (tE + 1000) reqA dbAoff
     = (Server.Rejected 403 "License expired", dbAoff)
  /\ exists current,
       Collection.findOne
         (fun l => String.eqb (Server.licenseKey l)
                     (Server.licenseKey (theServerLicense dbA0))) dbAoff
       = Some current
       /\ logExtends (theServerLicense dbA0) current.
Proof.
  destruct (admin_license_runs_until_its_expiry (node := Node) env0 t0 rnd0 1%N
              (Some "admin") createBody0 [] dbA0 (theServerLicense dbA0))
    as (Hauth & Hmail & Hexp & Hkey & Hstate & Hreach).
  1-2: vm_compute; reflexivity.
  assert (Hlog0 : logExtends (theServerLicense dbA0) (theServerLicense dbA0)).
  { unfold logExtends. repeat (split; [reflexivity|]).
    exists []. vm_compute. reflexivity. }
  assert (Hlog : logExtends (theServerLicense dbA0) (theServerLicense dbAoff)).
  { unfold logExtends. repeat (split; [vm_compute; reflexivity|]).
    exists (Server.activations (theServerLicense dbAoff)).
    vm_compute. reflexivity. }
  split; [repeat split; assumption|].
  split; [vm_compute; reflexivity|].
  split; [vm_compute; reflexivity|].
  split; [rewrite Hkey; vm_compute; reflexivity|].
  split; [|split; [|split; [|split]]].
  - rewrite (Hstate dbA0 (theServerLicense dbA0) (tE - 1000) (tE - 1000)
               (tE - 1000) reqA);
      [vm_compute; reflexivity|vm_compute; reflexivity
      |vm_compute; reflexivity|exact Hlog0].
  - rewrite (Hstate dbAoff (theServerLicense dbAoff) (tE - 1000) (tE - 1000)
               (tE - 1000) reqA);
      [vm_compute; reflexivity|vm_compute; reflexivity
      |vm_compute; reflexivity|exact Hlog].
  - rewrite (Hstate dbA0 (theServerLicense dbA0) tE (tE + 1) (tE + 1) reqA);
      [vm_compute; reflexivity|vm_compute; reflexivity
      |vm_compute; reflexivity|exact Hlog0].
  - rewrite (Hstate dbAoff (theServerLicense dbAoff) (tE + 1000) (tE + 1000)
               (tE + 1000) reqA);
      [vm_compute; reflexivity|vm_compute; reflexivity
      |vm_compute; reflexivity|exact Hlog].
  - apply (Hreach ltac:(vm_compute; repeat constructor; intros [])
             [ServerVerify t0 t0 t0 reqA; ServerSwitch false (Some "admin") 1]).
Defined.

(** ** The older generator *)

Section GeneratorFacts.
Context {node : NodeRuntime}.

(** X14.  Issue, then verify, for the older generator.  The payload
    is the five properties [userId], [productId], [uniqueId],
    [expirationDate] and [createdAt]; the issued key verifies with that
    payload at every time when the expiration date is [null] or empty,
    and otherwise exactly until that date. *)
Theorem generator_round_trip (env : ProcessEnv) (userId productId : string)
    (expirationDate : option string) (uniqueId : string) (now now' : Z)
    (issued : Issued) (secret : string) :
  LicenseGenerator.generateLicenseKey env userId productId expirationDate
    uniqueId now = Some issued ->
  env_LICENSE_SECRET env = Some secret ->
  JSON_parse (JSON_stringify (envelope secret (issued_licenseData issued)))
  = Some (envelope secret (issued_licenseData issued)) ->
  issued_licenseData issued
  = JObj [("userId", JStr userId); ("productId", JStr productId);
          ("uniqueId", JStr uniqueId);
          ("expirationDate",
           match expirationDate with Some d => JStr d | None => JNull end);
          ("createdAt", JStr (Date_toISOString now))]
  /\ LicenseGenerator.verifyLicenseKey env now' (issued_licenseKey issued)
     = match expirationDate with
       | Some d =>
           if negb (String.eqb d "") && past now' (Some (JStr d))
           then Invalid "License expired"
           else Valid (issued_licenseData issued)
       | None => Valid (issued_licenseData issued)
       end.
Proof.
  unfold LicenseGenerator.generateLicenseKey.
  intros Hissued Hsecret Hjson. rewrite Hsecret in Hissued.
  injection Hissued as <-. cbn [issued_licenseData issued_licenseKey] in *.
  split; [reflexivity|].
  unfold LicenseGenerator.verifyLicenseKey. rewrite Hsecret.
  rewrite (verifyEnvelope_signed _ _ _ _ _ (sealKey_signed _ _ Hjson)).
  destruct expirationDate as [d|]; reflexivity.
Qed.

Lemma generator_issues (env : ProcessEnv) (userId productId : string)
    (expirationDate : option string) (uniqueId : string) (now now' : Z)
    (issued : Issued) :
  LicenseGenerator.generateLicenseKey env userId productId expirationDate
    uniqueId now = Some issued ->
  (forall secret,
     env_LICENSE_SECRET env = Some secret ->
     JSON_parse (JSON_stringify (envelope secret (issued_licenseData issued)))
     = Some (envelope secret (issued_licenseData issued))) ->
  LicenseGenerator.verifyLicenseKey env now' (issued_licenseKey issued)
  = match expirationDate with
    | Some d =>
        if negb (String.eqb d "") && past now' (Some (JStr d))
        then Invalid "License expired"
        else Valid (issued_licenseData issued)
    | None => Valid (issued_licenseData issued)
    end.
Proof.
  unfold LicenseGenerator.generateLicenseKey.
  intros Hissued Hjson.
  destruct (env_LICENSE_SECRET env) as [secret|] eqn:Hsecret; [|discriminate].
  specialize (Hjson secret eq_refl).
  injection Hissued as <-. cbn [issued_licenseData issued_licenseKey] in *.
  unfold LicenseGenerator.verifyLicenseKey. rewrite Hsecret.
  rewrite (verifyEnvelope_signed _ _ _ _ _ (sealKey_signed _ _ Hjson)).
  destruct expirationDate as [d|]; reflexivity.
Qed.

Lemma verifyEnvelope_no_secret (expiry : string) (now : Z) (key : string) :
  verifyEnvelope None expiry now key = Invalid "Invalid license format".
Proof.
  unfold verifyEnvelope.
  destruct (JSON_parse (Base64.decode key)) as [[| | | | |]|]; reflexivity.
Qed.

(** X15.  Without [LICENSE_SECRET] in the environment the older
    generator issues nothing and its verifier accepts nothing: every
    text is refused with [Invalid license format], so [/verify] refuses
    every request, and no webhook (Gumroad, AppSumo, Stripe checkout)
    stores a license or answers success. *)
Theorem no_secret_no_license (env : ProcessEnv) :
  env_LICENSE_SECRET env = None ->
  (forall userId productId expirationDate uniqueId now,
     LicenseGenerator.generateLicenseKey env userId productId expirationDate
       uniqueId now = None)
  /\ (forall now key,
        LicenseGenerator.verifyLicenseKey env now key
        = Invalid "Invalid license format")
  /\ (forall now req db,
        LicenseRoutes.verify env now req db
        = (LicenseRoutes.Rejected 400 "Invalid license format", db))
  /\ (forall now uuid oid mailOk body db,
        snd (WebhookRoutes.gumroad env now uuid oid mailOk body db) = db
        /\ fst (WebhookRoutes.gumroad env now uuid oid mailOk body db)
           <> WebhookRoutes.Success)
  /\ (forall secret now uuid oid req db,
        snd (AppSumo.appsumo env secret now uuid oid req db) = db
        /\ fst (AppSumo.appsumo env secret now uuid oid req db)
           <> AppSumo.Success)
  /\ (forall now uuid oid session db,
        WebhookRoutes.session_mode session = "payment" ->
        WebhookRoutes.handleCheckoutCompleted env now uuid oid session db = None).
Proof.
  intro Hnone.
  assert (Hgen : forall userId productId expirationDate uniqueId now,
            LicenseGenerator.generateLicenseKey env userId productId
              expirationDate uniqueId now = None).
  { intros. unfold LicenseGenerator.generateLicenseKey. rewrite Hnone.
    reflexivity. }
  assert (Hver : forall now key,
            LicenseGenerator.verifyLicenseKey env now key
            = Invalid "Invalid license format").
  { intros. unfold LicenseGenerator.verifyLicenseKey. rewrite Hnone.
    apply verifyEnvelope_no_secret. }
  repeat apply conj; try assumption.
  - intros now req db. unfold LicenseRoutes.verify. rewrite Hver. reflexivity.
  - intros now uuid oid mailOk body db.
    unfold WebhookRoutes.gumroad. rewrite Hgen.
    destruct (negb _); [split; [reflexivity|discriminate]|].
    destruct (Collection.findOne _ db); split; reflexivity || discriminate.
  - intros secret now uuid oid req db.
    unfold AppSumo.appsumo. rewrite Hgen.
    destruct secret; [|split; [reflexivity|discriminate]].
    destruct (negb _); [split; [reflexivity|discriminate]|].
    destruct (negb _); [split; [reflexivity|discriminate]|].
    destruct (Collection.findOne _ db); split; reflexivity || discriminate.
  - intros now uuid oid session db Hmode.
    unfold WebhookRoutes.handleCheckoutCompleted.
    rewrite Hmode, Hgen. reflexivity.
Qed.

End GeneratorFacts.

(** The key of [issuedG], checked a hundred years after it was
    issued. *)
Lemma generator_example :
  issued_licenseData issuedG
  = JObj [("userId", JStr "a@b.c"); ("productId", JStr "prod-1");
          ("uniqueId", JStr "uuid-1");
          ("expirationDate",
           match Some (Date_toISOString (Date_nextYear t0)) with
           | Some d => JStr d
           | None => JNull
           end);
          ("createdAt", JStr (Date_toISOString t0))]
  /\ LicenseGenerator.verifyLicenseKey env0 tFar (issued_licenseKey issuedG)
     = match Some (Date_toISOString (Date_nextYear t0)) with
       | Some d =>
           if negb (String.eqb d "") && past tFar (Some (JStr d))
           then Invalid "License expired"
           else Valid (issued_licenseData issuedG)
       | None => Valid (issued_licenseData issuedG)
       end.
Proof.
  refine (generator_round_trip (node := Node) env0 "a@b.c" "prod-1"
            (Some (Date_toISOString (Date_nextYear t0))) "uuid-1" t0 tFar
            issuedG "s3cret" _ _ _).
  all: vm_compute; reflexivity.
Defined.

(** In [envBare]: nothing is issued, the key of [db0] is refused and
    the sale [sale0] stores nothing. *)
Lemma no_secret_example :
  LicenseGenerator.generateLicenseKey envBare "a@b.c" "prod-1" None "uuid-1" t0
  = None
  /\ LicenseRoutes.verify envBare t0 (reqM None) db0
     = (LicenseRoutes.Rejected 400 "Invalid license format", db0)
  /\ snd (WebhookRoutes.gumroad envBare t0 "uuid-1" 1 true sale0 []) = [].
Proof.
  destruct (no_secret_no_license (node := Node) envBare eq_refl)
    as (Hgen & _ & Hverify & Hgumroad & _).
  split; [apply Hgen|]. split; [apply Hverify|].
  apply (Hgumroad t0 "uuid-1" 1%N true sale0 []).
Defined.

(** ** Licenses from purchases *)

Section PurchaseFacts.
Context {node : NodeRuntime}.
Import LicenseModel.

Lemma insert_found (l : License) (db : list License) :
  acceptable l db = true ->
  Collection.findOne (fun x => String.eqb (licenseKey x) (licenseKey l))
    (Collection.insert l db) = Some l.
Proof.
  unfold acceptable. intro Hok.
  apply andb_prop in Hok as [_ Hnew]. apply negb_true_iff in Hnew.
  apply findOne_insert; [|apply String.eqb_refl].
  unfold Collection.findOne.
  destruct (find _ db) as [x|] eqn:Hx; [|reflexivity].
  apply find_some in Hx as [Hin Hx].
  assert (E : existsb (fun x => String.eqb (licenseKey x) (licenseKey l)) db
              = true).
  { apply existsb_exists. exists x. split; assumption. }
  congruence.
Qed.

Lemma newest_insert (l : License) (db : list License) :
  newest (Collection.insert l db) = l.
Proof. unfold newest, Collection.insert. apply last_last. Qed.

Lemma purchaseKept_refl (l : License) : purchaseKept l l.
Proof. unfold purchaseKept. repeat split. Qed.

Lemma purchaseKept_trans (x y z : License) :
  purchaseKept x y -> purchaseKept y z -> purchaseKept x z.
Proof.
  unfold purchaseKept. intros Hxy Hyz.
  decompose [and] Hxy. decompose [and] Hyz. repeat split; congruence.
Qed.

Lemma routerCall_kept (env : ProcessEnv) (call : RouterCall)
    (db : list License) :
  NoDup (map _id db) ->
  Forall2 purchaseKept db (routerCall env db call)
  /\ map _id (routerCall env db call) = map _id db.
Proof.
  intro Hids.
  assert (Hsame : Forall2 purchaseKept db db)
    by (apply Forall2_same, purchaseKept_refl).
  destruct call as [checked compared req|key m|b secret id]; cbn [routerCall].
  - unfold Readings.routerVerify.
    destruct (LicenseGenerator.verifyLicenseKey env checked _); [|split; auto].
    destruct (Collection.findOne _ db) as [license|] eqn:Hfind; [|split; auto].
    destruct (negb (isActive license)); [split; auto|].
    destruct (lapsed compared license); [split; auto|].
    destruct (LicenseRoutes.body_machineId req) as [machineId|]; [|split; auto].
    destruct (truthy_field (Some machineId) && _); [|split; auto].
    destruct (activations license >=? maxActivations license); [split; auto|].
    cbn [snd]. split; [|apply save_ids].
    eapply save_found_pointwise with (l := license);
      [exact Hids|exact Hfind|reflexivity|apply purchaseKept_refl|].
    unfold purchaseKept. repeat split.
  - unfold LicenseRoutes.deactivate.
    destruct (Collection.findOne _ db) as [license|] eqn:Hfind; [|split; auto].
    cbn [snd]. split; [|apply save_ids].
    eapply save_found_pointwise with (l := license);
      [exact Hids|exact Hfind|reflexivity|apply purchaseKept_refl|].
    unfold purchaseKept. repeat split.
  - unfold AdminRoutes.setLicenseActive.
    destruct (negb (AdminRoutes.adminAuth env secret)); [split; auto|].
    destruct (Collection.findById _id id db) as [license|] eqn:Hfind;
      [|split; auto].
    cbn [snd]. split; [|apply save_ids].
    eapply save_found_pointwise with (l := license);
      [exact Hids|exact Hfind|reflexivity|apply purchaseKept_refl|].
    unfold purchaseKept. repeat split.
Qed.

Lemma routerCalls_kept (env : ProcessEnv) (calls : list RouterCall)
    (db : list License) :
  NoDup (map _id db) ->
  Forall2 purchaseKept db (routerCalls env calls db).
Proof.
  unfold routerCalls. revert db.
  induction calls as [|call rest IH]; intros db Hids; cbn [fold_left].
  - apply Forall2_same, purchaseKept_refl.
  - destruct (routerCall_kept env call db Hids) as [Hstep Hsame].
    eapply (Forall2_chain purchaseKept purchaseKept_trans); [exact Hstep|].
    apply IH. rewrite Hsame. exact Hids.
Qed.

(** After any calls the key of a stored license still finds it, with
    the fields the purchase gave it. *)
Lemma routerCalls_found (env : ProcessEnv) (calls : list RouterCall)
    (db : list License) (key : string) (license : License) :
  NoDup (map _id db) ->
  Collection.findOne (fun l => String.eqb (licenseKey l) key) db
  = Some license ->
  exists current,
    Collection.findOne (fun l => String.eqb (licenseKey l) key)
      (routerCalls env calls db) = Some current
    /\ purchaseKept license current.
Proof.
  intros Hids Hfind.
  apply (findOne_related purchaseKept _ db);
    [|apply routerCalls_kept; exact Hids|exact Hfind].
  intros a b (_ & Hkey & _). rewrite Hkey. reflexivity.
Qed.

(** X11.  An AppSumo deal delivered twice creates one license: when
    the first delivery was answered with success, a later delivery of
    the same deal, whenever it comes, answers [License already exists]
    and writes nothing; the collection holds one license for the deal,
    on the platform [appsumo], with the buyer's address and without an
    expiry. *)
Theorem appsumo_delivery_is_idempotent (env : ProcessEnv)
    (secret : option string) (now now' : Z) (uuid uuid' : string) (oid oid' : N)
    (req : AppSumo.Delivery) (db : list License) :
  let first := AppSumo.appsumo env secret now uuid oid req db in
  let second := AppSumo.appsumo env secret now' uuid' oid' req (snd first) in
  fst first = AppSumo.Success ->
  second = (AppSumo.AlreadyExists, snd first)
  /\ snd first = Collection.insert (newest (snd first)) db
  /\ soldBy (AppSumo.uuid_of req) (snd second) = [newest (snd first)]
  /\ platform (newest (snd first)) = appsumo
  /\ expiresAt (newest (snd first)) = None
  /\ email (newest (snd first)) = AppSumo.email_of req.
Proof.
  intros first second Hfirst.
  unfold first, AppSumo.appsumo in Hfirst.
  destruct secret as [s|] eqn:Hs; [|discriminate].
  destruct (negb (same_field (Some _) (AppSumo.x_appsumo_signature req)))
    eqn:Hsig; [discriminate|].
  destruct (negb (same_field (AppSumo.status req) (Some "active")))
    eqn:Hstatus; [discriminate|].
  destruct (Collection.findOne _ db) eqn:Hnone; [discriminate|].
  destruct (LicenseGenerator.generateLicenseKey env _ _ None uuid now)
    as [issued|] eqn:Hissued; [|discriminate].
  match type of Hfirst with
  | fst (if acceptable ?l db then _ else _) = _ =>
      set (lic := l) in Hfirst;
      destruct (acceptable lic db) eqn:Hok; [|discriminate]
  end.
  clear Hfirst.
  assert (Hrun : first = (AppSumo.Success, Collection.insert lic db)).
  { unfold first, AppSumo.appsumo.
    rewrite Hsig, Hstatus, Hnone, Hissued. fold lic. rewrite Hok. reflexivity. }
  assert (Hfound : Collection.findOne
            (fun l => String.eqb (saleId l) (AppSumo.uuid_of req))
            (Collection.insert lic db) = Some lic).
  { apply findOne_insert; [exact Hnone|]. apply String.eqb_refl. }
  assert (Hsecond : second = (AppSumo.AlreadyExists, Collection.insert lic db)).
  { unfold second. rewrite Hrun. cbn [snd]. unfold AppSumo.appsumo.
    rewrite Hsig, Hstatus, Hfound. reflexivity. }
  rewrite Hsecond, Hrun. cbn [fst snd]. rewrite newest_insert.
  repeat split. apply soldBy_insert; [exact Hnone|reflexivity].
Qed.

(** X12.  A license from an AppSumo deal never expires.  When the
    webhook answered success: the key is valid at every reading of the
    clock.  In every collection where the key finds a record that has
    the fields of the stored one, apart from the bound machine ids, the
    counter and [isActive], [/verify] with that key, whatever its two
    readings of the clock, answers [License is inactive] when the
    record is not active; otherwise it accepts, with no expiry date and
    the buyer's address, a request whose machine id is absent, empty or
    bound, writing nothing; and for a machine id that is not bound it
    binds the id and accepts when the counter is below three, and
    answers [Maximum activations reached], nothing written, when it is
    not.  With ids that are unique the key finds such a record after
    any sequence of [/verify], [/deactivate] and admin switch calls. *)
Theorem appsumo_license_never_expires (env : ProcessEnv)
    (secret : option string) (now : Z) (uuid : string) (oid : N)
    (delivery : AppSumo.Delivery) (db stored : list License) :
  let license := newest stored in
  let byKey := fun l => String.eqb (licenseKey l) (licenseKey license) in
  AppSumo.appsumo env secret now uuid oid delivery db
  = (AppSumo.Success, stored) ->
  (forall s,
     env_LICENSE_SECRET env = Some s ->
     JSON_parse (JSON_stringify (envelope s (licenseData license)))
     = Some (envelope s (licenseData license))) ->
  (forall checked,
     LicenseGenerator.verifyLicenseKey env checked (licenseKey license)
     = Valid (licenseData license))
  /\ (forall later current checked compared req,
        LicenseRoutes.body_licenseKey req = licenseKey license ->
        Collection.findOne byKey later = Some current ->
        purchaseKept license current ->
        Readings.routerVerify env checked compared req later
        = if isActive current
          then
            if truthy_field (LicenseRoutes.body_machineId req)
               && negb (existsb
                          (String.eqb
                             (or_default (LicenseRoutes.body_machineId req) ""))
                          (machineIds current))
            then
              if activations current >=? 3
              then (LicenseRoutes.Rejected 400 "Maximum activations reached",
                    later)
              else (LicenseRoutes.Accepted None (AppSumo.email_of delivery),
                    Collection.save _id
                      (bind (or_default (LicenseRoutes.body_machineId req) "")
                         current) later)
            else (LicenseRoutes.Accepted None (AppSumo.email_of delivery), later)
          else (LicenseRoutes.Rejected 400 "License is inactive", later))
  /\ (NoDup (map _id stored) ->
      forall calls,
        exists current,
          Collection.findOne byKey (routerCalls env calls stored) = Some current
          /\ purchaseKept license current).
Proof.
  intros license byKey Hfirst Hjson.
  unfold byKey, license in *. clear byKey license.
  unfold AppSumo.appsumo in Hfirst.
  destruct secret as [s|]; [|discriminate].
  destruct (negb (same_field (Some _) (AppSumo.x_appsumo_signature delivery)));
    [discriminate|].
  destruct (negb (same_field (AppSumo.status delivery) (Some "active")));
    [discriminate|].
  destruct (Collection.findOne _ db); [discriminate|].
  destruct (LicenseGenerator.generateLicenseKey env _ _ None uuid now)
    as [issued|] eqn:Hissued; [|discriminate].
  match type of Hfirst with
  | (if acceptable ?l db then _ else _) = _ =>
      set (lic := l) in *;
      destruct (acceptable lic db) eqn:Hok; [|discriminate]
  end.
  injection Hfirst as <-. rewrite newest_insert in *.
  assert (Hvalid : forall checked,
            LicenseGenerator.verifyLicenseKey env checked (licenseKey lic)
            = Valid (licenseData lic)).
  { intro checked.
    exact (generator_issues env _ _ None uuid now checked issued Hissued Hjson). }
  split; [exact Hvalid|]. split.
  - intros later current checked compared req Hreq Hfind Hkept.
    unfold Readings.routerVerify. rewrite Hreq, Hvalid, Hfind.
    destruct Hkept as (_ & _ & _ & _ & _ & Hmail & Hmax & _ & Hexp).
    unfold lapsed. rewrite Hexp, Hmail, Hmax.
    cbn [lic newLicense expiresAt email maxActivations].
    destruct (isActive current); cbn [negb]; [|reflexivity].
    destruct (LicenseRoutes.body_machineId req) as [m|]; [|reflexivity].
    cbn [truthy_field or_default].
    destruct (String.eqb m ""); reflexivity.
  - intros Hids calls.
    apply routerCalls_found; [exact Hids|].
    apply (insert_found _ _ Hok).
Qed.

(** X13.  A license from a Gumroad sale runs one year.  When the
    webhook answered success at the time [now], the record expires at
    [now] a year on, and [verifyLicenseKey] refuses the key with
    [License expired] exactly at the readings of the clock that are
    past that instant.  In every collection where the key finds a record
    that has the fields of the stored one, apart from the bound machine
    ids, the counter and [isActive], [/verify] with that key answers
    [License expired] when the clock is past the expiry as the key's
    check reads it; else [License is inactive] when the record is not
    active; else [License has expired] when the clock is past the
    expiry as the record's check reads it; else it accepts, with that
    expiry date and the buyer's address, a request whose machine id is
    absent, empty or bound, writing nothing; and for a machine id that
    is not bound it binds the id and accepts when the counter is below
    three, and answers [Maximum activations reached], nothing written,
    when it is not.  With ids that are unique the key finds such a
    record after any sequence of [/verify], [/deactivate] and admin
    switch calls. *)
Theorem gumroad_license_runs_one_year (env : ProcessEnv) (now : Z)
    (uuid : string) (oid : N) (mailOk : bool) (body : WebhookRoutes.GumroadBody)
    (db stored : list License) :
  let license := newest stored in
  let byKey := fun l => String.eqb (licenseKey l) (licenseKey license) in
  let expiry := Date_nextYear now in
  WebhookRoutes.gumroad env now uuid oid mailOk body db
  = (WebhookRoutes.Success, stored) ->
  (forall s,
     env_LICENSE_SECRET env = Some s ->
     JSON_parse (JSON_stringify (envelope s (licenseData license)))
     = Some (envelope s (licenseData license))) ->
  Date_toISOString expiry <> "" ->
  Date_getTime (JStr (Date_toISOString expiry)) = Some expiry ->
  expiresAt license = Some expiry
  /\ (forall checked,
        LicenseGenerator.verifyLicenseKey env checked (licenseKey license)
        = if checked >? expiry
          then Invalid "License expired"
          else Valid (licenseData license))
  /\ (forall later current checked compared req,
        LicenseRoutes.body_licenseKey req = licenseKey license ->
        Collection.findOne byKey later = Some current ->
        purchaseKept license current ->
        Readings.routerVerify env checked compared req later
        = if checked >? expiry
          then (LicenseRoutes.Rejected 400 "License expired", later)
          else if negb (isActive current)
          then (LicenseRoutes.Rejected 400 "License is inactive", later)
          else if compared >? expiry
          then (LicenseRoutes.Rejected 400 "License has expired", later)
          else
            if truthy_field (LicenseRoutes.body_machineId req)
               && negb (existsb
                          (String.eqb
                             (or_default (LicenseRoutes.body_machineId req) ""))
                          (machineIds current))
            then
              if activations current >=? 3
              then (LicenseRoutes.Rejected 400 "Maximum activations reached",
                    later)
              else (LicenseRoutes.Accepted (Some expiry)
                      (WebhookRoutes.email_of body),
                    Collection.save _id
                      (bind (or_default (LicenseRoutes.body_machineId req) "")
                         current) later)
            else (LicenseRoutes.Accepted (Some expiry)
                    (WebhookRoutes.email_of body), later))
  /\ (NoDup (map _id stored) ->
      forall calls,
        exists current,
          Collection.findOne byKey (routerCalls env calls stored) = Some current
          /\ purchaseKept license current).
Proof.
  intros license byKey expiry Hfirst Hjson Hiso Hdate.
  unfold byKey, license in *. clear byKey license.
  unfold WebhookRoutes.gumroad in Hfirst.
  destruct (negb (same_field (WebhookRoutes.seller_id body) _)); [discriminate|].
  destruct (Collection.findOne _ db); [discriminate|].
  fold expiry in Hfirst.
  destruct (LicenseGenerator.generateLicenseKey env _ _
              (Some (Date_toISOString expiry)) uuid now)
    as [issued|] eqn:Hissued; [|discriminate].
  match type of Hfirst with
  | (if acceptable ?l db then _ else _) = _ =>
      set (lic := l) in *;
      destruct (acceptable lic db) eqn:Hok; [|discriminate]
  end.
  destruct mailOk; [|discriminate].
  injection Hfirst as <-. rewrite newest_insert in *.
  assert (Hkey : forall checked,
            LicenseGenerator.verifyLicenseKey env checked (licenseKey lic)
            = if checked >? expiry
              then Invalid "License expired"
              else Valid (licenseData lic)).
  { intro checked.
    pose proof (generator_issues env _ _ _ uuid now checked issued Hissued Hjson)
      as Hkey.
    cbv beta iota in Hkey.
    apply String.eqb_neq in Hiso. rewrite Hiso in Hkey. cbn [negb andb] in Hkey.
    rewrite (past_spec _ _ _ Hdate) in Hkey. exact Hkey. }
  split; [reflexivity|]. split; [exact Hkey|]. split.
  - intros later current checked compared req Hreq Hfind Hkept.
    unfold Readings.routerVerify. rewrite Hreq, Hkey.
    destruct (checked >? expiry); [reflexivity|].
    rewrite Hfind.
    destruct Hkept as (_ & _ & _ & _ & _ & Hmail & Hmax & _ & Hexp).
    unfold lapsed. rewrite Hexp, Hmail, Hmax.
    cbn [lic newLicense expiresAt email maxActivations].
    destruct (isActive current); cbn [negb]; [|reflexivity].
    destruct (compared >? expiry); [reflexivity|].
    destruct (LicenseRoutes.body_machineId req) as [m|]; [|reflexivity].
    cbn [truthy_field or_default].
    destruct (String.eqb m ""); reflexivity.
  - intros Hids calls.
    apply routerCalls_found; [exact Hids|].
    apply (insert_found _ _ Hok).
Qed.

End PurchaseFacts.

(** The deal [deal-1] delivered twice, a minute apart, to an empty
    collection. *)
Lemma appsumo_twice_example :
  AppSumo.appsumo env0 (Some "sumo") (t0 + 60000) "uuid-2" 2 delivery0
    (snd (AppSumo.appsumo env0 (Some "sumo") t0 "uuid-1" 1 delivery0 []))
  = (AppSumo.AlreadyExists,
     snd (AppSumo.appsumo env0 (Some "sumo") t0 "uuid-1" 1 delivery0 []))
  /\ snd (AppSumo.appsumo env0 (Some "sumo") t0 "uuid-1" 1 delivery0 [])
     = Collection.insert
         (newest (snd (AppSumo.appsumo env0 (Some "sumo") t0 "uuid-1" 1
                         delivery0 []))) []
  /\ soldBy (AppSumo.uuid_of delivery0)
       (snd (AppSumo.appsumo env0 (Some "sumo") (t0 + 60000) "uuid-2" 2
               delivery0
               (snd (AppSumo.appsumo env0 (Some "sumo") t0 "uuid-1" 1
                       delivery0 []))))
     = [newest (snd (AppSumo.appsumo env0 (Some "sumo") t0 "uuid-1" 1
                       delivery0 []))]
  /\ LicenseModel.platform
       (newest (snd (AppSumo.appsumo env0 (Some "sumo") t0 "uuid-1" 1
                       delivery0 [])))
     = LicenseModel.appsumo
  /\ LicenseModel.expiresAt
       (newest (snd (AppSumo.appsumo env0 (Some "sumo") t0 "uuid-1" 1
                       delivery0 [])))
     = None
  /\ LicenseModel.email
       (newest (snd (AppSumo.appsumo env0 (Some "sumo") t0 "uuid-1" 1
                       delivery0 [])))
     = AppSumo.email_of delivery0.
Proof.
  refine (appsumo_delivery_is_idempotent (node := Node) env0 (Some "sumo") t0
            (t0 + 60000) "uuid-1" "uuid-2" 1%N 2%N delivery0 [] _).
  vm_compute. reflexivity.
Defined.

(** The license of the deal [deal-1] a hundred years on.  On [dbD3],
    where three machines are bound: a bound machine and a request
    without a machine are accepted, a fourth machine is refused.  On
    [dbDoff], where the admin switched it off, a bound machine is
    refused.  On [dbD0] a first machine is bound. *)
Lemma appsumo_life_example :
  LicenseGenerator.verifyLicenseKey env0 tFar
    (LicenseModel.licenseKey (newest dbD0))
  = Valid (LicenseModel.licenseData (newest dbD0))
  /\ quotaState dbD3 = [(["m1"; "m2"; "m3"], 3, 3)]
  /\ Readings.routerVerify env0 tFar tFar (reqD (Some "m2")) dbD3
     = (LicenseRoutes.Accepted None "a@b.c", dbD3)
  /\ Readings.routerVerify env0 tFar tFar (reqD None) dbD3
     = (LicenseRoutes.Accepted None "a@b.c", dbD3)
  /\ Readings.routerVerify env0 tFar tFar (reqD (Some "m4")) dbD3
     = (LicenseRoutes.Rejected 400 "Maximum activations reached", dbD3)
  /\ Readings.routerVerify env0 tFar tFar (reqD (Some "m2")) dbDoff
     = (LicenseRoutes.Rejected 400 "License is inactive", dbDoff)
  /\ quotaState
       (snd (Readings.routerVerify env0 tFar tFar (reqD (Some "m1")) dbD0))
     = [(["m1"], 1, 3)]
  /\ exists current,
       Collection.findOne
         (fun l => String.eqb (LicenseModel.licenseKey l)
                     (LicenseModel.licenseKey (newest dbD0))) dbDoff
       = Some current
       /\ purchaseKept (newest dbD0) current.
Proof.
  destruct (appsumo_license_never_expires (node := Node) env0 (Some "sumo") t0
              "uuid-1" 1%N delivery0 [] dbD0)
    as (Hkey & Hstate & Hreach).
  1: vm_compute; reflexivity.
  1: intros s Hs; injection Hs as <-; vm_compute; reflexivity.
  assert (H0 : purchaseKept (newest dbD0) (theLicense dbD0))
    by (unfold purchaseKept; repeat apply conj; vm_compute; reflexivity).
  assert (H3 : purchaseKept (newest dbD0) (theLicense dbD3))
    by (unfold purchaseKept; repeat apply conj; vm_compute; reflexivity).
  assert (Hoff : purchaseKept (newest dbD0) (theLicense dbDoff))
    by (unfold purchaseKept; repeat apply conj; vm_compute; reflexivity).
  split; [apply Hkey|].
  split; [vm_compute; reflexivity|].
  split; [|split; [|split; [|split; [|split]]]].
  - rewrite (Hstate dbD3 (theLicense dbD3) tFar tFar (reqD (Some "m2")));
      [vm_compute; reflexivity|vm_compute; reflexivity
      |vm_compute; reflexivity|exact H3].
  - rewrite (Hstate dbD3 (theLicense dbD3) tFar tFar (reqD None));
      [vm_compute; reflexivity|vm_compute; reflexivity
      |vm_compute; reflexivity|exact H3].
  - rewrite (Hstate dbD3 (theLicense dbD3) tFar tFar (reqD (Some "m4")));
      [vm_compute; reflexivity|vm_compute; reflexivity
      |vm_compute; reflexivity|exact H3].
  - rewrite (Hstate dbDoff (theLicense dbDoff) tFar tFar (reqD (Some "m2")));
      [vm_compute; reflexivity|vm_compute; reflexivity
      |vm_compute; reflexivity|exact Hoff].
  - rewrite (Hstate dbD0 (theLicense dbD0) tFar tFar (reqD (Some "m1")));
      [vm_compute; reflexivity|vm_compute; reflexivity
      |vm_compute; reflexivity|exact H0].
  - apply (Hreach ltac:(vm_compute; repeat constructor; intros [])
             [RouterVerify t0 t0 (reqD (Some "m1"));
              RouterVerify t0 t0 (reqD (Some "m2"));
              RouterVerify t0 t0 (reqD (Some "m3"));
              RouterSwitch false (Some "admin") 1]).
Defined.

(** The license of [db0].  A minute after the sale on [db3], where
    three machines are bound: a bound machine is accepted, a fourth is
    refused; on [db3off], where the admin switched it off, a bound
    machine is refused.  With the clock passing the expiry between the
    two checks the answer is [License has expired], and a hundred years
    on it is [License expired]. *)
Lemma gumroad_year_example :
  LicenseModel.expiresAt (newest db0) = Some (Date_nextYear t0)
  /\ LicenseGenerator.verifyLicenseKey env0 tFar
       (LicenseModel.licenseKey (newest db0))
     = Invalid "License expired"
  /\ Readings.routerVerify env0 (t0 + 60000) (t0 + 60000) (reqG (Some "m2")) db3
     = (LicenseRoutes.Accepted (Some (Date_nextYear t0)) "a@b.c", db3)
  /\ Readings.routerVerify env0 (t0 + 60000) (t0 + 60000) (reqG (Some "m4")) db3
     = (LicenseRoutes.Rejected 400 "Maximum activations reached", db3)
  /\ Readings.routerVerify env0 (t0 + 60000) (t0 + 60000) (reqG (Some "m2"))
       db3off
     = (LicenseRoutes.Rejected 400 "License is inactive", db3off)
  /\ Readings.routerVerify env0 (Date_nextYear t0) (Date_nextYear t0 + 1)
       (reqG (Some "m2")) db3
     = (LicenseRoutes.Rejected 400 "License has expired", db3)
  /\ Readings.routerVerify env0 tFar tFar (reqG (Some "m2")) db3
     = (LicenseRoutes.Rejected 400 "License expired", db3)
  /\ exists current,
       Collection.findOne
         (fun l => String.eqb (LicenseModel.licenseKey l)
                     (LicenseModel.licenseKey (newest db0))) db3off
       = Some current
       /\ purchaseKept (newest db0) current.
Proof.
  destruct (gumroad_license_runs_one_year (node := Node) env0 t0 "uuid-1" 1%N
              true sale0 [] db0)
    as (Hexp & Hkey & Hstate & Hreach).
  1: vm_compute; reflexivity.
  1: intros s Hs; injection Hs as <-; vm_compute; reflexivity.
  1: vm_compute; discriminate.
  1: vm_compute; reflexivity.
  assert (H3 : purchaseKept (newest db0) (theLicense db3))
    by (unfold purchaseKept; repeat apply conj; vm_compute; reflexivity).
  assert (Hoff : purchaseKept (newest db0) (theLicense db3off))
    by (unfold purchaseKept; repeat apply conj; vm_compute; reflexivity).
  split; [exact Hexp|].
  split; [rewrite Hkey; vm_compute; reflexivity|].
  split; [|split; [|split; [|split; [|split]]]].
  - rewrite (Hstate db3 (theLicense db3) (t0 + 60000) (t0 + 60000)
               (reqG (Some "m2")));
      [vm_compute; reflexivity|vm_compute; reflexivity
      |vm_compute; reflexivity|exact H3].
  - rewrite (Hstate db3 (theLicense db3) (t0 + 60000) (t0 + 60000)
               (reqG (Some "m4")));
      [vm_compute; reflexivity|vm_compute; reflexivity
      |vm_compute; reflexivity|exact H3].
  - rewrite (Hstate db3off (theLicense db3off) (t0 + 60000) (t0 + 60000)
               (reqG (Some "m2")));
      [vm_compute; reflexivity|vm_compute; reflexivity
      |vm_compute; reflexivity|exact Hoff].
  - rewrite (Hstate db3 (theLicense db3) (Date_nextYear t0)
               (Date_nextYear t0 + 1) (reqG (Some "m2")));
      [vm_compute; reflexivity|vm_compute; reflexivity
      |vm_compute; reflexivity|exact H3].
  - rewrite (Hstate db3 (theLicense db3) tFar tFar (reqG (Some "m2")));
      [vm_compute; reflexivity|vm_compute; reflexivity
      |vm_compute; reflexivity|exact H3].
  - apply (Hreach ltac:(vm_compute; repeat constructor; intros [])
             [RouterVerify t0 t0 (reqG (Some "m1"));
              RouterVerify t0 t0 (reqG (Some "m2"));
              RouterVerify t0 t0 (reqG (Some "m3"));
              RouterSwitch false (Some "admin") 1]).
Defined.

(** ** Watermarks *)

Section TextFacts.
Import Watermarking.

Lemma append_nil_r (s : string) : s ++ "" = s.
Proof. induction s as [|c s IH]; cbn; [reflexivity|rewrite IH; reflexivity]. Qed.

Lemma append_assoc (a b c : string) : (a ++ b) ++ c = a ++ b ++ c.
Proof. induction a as [|x a IH]; cbn; [reflexivity|rewrite IH; reflexivity]. Qed.

Lemma length_append (a b : string) :
  String.length (a ++ b) = (String.length a + String.length b)%nat.
Proof. induction a as [|x a IH]; cbn; [reflexivity|rewrite IH; reflexivity]. Qed.

Lemma prefix_append (p r : string) : String.prefix p (p ++ r) = true.
Proof.
  induction p as [|c p IH]; cbn; [destruct r; reflexivity|].
  destruct (ascii_dec c c) as [_|N]; [exact IH|contradiction].
Qed.

Lemma prefix_split (p s : string) :
  String.prefix p s = true -> s = p ++ skip (String.length p) s.
Proof.
  revert s. induction p as [|c p IH]; intros [|d s] H; cbn in *;
    try reflexivity; try discriminate.
  destruct (ascii_dec c d) as [->|_]; [|discriminate].
  f_equal. apply IH. exact H.
Qed.

Lemma skip_append (p r : string) : skip (String.length p) (p ++ r) = r.
Proof. induction p as [|c p IH]; cbn; [reflexivity|exact IH]. Qed.

Lemma search_sound (pat s before after : string) :
  search pat s = Some (before, after) -> s = before ++ pat ++ after.
Proof.
  revert before. induction s as [|c s IH]; intros before; cbn [search].
  - destruct (String.prefix pat "") eqn:Hp; [|discriminate].
    intro H. injection H as <- <-. cbn [append]. apply prefix_split. exact Hp.
  - destruct (String.prefix pat (String c s)) eqn:Hp.
    + intro H. injection H as <- <-. cbn [append]. apply prefix_split. exact Hp.
    + destruct (search pat s) as [[b a]|]; [|discriminate].
      intro H. injection H as <- <-. cbn [append]. f_equal. apply IH. reflexivity.
Qed.

Lemma search_least (pat s before after : string) :
  search pat s = Some (before, after) ->
  forall b a, s = b ++ pat ++ a -> (String.length before <= String.length b)%nat.
Proof.
  revert before. induction s as [|c s IH]; intros before; cbn [search].
  - destruct (String.prefix pat ""); [|discriminate].
    intro H. injection H as <- <-. intros. cbn. lia.
  - destruct (String.prefix pat (String c s)) eqn:Hp.
    + intro H. injection H as <- <-. intros. cbn. lia.
    + destruct (search pat s) as [[b0 a0]|] eqn:Hs; [|discriminate].
      intro H. injection H as <- <-. intros b a Hocc.
      destruct b as [|d b]; cbn [append] in Hocc.
      * rewrite Hocc, prefix_append in Hp. discriminate.
      * injection Hocc as _ Hocc. cbn [String.length].
        apply le_n_S. exact (IH b0 eq_refl b a Hocc).
Qed.

Lemma search_complete (pat b a : string) :
  exists before after, search pat (b ++ pat ++ a) = Some (before, after).
Proof.
  induction b as [|c b IH]; cbn [append].
  - destruct (pat ++ a) eqn:E; cbn [search]; rewrite <- E, prefix_append;
      eauto.
  - cbn [search]. destruct (String.prefix pat (String c (b ++ pat ++ a)));
      [eauto|].
    destruct IH as (before & after & ->). eauto.
Qed.

Lemma append_same_length (a b x y : string) :
  a ++ x = b ++ y -> String.length a = String.length b -> a = b /\ x = y.
Proof.
  revert b. induction a as [|c a IH]; intros [|d b]; cbn; try discriminate.
  - auto.
  - intros H L. injection H as -> H. injection L as L.
    destruct (IH b H L) as [-> ->]. auto.
Qed.

Lemma append_cancel (p x y : string) : p ++ x = p ++ y -> x = y.
Proof. induction p as [|c p IH]; cbn; [auto|]. intro H. injection H as H. auto. Qed.

(** [search] finds the first occurrence, and only that. *)
Lemma search_first (pat s before after : string) :
  firstOccurrence pat s before after -> search pat s = Some (before, after).
Proof.
  intros [Hs Hleast].
  destruct (search_complete pat before after) as (b0 & a0 & Hfound).
  rewrite <- Hs in Hfound.
  pose proof (search_sound _ _ _ _ Hfound) as Hs0.
  pose proof (search_least _ _ _ _ Hfound _ _ Hs) as Hle.
  pose proof (Hleast _ _ Hs0) as Hge.
  rewrite Hs in Hs0.
  destruct (append_same_length before b0 _ _ Hs0) as [<- Htail]; [lia|].
  apply append_cancel in Htail. subst a0. exact Hfound.
Qed.

Lemma search_absent (pat s : string) :
  ~ occurs pat s -> search pat s = None.
Proof.
  intro Hno. destruct (search pat s) as [[b a]|] eqn:Hs; [|reflexivity].
  exfalso. apply Hno. exists b, a. exact (search_sound _ _ _ _ Hs).
Qed.

Lemma search_found (pat s before after : string) :
  search pat s = Some (before, after) -> firstOccurrence pat s before after.
Proof.
  intro H. split; [exact (search_sound _ _ _ _ H)|exact (search_least _ _ _ _ H)].
Qed.

Lemma search_none (pat s : string) :
  search pat s = None -> ~ occurs pat s.
Proof.
  intros H (b & a & ->).
  destruct (search_complete pat b a) as (b0 & a0 & E). congruence.
Qed.

Lemma dollarFree_append (a b : string) :
  dollarFree (a ++ b) = dollarFree a && dollarFree b.
Proof.
  induction a as [|c a IH]; cbn [append dollarFree]; [reflexivity|].
  rewrite IH, andb_assoc. reflexivity.
Qed.

(** A replacement text without a dollar sign stands for itself. *)
Lemma substitute_plain (matched before after template : string) :
  dollarFree template = true ->
  substitute matched before after template = template.
Proof.
  induction template as [|c rest IH]; cbn [dollarFree substitute];
    [reflexivity|].
  intro H. apply andb_prop in H as [Hc Hrest].
  apply negb_true_iff in Hc. rewrite Hc, (IH Hrest). reflexivity.
Qed.

Lemma get_in (k : nat) (s : string) (c : ascii) :
  String.get k s = Some c -> In c (list_ascii_of_string s).
Proof.
  revert k. induction s as [|d s IH]; intros [|k]; cbn; try discriminate.
  - intro H. injection H as ->. now left.
  - intro H. right. exact (IH _ H).
Qed.

Lemma digit_plain (n : N) : Ascii.eqb (Base64.digit n) "$" = false.
Proof.
  unfold Base64.digit.
  destruct (String.get (N.to_nat n) Base64.alphabet) as [c|] eqn:E;
    [|reflexivity].
  apply get_in in E.
  assert (Hall : forallb (fun c => negb (Ascii.eqb c "$"))
                   (list_ascii_of_string Base64.alphabet) = true)
    by (vm_compute; reflexivity).
  rewrite forallb_forall in Hall. apply negb_true_iff. exact (Hall c E).
Qed.

(** A base64 text holds no dollar sign. *)
Lemma encode_plain (s : string) : dollarFree (Base64.encode s) = true.
Proof.
  induction s as [|a|a b|a b c rest IH] using Base64Facts.string_ind3;
    cbn [Base64.encode dollarFree];
    rewrite ?digit_plain; cbn [negb andb]; try reflexivity.
  exact IH.
Qed.

(** X16.  A text without the closing tags is not watermarked:
    without [</body>] the text watermark changes nothing, without
    [</head>] the visual one changes nothing, and without both the
    document comes back as it was. *)
Theorem watermark_needs_the_closing_tags (html licenseKey : string) :
  (~ occurs "</body>" html -> addTextWatermark html licenseKey = html)
  /\ (~ occurs "</head>" html -> addVisualWatermark html = html)
  /\ (~ occurs "</body>" html -> ~ occurs "</head>" html ->
      watermarkDocument html licenseKey = html).
Proof.
  assert (Hb : ~ occurs "</body>" html -> addTextWatermark html licenseKey = html).
  { intro H. unfold addTextWatermark, replace. rewrite (search_absent _ _ H).
    reflexivity. }
  assert (Hh : ~ occurs "</head>" html -> addVisualWatermark html = html).
  { intro H. unfold addVisualWatermark, replace. rewrite (search_absent _ _ H).
    reflexivity. }
  repeat split; try assumption.
  intros H1 H2. unfold watermarkDocument. rewrite (Hb H1). exact (Hh H2).
Qed.

Lemma text_watermark_plain (html licenseKey before after : string) :
  dollarFree licenseKey = true ->
  firstOccurrence "</body>" html before after ->
  addTextWatermark html licenseKey
  = before ++ watermarkText licenseKey ++ "</body>" ++ after.
Proof.
  intros Hkey Hfirst. unfold addTextWatermark, replace.
  rewrite (search_first _ _ _ _ Hfirst).
  rewrite substitute_plain.
  - rewrite !append_assoc. reflexivity.
  - unfold watermarkText. rewrite !dollarFree_append, Hkey. reflexivity.
Qed.

(** X17.  The text watermark of an issued key.  A key that
    [generateLicenseKey] issued is base64 and holds no dollar sign, so
    [replace] inserts the comment with the key as it is, right before
    the first [</body>] and nowhere else. *)
Theorem text_watermark_carries_the_issued_key {node : NodeRuntime}
    (env : ProcessEnv) (data : object) (now : Z)
    (rnd html before after : string) :
  let licenseKey :=
    issued_licenseKey (LicenseUtil.generateLicenseKey env data now rnd) in
  firstOccurrence "</body>" html before after ->
  addTextWatermark html licenseKey
  = before ++ "<!-- Created with AI Resume Generator | License: "
    ++ licenseKey ++ " -->" ++ "</body>" ++ after.
Proof.
  intros licenseKey Hfirst.
  rewrite (text_watermark_plain html licenseKey before after);
    [|apply encode_plain|exact Hfirst].
  unfold watermarkText. rewrite !append_assoc. reflexivity.
Qed.

Lemma append_prefix (p x q y : string) :
  p ++ x = q ++ y -> (String.length q <= String.length p)%nat ->
  exists r, p = q ++ r.
Proof.
  revert p. induction q as [|d q IH]; intros p H L; cbn [append] in *.
  - exists p. reflexivity.
  - destruct p as [|c p]; cbn [String.length append] in *; [lia|].
    injection H as -> H. destruct (IH p H) as [r ->]; [lia|].
    exists r. reflexivity.
Qed.

(** X18.  The two watermarks of a document.  When the first
    [</head>] comes before the first [</body>] and the key holds no
    dollar sign, [watermarkDocument] puts the style block right before
    that [</head>] and the comment with the key right before that
    [</body>]; everything else stays. *)
Theorem watermark_of_a_document (head middle tail licenseKey : string) :
  let html := head ++ "</head>" ++ middle ++ "</body>" ++ tail in
  firstOccurrence "</head>" html head (middle ++ "</body>" ++ tail) ->
  firstOccurrence "</body>" html (head ++ "</head>" ++ middle) tail ->
  dollarFree licenseKey = true ->
  watermarkDocument html licenseKey
  = head ++ watermarkStyle ++ "</head>" ++ middle
    ++ watermarkText licenseKey ++ "</body>" ++ tail.
Proof.
  intros html Hhead Hbody Hkey. unfold watermarkDocument.
  rewrite (text_watermark_plain html licenseKey _ _ Hkey Hbody).
  unfold addVisualWatermark, replace.
  rewrite (search_first "</head>" _ head
             (middle ++ watermarkText licenseKey ++ "</body>" ++ tail)).
  - rewrite substitute_plain by (vm_compute; reflexivity).
    rewrite !append_assoc. reflexivity.
  - split; [rewrite !append_assoc; reflexivity|].
    intros b a Hocc.
    destruct (Nat.le_gt_cases (String.length head) (String.length b))
      as [Hle|Hlt]; [exact Hle|exfalso].
    rewrite !append_assoc in Hocc.
    replace (head ++ "</head>" ++ middle ++ watermarkText licenseKey
               ++ "</body>" ++ tail)
      with ((head ++ "</head>")
              ++ middle ++ watermarkText licenseKey ++ "</body>" ++ tail)
      in Hocc by (rewrite !append_assoc; reflexivity).
    replace (b ++ "</head>" ++ a) with ((b ++ "</head>") ++ a) in Hocc
      by (rewrite !append_assoc; reflexivity).
    destruct (append_prefix _ _ _ _ Hocc) as [r Hr].
    { rewrite !length_append. cbn [String.length]. lia. }
    destruct Hhead as [_ Hleast].
    assert (Hin : html = b ++ "</head>" ++ r ++ middle ++ "</body>" ++ tail).
    { unfold html.
      replace (head ++ "</head>" ++ middle ++ "</body>" ++ tail)
        with ((head ++ "</head>") ++ middle ++ "</body>" ++ tail)
        by (rewrite !append_assoc; reflexivity).
      rewrite Hr, !append_assoc. reflexivity. }
    pose proof (Hleast _ _ Hin). lia.
Qed.

End TextFacts.

(** [fragment0] comes back as it was. *)
Lemma fragment_example :
  Watermarking.addTextWatermark fragment0 "abc" = fragment0
  /\ Watermarking.addVisualWatermark fragment0 = fragment0
  /\ Watermarking.watermarkDocument fragment0 "abc" = fragment0.
Proof.
  assert (Hb : ~ occurs "</body>" fragment0)
    by (apply search_none; vm_compute; reflexivity).
  assert (Hh : ~ occurs "</head>" fragment0)
    by (apply search_none; vm_compute; reflexivity).
  destruct (watermark_needs_the_closing_tags fragment0 "abc") as (H1 & H2 & H3).
  split; [exact (H1 Hb)|]. split; [exact (H2 Hh)|exact (H3 Hb Hh)].
Defined.

(** The text watermark of [page0] with an issued key. *)
Lemma text_watermark_example :
  let licenseKey :=
    issued_licenseKey (LicenseUtil.generateLicenseKey env0 [("email", JStr "ab")]
                         t0 rnd0) in
  Watermarking.addTextWatermark page0 licenseKey
  = "<html><head><title>CV</title></head><body><p>Ann</p>"
    ++ "<!-- Created with AI Resume Generator | License: "
    ++ licenseKey ++ " -->" ++ "</body>" ++ "</html>".
Proof.
  refine (text_watermark_carries_the_issued_key (node := Node) env0
            [("email", JStr "ab")] t0 rnd0 page0
            "<html><head><title>CV</title></head><body><p>Ann</p>" "</html>" _).
  apply search_found. vm_compute. reflexivity.
Defined.

(** The two watermarks of [page0]. *)
Lemma document_watermark_example :
  let html :=
    "<html><head><title>CV</title>" ++ "</head>" ++ "<body><p>Ann</p>"
    ++ "</body>" ++ "</html>" in
  Watermarking.watermarkDocument html "abc"
  = "<html><head><title>CV</title>" ++ Watermarking.watermarkStyle ++ "</head>"
    ++ "<body><p>Ann</p>" ++ Watermarking.watermarkText "abc" ++ "</body>"
    ++ "</html>".
Proof.
  refine (watermark_of_a_document "<html><head><title>CV</title>"
            "<body><p>Ann</p>" "</html>" "abc" _ _ _).
  - apply search_found. vm_compute. reflexivity.
  - apply search_found. vm_compute. reflexivity.
  - reflexivity.
Defined.

(** ** The database address in the log *)

Section MaskFacts.
Import MongoLog.

Lemma run_plain (pw rest : string) (d : ascii) :
  without delimiter pw = true -> delimiter d = true ->
  run (pw ++ String d rest) = (pw, String d rest).
Proof.
  intros Hpw Hd. induction pw as [|c pw IH]; cbn [append run without] in *.
  - rewrite Hd. reflexivity.
  - apply andb_prop in Hpw as [Hc Hrest]. apply negb_true_iff in Hc.
    rewrite Hc, (IH Hrest). reflexivity.
Qed.

(** Before the first [@], a colon that is not the last one is followed
    by a run that ends at a colon: no match starts there. *)
Lemma no_match_before (pre rest : string) :
  without (fun c => Ascii.eqb c "@") pre = true ->
  exists r t, run (pre ++ String ":" rest) = (r, String ":" t).
Proof.
  intro Hpre. induction pre as [|c pre IH]; cbn [append run without] in *.
  - cbn. eauto.
  - apply andb_prop in Hpre as [Hc Hrest]. apply negb_true_iff in Hc.
    unfold delimiter at 1. rewrite Hc, orb_false_r.
    destruct (Ascii.eqb_spec c ":") as [->|_]; [eauto|].
    destruct (IH Hrest) as (r & t & ->). eauto.
Qed.

Lemma mask_at_colon (pw rest : string) :
  pw <> "" -> without delimiter pw = true ->
  maskCredentials (String ":" (pw ++ String "@" rest)) = ":***@" ++ rest.
Proof.
  intros Hne Hpw.
  assert (Hm : matchHere (String ":" (pw ++ String "@" rest)) = Some rest).
  { cbn [matchHere]. rewrite Ascii.eqb_refl, (run_plain pw rest "@" Hpw eq_refl).
    destruct pw; [contradiction|]. reflexivity. }
  cbn [maskCredentials]. rewrite Hm. reflexivity.
Qed.

(** X19.  What the log hides of the database address.  The part
    between the last colon before the first [@] and that [@] is
    replaced by three asterisks when it is not empty; the rest of the
    address stays, also an earlier part of a password that holds a
    colon. *)
Theorem mask_hides_what_follows_the_last_colon (pre pw rest : string) :
  without (fun c => Ascii.eqb c "@") pre = true ->
  pw <> "" ->
  without delimiter pw = true ->
  maskCredentials (pre ++ ":" ++ pw ++ "@" ++ rest) = pre ++ ":***@" ++ rest.
Proof.
  intros Hpre Hne Hpw. cbn [append].
  induction pre as [|c pre IH]; cbn [append without] in *.
  - apply mask_at_colon; assumption.
  - apply andb_prop in Hpre as [Hc Hrest]. apply negb_true_iff in Hc.
    assert (Hm : matchHere (String c (pre ++ String ":" (pw ++ String "@" rest)))
                 = None).
    { cbn [matchHere]. destruct (Ascii.eqb c ":"); [|reflexivity].
      destruct (no_match_before pre (pw ++ String "@" rest) Hrest)
        as (r & t & ->).
      destruct r; reflexivity. }
    cbn [maskCredentials]. rewrite Hm. f_equal. exact (IH Hrest).
Qed.

Lemma run_without_at (s : string) :
  without (fun c => Ascii.eqb c "@") s = true ->
  forall d t, snd (run s) = String d t -> Ascii.eqb d "@" = false.
Proof.
  induction s as [|c s IH]; cbn [run without]; intros Hs d t.
  - cbn. discriminate.
  - apply andb_prop in Hs as [Hc Hrest]. apply negb_true_iff in Hc.
    destruct (delimiter c).
    + cbn [snd]. intro H. injection H as <- _. exact Hc.
    + destruct (run s) as [r u] eqn:E. cbn [snd] in *. apply (IH Hrest).
Qed.

(** X20.  An address without an [@], so without credentials, is
    logged as it is. *)
Theorem mask_leaves_an_address_without_credentials (uri : string) :
  without (fun c => Ascii.eqb c "@") uri = true ->
  maskCredentials uri = uri.
Proof.
  induction uri as [|c uri IH]; cbn [without]; intro Hs; [reflexivity|].
  apply andb_prop in Hs as [Hc Hrest].
  assert (Hm : matchHere (String c uri) = None).
  { cbn [matchHere]. destruct (Ascii.eqb c ":"); [|reflexivity].
    pose proof (run_without_at uri Hrest) as Hrun.
    destruct (run uri) as [[|x r] [|d t]]; try reflexivity.
    cbn [snd] in Hrun. rewrite (Hrun d t eq_refl). reflexivity. }
  cbn [maskCredentials]. rewrite Hm. f_equal. exact (IH Hrest).
Qed.

End MaskFacts.

(** An address with a user and a password. *)
Lemma mask_example :
  MongoLog.maskCredentials
    ("mongodb+srv://ann" ++ ":" ++ "s3cret" ++ "@" ++ "db.example.com:27017/cv")
  = "mongodb+srv://ann" ++ ":***@" ++ "db.example.com:27017/cv".
Proof.
  refine (mask_hides_what_follows_the_last_colon "mongodb+srv://ann" "s3cret"
            "db.example.com:27017/cv" _ _ _).
  - reflexivity.
  - discriminate.
  - reflexivity.
Defined.

(** The default address of the configuration. *)
Lemma mask_local_example :
  MongoLog.maskCredentials "mongodb://localhost:27017/ai-resume-generator"
  = "mongodb://localhost:27017/ai-resume-generator".
Proof.
  refine (mask_leaves_an_address_without_credentials
            "mongodb://localhost:27017/ai-resume-generator" _).
  reflexivity.
Defined.

Section MoreStoreFacts.
Context {Doc : Type} (id_of : Doc -> N).

(** Saving the same document again changes nothing. *)
Lemma save_twice (d : Doc) (db : list Doc) :
  Collection.save id_of d (Collection.save id_of d db)
  = Collection.save id_of d db.
Proof.
  unfold Collection.save.
  induction db as [|x rest IH]; cbn [Collection.updateOne]; [reflexivity|].
  destruct (N.eqb (id_of x) (id_of d)) eqn:E; cbn [Collection.updateOne].
  - rewrite N.eqb_refl. reflexivity.
  - rewrite E, IH. reflexivity.
Qed.

End MoreStoreFacts.

(** ** Accounts *)

Section AuthFacts.
Context {node : NodeRuntime}.
Import UserModel AuthRoutes.
Variable castAddress : string -> string.
Variable castQuery : string -> string.
Variable bcrypt_hash : string -> string -> string.
Variable bcrypt_compare : string -> string -> bool.
Variable jwt_sign : N -> Z -> option string.

(** X21.  No account without a valid key.  When the verifier refuses
    the license key, [/register] stores no user: it answers
    [User already exists] or [Invalid license key] with the verifier's
    reason.  When it refuses the key of the stored user, [/login]
    writes nothing and issues no token: it answers
    [Invalid credentials] or [License is invalid] with that reason. *)
Theorem no_account_without_a_valid_key (env : ProcessEnv) (now : Z)
    (reason : string) :
  (forall salt oid body db,
     LicenseGenerator.verifyLicenseKey env now (register_licenseKey body)
     = Invalid reason ->
     snd (AuthRoutes.register castAddress castQuery bcrypt_hash env now salt oid body db) = db
     /\ (fst (AuthRoutes.register castAddress castQuery bcrypt_hash env now salt oid body db) = UserExists
         \/ fst (AuthRoutes.register castAddress castQuery bcrypt_hash env now salt oid body db) = InvalidKey reason))
  /\ (forall body db user,
        Collection.findOne (byAddress castQuery (login_email body)) db
        = Some user ->
        LicenseGenerator.verifyLicenseKey env now (licenseKey user)
        = Invalid reason ->
        snd (AuthRoutes.login castQuery bcrypt_compare jwt_sign env now body db) = db
        /\ (fst (AuthRoutes.login castQuery bcrypt_compare jwt_sign env now body db) = InvalidCredentials
            \/ fst (AuthRoutes.login castQuery bcrypt_compare jwt_sign env now body db) = LicenseInvalid reason)).
Proof.
  split.
  - intros salt oid body db Hkey. unfold AuthRoutes.register.
    destruct (Collection.findOne _ db); [auto|].
    rewrite Hkey. auto.
  - intros body db user Hfind Hkey. unfold AuthRoutes.login.
    rewrite Hfind. destruct (negb _); [auto|].
    rewrite Hkey. auto.
Qed.

(** X22.  Register, then log in.  After a registration that was
    answered with success, a login with the same address and password
    at a time when the key is still valid gets the token [jwt.sign]
    made, the id and the stored address (or fails when signing throws),
    and in both cases the user's last login is that time.  This needs
    the query to look for the address as it was stored and [compare]
    to accept the digest [hash] made. *)
Theorem register_then_login (env : ProcessEnv) (now now' : Z)
    (salt : string) (oid : N) (body : RegisterBody) (db : list User)
    (data : json) :
  let stored := snd (AuthRoutes.register castAddress castQuery bcrypt_hash env now salt oid body db) in
  let credentials :=
    {| login_email := register_email body;
       login_password := register_password body |} in
  fst (AuthRoutes.register castAddress castQuery bcrypt_hash env now salt oid body db) = Registered ->
  castQuery (register_email body) = castAddress (register_email body) ->
  bcrypt_compare (register_password body)
    (bcrypt_hash (register_password body) salt) = true ->
  LicenseGenerator.verifyLicenseKey env now' (register_licenseKey body)
  = Valid data ->
  fst (AuthRoutes.login castQuery bcrypt_compare jwt_sign env now' credentials stored)
  = match jwt_sign oid now' with
    | Some token =>
        LoggedIn token oid (castAddress (register_email body)) None
    | None => LoginFailed
    end
  /\ option_map lastLogin
       (Collection.findOne (byAddress castQuery (register_email body))
          (snd (AuthRoutes.login castQuery bcrypt_compare jwt_sign env now' credentials stored)))
     = Some (Some now').
Proof.
  intros stored credentials Hreg Hcast Hhash Hkey.
  unfold stored in *. unfold AuthRoutes.register in *.
  destruct (Collection.findOne _ db) eqn:Hnone; [discriminate|].
  destruct (LicenseGenerator.verifyLicenseKey env now _); [|discriminate].
  match type of Hreg with
  | fst (if acceptable ?u db then _ else _) = _ =>
      set (user := u) in *;
      destruct (acceptable user db) eqn:Hok; [|discriminate]
  end.
  cbn [snd]. clear Hreg.
  assert (Hmine : byAddress castQuery (register_email body) user = true).
  { unfold byAddress. cbn [user email]. rewrite Hcast. apply String.eqb_refl. }
  assert (Hfound : Collection.findOne
                     (byAddress castQuery (register_email body))
                     (Collection.insert user db) = Some user).
  { apply findOne_insert; assumption. }
  assert (Hsaved : Collection.findOne
                     (byAddress castQuery (register_email body))
                     (Collection.save _id (setLastLogin now' user)
                        (Collection.insert user db))
                   = Some (setLastLogin now' user)).
  { apply (findOne_save _id _ _ user); [exact Hfound|reflexivity|exact Hmine]. }
  unfold AuthRoutes.login. cbn [credentials login_email login_password].
  rewrite Hfound.
  change (password user) with (bcrypt_hash (register_password body) salt).
  rewrite Hhash.
  change (licenseKey user) with (register_licenseKey body).
  rewrite Hkey. cbn [negb].
  change (_id user) with oid.
  destruct (jwt_sign oid now'); cbn [fst snd]; rewrite Hsaved;
    split; reflexivity.
Qed.

End AuthFacts.

(** A registration with a text that is no key, and a login a hundred
    years after [signup0] registered, when the key has expired. *)
Lemma no_account_example :
  (snd (AuthRoutes.register identity identity plainHash env0 t0 "salt" 1
          signupBad []) = []
   /\ (fst (AuthRoutes.register identity identity plainHash env0 t0 "salt" 1
              signupBad []) = AuthRoutes.UserExists
       \/ fst (AuthRoutes.register identity identity plainHash env0 t0 "salt" 1
                 signupBad [])
          = AuthRoutes.InvalidKey "Invalid license format"))
  /\ (snd (AuthRoutes.login identity plainCompare plainSign env0 tFar login0
             users0) = users0
      /\ (fst (AuthRoutes.login identity plainCompare plainSign env0 tFar login0
                 users0) = AuthRoutes.InvalidCredentials
          \/ fst (AuthRoutes.login identity plainCompare plainSign env0 tFar
                    login0 users0)
             = AuthRoutes.LicenseInvalid "License expired")).
Proof.
  split.
  - destruct (no_account_without_a_valid_key (node := Node) identity identity
                plainHash plainCompare plainSign env0 t0
                "Invalid license format") as [Hregister _].
    apply Hregister. vm_compute. reflexivity.
  - destruct (no_account_without_a_valid_key (node := Node) identity identity
                plainHash plainCompare plainSign env0 tFar
                "License expired") as [_ Hlogin].
    apply (Hlogin login0 users0 (theUser users0)); vm_compute; reflexivity.
Defined.

(** [signup0] registers at [t0] and logs in a minute later. *)
Lemma register_then_login_example :
  fst (AuthRoutes.login identity plainCompare plainSign env0 (t0 + 60000)
         {| AuthRoutes.login_email := AuthRoutes.register_email signup0;
            AuthRoutes.login_password := AuthRoutes.register_password signup0 |}
         (snd (AuthRoutes.register identity identity plainHash env0 t0 "salt" 1
                 signup0 [])))
  = match plainSign 1 (t0 + 60000) with
    | Some token =>
        AuthRoutes.LoggedIn token 1
          (identity (AuthRoutes.register_email signup0)) None
    | None => AuthRoutes.LoginFailed
    end
  /\ option_map UserModel.lastLogin
       (Collection.findOne
          (AuthRoutes.byAddress identity (AuthRoutes.register_email signup0))
          (snd (AuthRoutes.login identity plainCompare plainSign env0
                  (t0 + 60000)
                  {| AuthRoutes.login_email := AuthRoutes.register_email signup0;
                     AuthRoutes.login_password :=
                       AuthRoutes.register_password signup0 |}
                  (snd (AuthRoutes.register identity identity plainHash env0 t0
                          "salt" 1 signup0 [])))))
     = Some (Some (t0 + 60000)).
Proof.
  refine (register_then_login (node := Node) identity identity plainHash
            plainCompare plainSign env0 t0 (t0 + 60000) "salt" 1%N signup0 []
            (LicenseModel.licenseData (theLicense db0)) _ _ _ _).
  all: vm_compute; reflexivity.
Defined.

(** ** Stripe events *)

Section StripeFacts.
Context {node : NodeRuntime}.
Import UserModel StripeWebhook.

Lemma subscription_change_twice (s : SubscriptionObject) (users : list User) :
  handleSubscriptionChange s (handleSubscriptionChange s users)
  = handleSubscriptionChange s users.
Proof.
  unfold handleSubscriptionChange at 2 3.
  destruct (Collection.findOne _ users) as [user|] eqn:Hfind.
  - set (user' := setSubscription _ user).
    assert (Hp : same_field (stripeCustomerId user') (Some (customer s)) = true).
    { unfold Collection.findOne in Hfind. apply find_some in Hfind. apply Hfind. }
    unfold handleSubscriptionChange.
    rewrite (findOne_save _id _ users user user' Hfind eq_refl Hp).
    change (setSubscription _ user') with user'.
    apply save_twice.
  - unfold handleSubscriptionChange. rewrite Hfind. reflexivity.
Qed.

(** X23.  Stripe events keep to their collection.  Only a
    subscription event changes the users, and it leaves the licenses
    alone; delivered again, at any time, it changes nothing more; and
    with ids that are unique it changes nothing of any user but the
    subscription. *)
Theorem stripe_events_keep_to_their_collection (env : ProcessEnv)
    (now now' : Z) (uuid uuid' : string) (oid oid' : N)
    (licenses : list LicenseModel.License) (users : list User) :
  (forall event,
     snd (stripe env now uuid oid event licenses users) = users
     \/ exists s,
          (event = Some (SubscriptionUpdated s)
           \/ event = Some (SubscriptionDeleted s))
          /\ stripe env now uuid oid event licenses users
             = (Received, licenses, handleSubscriptionChange s users))
  /\ (forall s event,
        event = Some (SubscriptionUpdated s)
        \/ event = Some (SubscriptionDeleted s) ->
        let first := stripe env now uuid oid event licenses users in
        stripe env now' uuid' oid' event (snd (fst first)) (snd first) = first)
  /\ (forall s,
        NoDup (map _id users) ->
        Forall2 (fun a b =>
                   _id b = _id a /\ email b = email a
                   /\ password b = password a /\ licenseKey b = licenseKey a
                   /\ stripeCustomerId b = stripeCustomerId a
                   /\ createdAt b = createdAt a /\ lastLogin b = lastLogin a)
          users (handleSubscriptionChange s users)).
Proof.
  split; [|split].
  - intros [[session|s|s|]|]; cbn [stripe].
    + left. destruct (WebhookRoutes.handleCheckoutCompleted _ _ _ _ _ _);
        reflexivity.
    + right. exists s. auto.
    + right. exists s. auto.
    + left. reflexivity.
    + left. reflexivity.
  - intros s event [->| ->]; cbn [stripe fst snd];
      rewrite subscription_change_twice; reflexivity.
  - intros s Hids. unfold handleSubscriptionChange.
    destruct (Collection.findOne _ users) as [user|] eqn:Hfind;
      [|apply Forall2_same; repeat split].
    eapply save_found_pointwise with (l := user);
      [exact Hids|exact Hfind|reflexivity| |]; repeat split.
Qed.

End StripeFacts.

(** The subscription of the customer [cus_1] is cancelled, the event
    delivered twice. *)
Lemma stripe_events_example :
  (let first :=
     StripeWebhook.stripe env0 t0 "uuid-1" 1
       (Some (StripeWebhook.SubscriptionDeleted change0)) db0 customers0 in
   StripeWebhook.stripe env0 (t0 + 60000) "uuid-2" 2
     (Some (StripeWebhook.SubscriptionDeleted change0))
     (snd (fst first)) (snd first) = first)
  /\ Forall2 (fun a b =>
                UserModel._id b = UserModel._id a
                /\ UserModel.email b = UserModel.email a
                /\ UserModel.password b = UserModel.password a
                /\ UserModel.licenseKey b = UserModel.licenseKey a
                /\ UserModel.stripeCustomerId b = UserModel.stripeCustomerId a
                /\ UserModel.createdAt b = UserModel.createdAt a
                /\ UserModel.lastLogin b = UserModel.lastLogin a)
       customers0 (StripeWebhook.handleSubscriptionChange change0 customers0).
Proof.
  destruct (stripe_events_keep_to_their_collection (node := Node) env0 t0
              (t0 + 60000) "uuid-1" "uuid-2" 1%N 2%N db0 customers0)
    as (_ & Htwice & Hframe).
  split.
  - apply (Htwice change0). right. reflexivity.
  - apply Hframe. repeat constructor. intros [].
Defined.

(** ** The quota of a purchased license *)

Section QuotaOfAPurchase.
Context {node : NodeRuntime}.
Import LicenseModel.

(** Binding a run of machines, one after the other. *)
Lemma bind_all_fields (ms : list string) (l : License) :
  machineIds (fold_left (fun l m => bind m l) ms l) = (machineIds l ++ ms)%list
  /\ activations (fold_left (fun l m => bind m l) ms l)
     = activations l + Z.of_nat (List.length ms)
  /\ maxActivations (fold_left (fun l m => bind m l) ms l) = maxActivations l
  /\ isActive (fold_left (fun l m => bind m l) ms l) = isActive l
  /\ expiresAt (fold_left (fun l m => bind m l) ms l) = expiresAt l
  /\ email (fold_left (fun l m => bind m l) ms l) = email l.
Proof.
  revert l. induction ms as [|m ms IH]; intro l; cbn [fold_left].
  - rewrite app_nil_r. cbn [List.length]. repeat split. lia.
  - destruct (IH (bind m l)) as (H1 & H2 & H3 & H4 & H5 & H6).
    rewrite H1, H2, H3, H4, H5, H6.
    cbn [bind machineIds activations maxActivations isActive expiresAt email
         List.length].
    rewrite <- app_assoc. repeat split. lia.
Qed.

(** Machines that are new and fit under the limit are all bound. *)
Lemma activate_all (env : ProcessEnv) (now : Z) (key : string) (data : json)
    (ms : list string) (db : list License) (l : License) :
  let byKey := fun x => String.eqb (licenseKey x) key in
  LicenseGenerator.verifyLicenseKey env now key = Valid data ->
  Collection.findOne byKey db = Some l ->
  isActive l = true ->
  lapsed now l = false ->
  Forall (fun m => m <> "") ms ->
  NoDup (machineIds l ++ ms) ->
  activations l + Z.of_nat (List.length ms) <= maxActivations l ->
  Collection.findOne byKey (ledgerRun env now key (map Activate ms) db)
  = Some (fold_left (fun l m => bind m l) ms l).
Proof.
  intros byKey Hkey. unfold ledgerRun. revert db l.
  induction ms as [|m ms IH]; intros db l Hfind Hactive Hlapsed Hne Hnodup Hroom;
    cbn [map fold_left].
  - exact Hfind.
  - inversion Hne as [|? ? Hm Hms]; subst.
    cbn [List.length] in Hroom.
    assert (Hunbound : existsb (String.eqb m) (machineIds l) = false).
    { destruct (existsb (String.eqb m) (machineIds l)) eqn:E; [|reflexivity].
      exfalso. apply existsb_exists in E as (x & Hin & Hx).
      apply String.eqb_eq in Hx. subst x.
      apply NoDup_remove_2 in Hnodup. apply Hnodup.
      apply in_or_app. left. exact Hin. }
    destruct (router_activation_step env now
                {| LicenseRoutes.body_licenseKey := key;
                   LicenseRoutes.body_machineId := Some m |}
                db l m data Hkey Hfind Hactive Hlapsed eq_refl Hm)
      as (Hbind & _ & _).
    destruct (Hbind Hunbound) as (Hrun & Hfound & _); [lia|].
    cbn [ledgerStep]. rewrite Hrun. cbn [snd].
    apply IH.
    + exact Hfound.
    + exact Hactive.
    + exact Hlapsed.
    + exact Hms.
    + cbn [bind machineIds]. rewrite <- app_assoc. exact Hnodup.
    + cbn [bind activations maxActivations]. lia.
Qed.

(** X24.  A purchased license admits three machines and no more.
    After a Gumroad sale that was answered with success, and within the
    year: three distinct machines verified one after the other are all
    bound, the counter then stands at the limit of three the schema
    sets, and a fourth machine is refused with
    [Maximum activations reached], nothing being written. *)
Theorem purchased_license_admits_three_machines (env : ProcessEnv)
    (now now' : Z) (uuid : string) (oid : N) (mailOk : bool)
    (body : WebhookRoutes.GumroadBody) (db : list License)
    (ms : list string) (m : string) :
  let stored := snd (WebhookRoutes.gumroad env now uuid oid mailOk body db) in
  let key := licenseKey (newest stored) in
  let byKey := fun x => String.eqb (licenseKey x) key in
  let bound := ledgerRun env now' key (map Activate ms) stored in
  fst (WebhookRoutes.gumroad env now uuid oid mailOk body db)
  = WebhookRoutes.Success ->
  (forall s,
     env_LICENSE_SECRET env = Some s ->
     JSON_parse (JSON_stringify (envelope s (licenseData (newest stored))))
     = Some (envelope s (licenseData (newest stored)))) ->
  Date_getTime (JStr (Date_toISOString (Date_nextYear now)))
  = Some (Date_nextYear now) ->
  now' <= Date_nextYear now ->
  List.length ms = 3%nat ->
  Forall (fun x => x <> "") (m :: ms) ->
  NoDup (m :: ms) ->
  option_map (fun l => (machineIds l, activations l, maxActivations l))
    (Collection.findOne byKey bound)
  = Some (ms, 3, 3)
  /\ LicenseRoutes.verify env now'
       {| LicenseRoutes.body_licenseKey := key;
          LicenseRoutes.body_machineId := Some m |} bound
     = (LicenseRoutes.Rejected 400 "Maximum activations reached", bound).
Proof.
  intros stored key byKey bound Hfirst Hjson Hdate Hnow Hlen Hne Hnodup.
  unfold bound, byKey, key, stored in *. clear stored key byKey bound.
  unfold WebhookRoutes.gumroad in *.
  destruct (negb (same_field (WebhookRoutes.seller_id body) _)); [discriminate|].
  destruct (Collection.findOne _ db); [discriminate|].
  destruct (LicenseGenerator.generateLicenseKey env _ _ _ uuid now)
    as [issued|] eqn:Hissued; [|discriminate].
  match type of Hfirst with
  | fst (if acceptable ?l db then _ else _) = _ =>
      set (lic := l) in *;
      destruct (acceptable lic db) eqn:Hok; [|discriminate]
  end.
  destruct mailOk; [|discriminate].
  cbn [snd] in *. rewrite newest_insert in *.
  pose proof (generator_issues env _ _ _ uuid now now' issued Hissued Hjson)
    as Hkey.
  cbv beta iota in Hkey.
  assert (Hvalid : LicenseGenerator.verifyLicenseKey env now' (licenseKey lic)
                   = Valid (issued_licenseData issued)).
  { change (licenseKey lic) with (issued_licenseKey issued). rewrite Hkey.
    destruct (negb _); [|reflexivity]. cbn [andb].
    rewrite (past_spec _ _ _ Hdate).
    destruct (Z.gtb_spec now' (Date_nextYear now)); [lia|reflexivity]. }
  assert (Hlapsed : lapsed now' lic = false).
  { unfold lapsed. cbn [lic newLicense expiresAt].
    destruct (Z.gtb_spec now' (Date_nextYear now)); [lia|reflexivity]. }
  inversion Hne as [|? ? Hm Hms]; subst.
  inversion Hnodup as [|? ? Hnew Hdistinct]; subst.
  pose proof (activate_all env now' (licenseKey lic) (issued_licenseData issued)
                ms (Collection.insert lic db) lic Hvalid (insert_found _ _ Hok)
                eq_refl Hlapsed Hms) as Hall.
  cbn [lic newLicense machineIds activations maxActivations app] in Hall.
  fold lic in Hall. rewrite Hlen in Hall.
  specialize (Hall Hdistinct ltac:(cbn; lia)).
  destruct (bind_all_fields ms lic) as (Hids & Hcount & Hmax & Hact & Hexp & _).
  cbn [lic newLicense machineIds activations maxActivations isActive expiresAt
       app] in Hids, Hcount, Hmax, Hact, Hexp.
  fold lic in Hids, Hcount, Hmax, Hact, Hexp. rewrite Hlen in Hcount.
  split.
  - rewrite Hall. cbn [option_map]. rewrite Hids, Hcount, Hmax. reflexivity.
  - destruct (router_activation_step env now'
                {| LicenseRoutes.body_licenseKey := licenseKey lic;
                   LicenseRoutes.body_machineId := Some m |}
                _ _ m _ Hvalid Hall) as (_ & Hfull & _).
    + exact Hact.
    + unfold lapsed. rewrite Hexp. exact Hlapsed.
    + reflexivity.
    + exact Hm.
    + apply Hfull.
      * rewrite Hids.
        destruct (existsb (String.eqb m) ms) eqn:E; [|reflexivity].
        exfalso. apply existsb_exists in E as (x & Hin & Hx).
        apply String.eqb_eq in Hx. subst x. contradiction.
      * rewrite Hcount, Hmax. cbn. lia.
Qed.

End QuotaOfAPurchase.

(** The license of [db0]: [m1], [m2] and [m3] are bound, [m4] is
    refused. *)
Lemma three_machines_example :
  let stored := snd (WebhookRoutes.gumroad env0 t0 "uuid-1" 1 true sale0 []) in
  let key := LicenseModel.licenseKey (newest stored) in
  let byKey := fun x => String.eqb (LicenseModel.licenseKey x) key in
  let bound :=
    ledgerRun env0 (t0 + 60000) key (map Activate ["m1"; "m2"; "m3"]) stored in
  option_map
    (fun l => (LicenseModel.machineIds l, LicenseModel.activations l,
               LicenseModel.maxActivations l))
    (Collection.findOne byKey bound)
  = Some (["m1"; "m2"; "m3"], 3, 3)
  /\ LicenseRoutes.verify env0 (t0 + 60000)
       {| LicenseRoutes.body_licenseKey := key;
          LicenseRoutes.body_machineId := Some "m4" |} bound
     = (LicenseRoutes.Rejected 400 "Maximum activations reached", bound).
Proof.
  refine (purchased_license_admits_three_machines (node := Node) env0 t0
            (t0 + 60000) "uuid-1" 1%N true sale0 [] ["m1"; "m2"; "m3"] "m4"
            _ _ _ _ _ _ _).
  - vm_compute. reflexivity.
  - intros s Hs. injection Hs as <-. vm_compute. reflexivity.
  - vm_compute. reflexivity.
  - vm_compute. discriminate.
  - reflexivity.
  - repeat constructor; discriminate.
  - repeat constructor; cbn; intuition discriminate.
Defined.

(** ** A machine released and bound again *)

Section RoundTripOfAMachine.
Context {node : NodeRuntime}.
Import LicenseModel LicenseRoutes.

Lemma unbound_after_release (m : string) (ids : list string) :
  existsb (String.eqb m)
    (filter (fun id => negb (same_field (Some id) (Some m))) ids) = false.
Proof.
  induction ids as [|x rest IH]; cbn [filter]; [reflexivity|].
  change (same_field (Some x) (Some m)) with (String.eqb x m).
  destruct (String.eqb_spec x m) as [->|Hx]; cbn [negb existsb]; [exact IH|].
  rewrite IH, orb_false_r. apply String.eqb_neq. congruence.
Qed.

Lemma in_release (m x : string) (ids : list string) :
  In x (filter (fun id => negb (same_field (Some id) (Some m))) ids ++ [m])
  <-> In x ids \/ x = m.
Proof.
  rewrite in_app_iff, filter_In. cbn [In].
  change (same_field (Some x) (Some m)) with (String.eqb x m).
  destruct (String.eqb_spec x m) as [->|Hx]; cbn [negb]; intuition congruence.
Qed.

(** X25.  Releasing a machine and binding it again restores the
    ledger.  On a license in lockstep that passes the checks: after
    [/deactivate] of a bound machine, [/verify] for that machine is
    accepted and binds it again; the counter is what it was, the same
    machines are bound (the one that came back now last), and the
    lockstep holds. *)
Theorem release_then_rebind_restores_the_ledger (env : ProcessEnv) (now : Z)
    (req : VerifyRequest) (db : list License) (license : License)
    (m : string) (data : json) :
  let key := body_licenseKey req in
  let byKey := fun l => String.eqb (licenseKey l) key in
  let released := snd (deactivate key (Some m) db) in
  let rebound := bind m (unbind (Some m) license) in
  LicenseGenerator.verifyLicenseKey env now key = Valid data ->
  Collection.findOne byKey db = Some license ->
  isActive license = true ->
  lapsed now license = false ->
  ledgerInv license ->
  body_machineId req = Some m ->
  m <> "" ->
  existsb (String.eqb m) (machineIds license) = true ->
  verify env now req released
  = (Accepted (expiresAt license) (email license),
     Collection.save _id rebound released)
  /\ Collection.findOne byKey (snd (verify env now req released)) = Some rebound
  /\ activations rebound = activations license
  /\ (forall x, In x (machineIds rebound) <-> In x (machineIds license))
  /\ ledgerInv rebound.
Proof.
  intros key byKey released rebound Hkey Hfind Hactive Hlapsed Hinv Hm Hne Hbound.
  assert (Hp : byKey license = true).
  { unfold Collection.findOne in Hfind. apply find_some in Hfind. apply Hfind. }
  assert (Hfound : Collection.findOne byKey released
                   = Some (unbind (Some m) license)).
  { unfold released, deactivate. fold byKey. rewrite Hfind. cbn [snd].
    apply (findOne_save _id byKey db license);
      [exact Hfind|reflexivity|exact Hp]. }
  pose proof (unbind_keeps m license Hinv Hbound) as Hinv'.
  assert (Hin : In m (machineIds license)).
  { apply existsb_exists in Hbound as (x & Hx & E).
    apply String.eqb_eq in E. subst x. exact Hx. }
  destruct Hinv as (Hnodup & Hcount & Hmax).
  pose proof (filter_bound m (machineIds license) Hnodup Hin) as Hlen.
  assert (Hroom : activations (unbind (Some m) license)
                  < maxActivations (unbind (Some m) license)).
  { cbn [unbind activations maxActivations]. lia. }
  assert (Hfree : existsb (String.eqb m) (machineIds (unbind (Some m) license))
                  = false).
  { cbn [unbind machineIds]. apply unbound_after_release. }
  destruct (router_activation_step env now req released
              (unbind (Some m) license) m data Hkey Hfound Hactive Hlapsed Hm Hne)
    as (Hbind & _ & _).
  destruct (Hbind Hfree Hroom) as (Hrun & Hthen & _).
  rewrite Hrun. cbn [snd]. split; [reflexivity|]. split; [exact Hthen|].
  split; [|split].
  - unfold rebound. cbn [bind unbind activations]. lia.
  - intro x. unfold rebound. cbn [bind unbind machineIds].
    rewrite in_release. split; [intros [H| ->]; assumption|auto].
  - apply bind_keeps; assumption.
Qed.

End RoundTripOfAMachine.

(** On the license of [db3]: [m2] is released and bound again. *)
Lemma rebind_example :
  let key := LicenseRoutes.body_licenseKey (reqM (Some "m2")) in
  let byKey := fun l => String.eqb (LicenseModel.licenseKey l) key in
  let released := snd (LicenseRoutes.deactivate key (Some "m2") db3) in
  let rebound :=
    LicenseModel.bind "m2" (LicenseModel.unbind (Some "m2") (theLicense db3)) in
  LicenseRoutes.verify env0 t0 (reqM (Some "m2")) released
  = (LicenseRoutes.Accepted (LicenseModel.expiresAt (theLicense db3))
       (LicenseModel.email (theLicense db3)),
     Collection.save LicenseModel._id rebound released)
  /\ Collection.findOne byKey
       (snd (LicenseRoutes.verify env0 t0 (reqM (Some "m2")) released))
     = Some rebound
  /\ LicenseModel.activations rebound
     = LicenseModel.activations (theLicense db3)
  /\ (forall x,
        In x (LicenseModel.machineIds rebound)
        <-> In x (LicenseModel.machineIds (theLicense db3)))
  /\ ledgerInv rebound.
Proof.
  refine (release_then_rebind_restores_the_ledger (node := Node) env0 t0
            (reqM (Some "m2")) db3 (theLicense db3) "m2"
            (LicenseModel.licenseData (theLicense db0)) _ _ _ _ _ _ _ _).
  1-4: vm_compute; reflexivity.
  - vm_compute. split; [|split; [reflexivity|discriminate]].
    repeat constructor; cbn; intuition discriminate.
  - reflexivity.
  - discriminate.
  - vm_compute. reflexivity.
Defined.

(** ** The seller check without a seller id *)

Section SellerCheck.
Context {node : NodeRuntime}.

(** X26.  Without [GUMROAD_SELLER_ID] in the environment the seller
    check guards nothing it was meant to.  The webhook router refuses
    exactly the deliveries that name a seller, so one that names none
    passes; the enhanced server skips the check and answers no
    delivery with [Invalid seller ID]. *)
Theorem unset_seller_id_opens_the_webhooks (env : ProcessEnv) :
  env_GUMROAD_SELLER_ID env = None ->
  (forall now uuid oid mailOk body db,
     fst (WebhookRoutes.gumroad env now uuid oid mailOk body db)
     = WebhookRoutes.Unauthorized
     <-> WebhookRoutes.seller_id body <> None)
  /\ (forall now rnd oid body db,
        fst (Server.gumroadWebhook env now rnd oid body db)
        <> Server.InvalidSeller).
Proof.
  intro Hunset. split.
  - intros now uuid oid mailOk body db. unfold WebhookRoutes.gumroad.
    rewrite Hunset.
    destruct (WebhookRoutes.seller_id body) as [s|]; cbn [same_field negb fst].
    + split; [discriminate|reflexivity].
    + split; [|intro H; now contradiction H].
      destruct (Collection.findOne _ db); [discriminate|].
      destruct (LicenseGenerator.generateLicenseKey _ _ _ _ _ _);
        [|discriminate].
      destruct (LicenseModel.acceptable _ db); [|discriminate].
      destruct mailOk; discriminate.
  - intros now rnd oid body db. unfold Server.gumroadWebhook.
    unfold Server.CONFIG_GUMROAD_SELLER_ID. rewrite Hunset.
    cbn [or_default String.eqb negb andb].
    destruct (negb (same_field (Server.resource_name body) (Some "sale")));
      [discriminate|].
    destruct (Collection.findOne _ db); [discriminate|].
    destruct (Server.acceptable _ db); discriminate.
Qed.

End SellerCheck.

(** In [envOpen], the sale [sale0], which names its seller, is
    refused by the router, and [saleS] is not refused by the enhanced
    server. *)
Lemma open_webhooks_example :
  fst (WebhookRoutes.gumroad envOpen t0 "uuid-1" 1 true sale0 [])
  = WebhookRoutes.Unauthorized
  /\ fst (Server.gumroadWebhook envOpen t0 rnd0 1 saleS [])
     <> Server.InvalidSeller.
Proof.
  destruct (unset_seller_id_opens_the_webhooks (node := Node) envOpen eq_refl)
    as [HR HS].
  split.
  - apply HR. discriminate.
  - apply HS.
Defined.
